(** * Metadata generator for training videos: model and verification

    Shallow embedding of [src/metadata.py] (class [MetadataGenerator]).

    Modelling conventions
    - Python [str] values are [string]s of ASCII characters.  Case mapping,
      digit and whitespace classes are the ASCII restrictions of Python's
      ([str.lower], [str.capitalize], [\d], [str.split()]); names with
      characters above 127 are outside the modelled domain.
    - [pathlib.Path] is [PurePosixPath] with the [name]/[suffix]/[stem]
      rules of CPython 3.4 to 3.13.
    - The blob service is an explicit state: the container's blobs in
      listing order plus a script of the faults the next calls will meet.
      A listing is a lazy iterator: it delivers some items and may then
      raise.  [print] is an append to an event log.
    - [json.dumps] is a parameter of the development. *)

From Stdlib Require Import ZArith NArith Ascii String List Bool Lia DecimalString.
From stdpp Require Import base decidable strings gmap.
Import ListNotations.

Local Open Scope Z_scope.
Set Warnings "-register-all".

(** [simpl] unfolds a concatenation whose left operand starts with a
    character. *)
Arguments String.append !s1 s2 : simpl nomatch.

(* ===================================================================== *)
(** ** Python [str] methods used by the generator *)
(* ===================================================================== *)

Module Str.

Definition code (c : ascii) : N := N_of_ascii c.

Definition in_range (lo hi : N) (c : ascii) : bool :=
  (lo <=? code c)%N && (code c <=? hi)%N.

(** The ASCII classes: [A-Z], [a-z] and [0-9].  They agree with
    [str.isupper], [str.islower] and the [\d] of [re] on characters below
    128 and are false above, where Python's are not. *)
Definition is_upper (c : ascii) : bool := in_range 65 90 c.
Definition is_lower (c : ascii) : bool := in_range 97 122 c.
Definition is_digit (c : ascii) : bool := in_range 48 57 c.
Definition is_alnum (c : ascii) : bool :=
  is_upper c || is_lower c || is_digit c.

(** [str.isspace] on ASCII: TAB..CR, FS..US and the blank; false above
    127, where Python has further blanks. *)
Definition is_space (c : ascii) : bool :=
  in_range 9 13 c || in_range 28 32 c.

(** Case mapping of one ASCII character; a character above 127 is left
    as it is, where Python maps letters such as U+00E9. *)
Definition lower_char (c : ascii) : ascii :=
  if is_upper c then ascii_of_N (code c + 32) else c.

Definition upper_char (c : ascii) : ascii :=
  if is_lower c then ascii_of_N (code c - 32) else c.

Fixpoint map (f : ascii -> ascii) (s : string) : string :=
  match s with
  | EmptyString => EmptyString
  | String c r => String (f c) (map f r)
  end.

(** [s.lower()], for [s] of ASCII characters. *)
Definition lower (s : string) : string := map lower_char s.

(** [s.capitalize()], for [s] of ASCII characters: first character
    upper-cased, the rest lower-cased. *)
Definition capitalize (s : string) : string :=
  match s with
  | EmptyString => EmptyString
  | String c r => String (upper_char c) (lower r)
  end.

(** [s[n:]] *)
Fixpoint drop (n : nat) (s : string) : string :=
  match n, s with
  | O, _ => s
  | S _, EmptyString => EmptyString
  | S n', String _ r => drop n' r
  end.

(** [s[:n]] *)
Fixpoint take (n : nat) (s : string) : string :=
  match n, s with
  | O, _ => EmptyString
  | S _, EmptyString => EmptyString
  | S n', String c r => String c (take n' r)
  end.

(** [s.startswith(p)] *)
Definition startswith (p s : string) : bool := String.prefix p s.

(** [s.endswith(p)] *)
Definition endswith (p s : string) : bool :=
  (String.length p <=? String.length s)%nat
  && String.eqb (drop (String.length s - String.length p) s) p.

(** [sub in s] *)
Fixpoint contains (sub s : string) : bool :=
  String.prefix sub s
  || match s with
     | EmptyString => false
     | String _ r => contains sub r
     end.

(** [any(word in s for word in words)] *)
Definition contains_any (words : list string) (s : string) : bool :=
  existsb (fun w => contains w s) words.

(** [s in words] for a list of strings *)
Definition mem (s : string) (words : list string) : bool :=
  existsb (String.eqb s) words.

(** ['/' in s] and friends *)
Fixpoint has_char (c : ascii) (s : string) : bool :=
  match s with
  | EmptyString => false
  | String a r => Ascii.eqb a c || has_char c r
  end.

(** [s.split(sep)] for a one-character separator: never empty. *)
Fixpoint split (sep : ascii) (s : string) : list string :=
  match s with
  | EmptyString => [EmptyString]
  | String c r =>
      if Ascii.eqb c sep then EmptyString :: split sep r
      else match split sep r with
           | h :: t => String c h :: t
           | [] => [String c EmptyString]
           end
  end.

(** [s.replace(a, b)] for one-character [a] and [b] *)
Definition replace (a b : ascii) (s : string) : string :=
  map (fun c => if Ascii.eqb c a then b else c) s.

(** [s.rfind(c)]: index of the last occurrence, [None] for [-1]. *)
Fixpoint rfind (c : ascii) (s : string) : option nat :=
  match s with
  | EmptyString => None
  | String a r =>
      match rfind c r with
      | Some i => Some (S i)
      | None => if Ascii.eqb a c then Some O else None
      end
  end.

(** [s.split()], for [s] of ASCII characters: the maximal runs of
    non-blank characters. *)
Fixpoint words (s : string) : list string :=
  match s with
  | EmptyString => []
  | String c r =>
      if is_space c then words r
      else match r with
           | EmptyString => [String c EmptyString]
           | String d _ =>
               if is_space d then String c EmptyString :: words r
               else match words r with
                    | h :: t => String c h :: t
                    | [] => [String c EmptyString]
                    end
           end
  end.

(** [sep.join(l)] *)
Definition join (sep : string) (l : list string) : string :=
  String.concat sep l.

End Str.

(* ===================================================================== *)
(** ** [pathlib.PurePosixPath]: [name], [suffix], [stem] *)
(* ===================================================================== *)

Module PurePath.

(** Path components: the empty and ["."] segments are dropped. *)
Definition parts (p : string) : list string :=
  List.filter (fun x => negb (String.eqb x "") && negb (String.eqb x "."))
              (Str.split "/" p).

(** [Path(p).name]: the last component, [""] when there is none. *)
Definition name (p : string) : string := List.last (parts p) "".

(** Index [i] of the last dot of a name when [0 < i < len(name) - 1]. *)
Definition suffix_index (n : string) : option nat :=
  match Str.rfind "." n with
  | Some i =>
      if (0 <? i)%nat && (i <? String.length n - 1)%nat then Some i else None
  | None => None
  end.

Definition suffix (p : string) : string :=
  let n := name p in
  match suffix_index n with
  | Some i => Str.drop i n
  | None => ""
  end.

Definition stem (p : string) : string :=
  let n := name p in
  match suffix_index n with
  | Some i => Str.take i n
  | None => n
  end.

End PurePath.

(* ===================================================================== *)
(** ** The three [re.sub] calls of [clean_filename_for_title] *)
(* ===================================================================== *)

Module Re.

(** [re.sub('[cls]+', repl, s)]: scanning from the left, every maximal
    run of [cls] characters is replaced by [repl].  [pending] tells that
    the scan is inside a run whose replacement was already emitted. *)
Fixpoint sub_runs_from (pending : bool) (cls : ascii -> bool)
         (repl : string) (s : string) : string :=
  match s with
  | EmptyString => EmptyString
  | String c r =>
      if cls c then
        if pending then sub_runs_from true cls repl r
        else repl +:+ sub_runs_from true cls repl r
      else String c (sub_runs_from false cls repl r)
  end.

Definition sub_runs := sub_runs_from false.

Definition is_sep (c : ascii) : bool :=
  Ascii.eqb c "-" || Ascii.eqb c "_".

(** First alternative of [alts] that matches at the start of [s],
    ignoring case: the length it consumes. *)
Fixpoint match_alt_ci (alts : list string) (s : string) : option nat :=
  match alts with
  | [] => None
  | a :: rest =>
      if Str.startswith a (Str.lower s) then Some (String.length a)
      else match_alt_ci rest s
  end.

(** [re.sub(r'^(beginner|intermediate|advanced)[-_]?', '', s,
    flags=re.IGNORECASE)] *)
Definition sub_category_prefix (s : string) : string :=
  match match_alt_ci ["beginner"; "intermediate"; "advanced"] s with
  | Some n =>
      match Str.drop n s with
      | String c r => if is_sep c then r else String c r
      | EmptyString => EmptyString
      end
  | None => s
  end.

End Re.

(* ===================================================================== *)
(** ** [urllib.parse.quote] with the default [safe='/'] *)
(* ===================================================================== *)

Module Url.

Definition is_safe (c : ascii) : bool :=
  Str.is_alnum c
  || Str.mem (String c EmptyString) ["_"; "."; "-"; "~"; "/"].

Definition hex_digit (n : N) : ascii :=
  if (n <? 10)%N then ascii_of_N (48 + n) else ascii_of_N (55 + n).

Fixpoint quote (s : string) : string :=
  match s with
  | EmptyString => EmptyString
  | String c r =>
      if is_safe c then String c (quote r)
      else String "%" (String (hex_digit (Str.code c / 16))
                         (String (hex_digit (Str.code c mod 16)) (quote r)))
  end.

End Url.


(* ===================================================================== *)
(** ** Data model *)
(* ===================================================================== *)

(** JSON values, as [json.dumps] receives them.  A Python [dict] is an
    association list in insertion order with unique keys. *)
Inductive json : Type :=
| JStr (s : string)
| JInt (n : Z)
| JList (l : list json)
| JDict (d : list (string * json)).

Module Dict.

Definition t := list (string * json).

(** [d.get(k)] *)
Fixpoint get (k : string) (d : t) : option json :=
  match d with
  | [] => None
  | (k', v) :: r => if String.eqb k' k then Some v else get k r
  end.

(** [d[k] = v]: replaces in place, appends a new key. *)
Fixpoint set (k : string) (v : json) (d : t) : t :=
  match d with
  | [] => [(k, v)]
  | (k', v') :: r =>
      if String.eqb k' k then (k', v) :: r else (k', v') :: set k v r
  end.

(** [d.update(other)] *)
Definition update (d other : t) : t :=
  fold_left (fun acc kv => set (fst kv) (snd kv) acc) other d.

End Dict.

(** The [video_info] dictionary built by [list_existing_videos]. *)
Record VideoInfo := {
  blob_name : string;
  file_name : string;
  clean_name : string;
  category : string;
  size : Z;
  url : string
}.

(** One entry of [generate_chapters]. *)
Record Chapter := {
  ch_title : string;
  start_time : Z;
  end_time : Z;
  ch_description : string
}.

Definition json_of_chapter (c : Chapter) : json :=
  JDict [("title", JStr (ch_title c));
         ("start_time", JInt (start_time c));
         ("end_time", JInt (end_time c));
         ("description", JStr (ch_description c))].

(* ===================================================================== *)
(** ** The blob service *)
(* ===================================================================== *)

(** A raised exception, by its message. *)
Definition error := string.

(** What a blob holds: a payload that is never read (a video) of a known
    length, or a text document. *)
Inductive Body :=
| Opaque (length : Z)
| Text (s : string).

Definition body_size (b : Body) : Z :=
  match b with
  | Opaque n => n
  | Text s => Z.of_nat (String.length s)
  end.

(** [BlobProperties], the items of a listing. *)
Record BlobProperties := { name : string; bsize : Z }.

(** A lazy listing: delivers [items], then raises [failure] if any. *)
Record Listing := { items : list BlobProperties; failure : option error }.

(** The container and the faults scripted for the coming calls: the
    [n]-th listing iterated raises after [k] items when the [n]-th entry
    of [list_faults] is [Some (k, e)]; the [n]-th upload raises [e] when
    the [n]-th entry of [upload_faults] is [Some e].  Past the end of a
    script every call succeeds. *)
Record Service := {
  blobs : list (string * Body);
  list_faults : list (option (nat * error));
  upload_faults : list (option error)
}.

Definition props (b : string * Body) : BlobProperties :=
  {| name := fst b; bsize := body_size (snd b) |}.

(** [container_client.list_blobs(name_starts_with=prefix)] *)
Definition list_blobs (prefix : option string) (s : Service) : Listing * Service :=
  let all := List.map props (blobs s) in
  let sel := match prefix with
             | Some p => List.filter (fun b => Str.startswith p (name b)) all
             | None => all
             end in
  match list_faults s with
  | Some (k, e) :: rest =>
      ({| items := firstn k sel; failure := Some e |},
       {| blobs := blobs s; list_faults := rest; upload_faults := upload_faults s |})
  | None :: rest =>
      ({| items := sel; failure := None |},
       {| blobs := blobs s; list_faults := rest; upload_faults := upload_faults s |})
  | [] => ({| items := sel; failure := None |}, s)
  end.

(** Writing a blob with [overwrite=True]: replaces the body of an existing
    name, adds a new name at the end. *)
Fixpoint put (path : string) (b : Body) (l : list (string * Body))
  : list (string * Body) :=
  match l with
  | [] => [(path, b)]
  | (n, b') :: r =>
      if String.eqb n path then (n, b) :: r else (n, b') :: put path b r
  end.

(** [get_blob_client(path).upload_blob(data, overwrite=True)]:
    [Some e] when the call raises. *)
Definition upload_blob (path data : string) (s : Service) : option error * Service :=
  match upload_faults s with
  | Some e :: rest =>
      (Some e,
       {| blobs := blobs s; list_faults := list_faults s; upload_faults := rest |})
  | None :: rest =>
      (None,
       {| blobs := put path (Text data) (blobs s);
          list_faults := list_faults s; upload_faults := rest |})
  | [] =>
      (None,
       {| blobs := put path (Text data) (blobs s);
          list_faults := list_faults s; upload_faults := [] |})
  end.

(** A service that never fails. *)
Definition reliable (l : list (string * Body)) : Service :=
  {| blobs := l; list_faults := []; upload_faults := [] |}.

(* ===================================================================== *)
(** ** Effects: the service and the printed lines *)
(* ===================================================================== *)

(** The lines the generator prints, without their wording. *)
Inductive Event :=
| Scanning
| Found (n : nat)
| ListError (e : error)
| NoVideos
| GeneratingFor (n : nat)
| Skipping (file : string)
| Generating (file : string)
| Created (blob_path : string)
| UploadError (metadata_filename : string) (e : error)
| Complete (generated skipped total : nat)
| NotFound (video : string).

Record World := { service : Service; stdout : list Event }.

Definition M (A : Type) : Type := World -> A * World.

Definition ret {A} (a : A) : M A := fun w => (a, w).

Definition bind {A B} (m : M A) (k : A -> M B) : M B :=
  fun w => let (a, w') := m w in k a w'.

Notation "'do' x <- m ; k" := (bind m (fun x => k))
  (at level 10, x pattern, m at level 100, k at level 200).

Definition print (e : Event) : M unit :=
  fun w => (tt, {| service := service w; stdout := stdout w ++ [e] |}).

Definition call {A} (f : Service -> A * Service) : M A :=
  fun w => let (a, s) := f (service w) in
           (a, {| service := s; stdout := stdout w |}).

(** [for x in l: acc = body(acc, x)] *)
Fixpoint for_each {A S} (l : list A) (body : S -> A -> M S) (acc : S) : M S :=
  match l with
  | [] => ret acc
  | x :: r => do acc' <- body acc x; for_each r body acc'
  end.

(* ===================================================================== *)
(** ** [MetadataGenerator] *)
(* ===================================================================== *)

Definition categories : list string := ["beginner"; "intermediate"; "advanced"].

Definition video_extensions : list string :=
  [".mp4"; ".avi"; ".mov"; ".wmv"; ".mkv"; ".flv"; ".webm"].

Definition beginner_words : list string :=
  ["beginner"; "basic"; "intro"; "fundamentals"; "101"; "start"].
Definition advanced_words : list string :=
  ["advanced"; "expert"; "master"; "professional"; "deep"].
Definition intermediate_words : list string :=
  ["intermediate"; "medium"; "standard"; "level2"].

(** [detect_category_from_filename] *)
Definition detect_category_from_filename (filename : string) : string :=
  let filename_lower := Str.lower filename in
  if Str.contains_any beginner_words filename_lower then "beginner"
  else if Str.contains_any advanced_words filename_lower then "advanced"
  else if Str.contains_any intermediate_words filename_lower then "intermediate"
  else "beginner".

(** The [for cat in [...]] loop of [parse_video_info]: the first category
    [cat] such that the lowercased name starts with [cat + "-"]. *)
Fixpoint find_prefix (cats : list string) (file_name : string)
  : option (string * string) :=
  match cats with
  | [] => None
  | cat :: rest =>
      if Str.startswith (cat +:+ "-") (Str.lower file_name)
      then Some (cat, Str.drop (String.length cat + 1) file_name)
      else find_prefix rest file_name
  end.

(** [parse_video_info]: category and clean name of a blob name. *)
Definition parse_video_info (blob_name : string) : string * string :=
  let file_name := PurePath.stem blob_name in
  let parts := Str.split "/" blob_name in
  if Str.has_char "/" blob_name
     && (2 <=? List.length parts)%nat
     && Str.mem (Str.lower (List.hd "" parts)) categories
  then (Str.lower (List.hd "" parts), PurePath.stem (List.last parts ""))
  else
    match find_prefix categories file_name with
    | Some r => r
    | None => (detect_category_from_filename file_name, file_name)
    end.

(** [estimate_duration] *)
Definition estimate_duration (file_size : Z) : Z :=
  Z.max 300 (Z.min 7200 (file_size / (1024 * 1024) * 8)).

(** [clean_filename_for_title] *)
Definition clean_filename_for_title (filename : string) : string :=
  let title := Re.sub_category_prefix filename in
  let title := Re.sub_runs Re.is_sep " " title in
  let title := Re.sub_runs Str.is_digit "" title in
  let title := Str.join " " (List.map Str.capitalize (Str.words title)) in
  if String.eqb title "" then "Training Video" else title.

(** [[word.lower() for word in title.split() if len(word) > 3]] *)
Definition long_words (title : string) : list string :=
  List.map Str.lower
    (List.filter (fun w => (3 <? String.length w)%nat) (Str.words title)).

(** [list(set(l))]: the elements without repetition, in the order the set
    happens to enumerate them. *)
Definition list_set (l : list string) : list string :=
  elements (list_to_set l : gset string).

(** [generate_topics_from_title] *)
Definition generate_topics_from_title (title : string) : list string :=
  list_set (["training"; "tutorial"] ++ firstn 3 (long_words title)).

(** [generate_tags] *)
Definition generate_tags (title category : string) : list string :=
  list_set (["training"; "tutorial"; category] ++ firstn 3 (long_words title)).

(** [generate_learning_objectives] *)
Definition objectives_map (title : string) : list (string * list string) :=
  [("beginner",
    ["Understand the fundamentals of " +:+ Str.lower title;
     "Apply basic concepts in practical scenarios";
     "Identify key principles and best practices"]);
   ("intermediate",
    ["Master intermediate techniques in " +:+ Str.lower title;
     "Analyze complex scenarios and develop solutions";
     "Integrate concepts with existing knowledge"]);
   ("advanced",
    ["Achieve expert-level proficiency in " +:+ Str.lower title;
     "Develop innovative approaches and strategies";
     "Lead implementation and mentor others"])].

(** [m.get(k, default)] on a table of string lists *)
Fixpoint table_get (k : string) (default : list string)
         (m : list (string * list string)) : list string :=
  match m with
  | [] => default
  | (k', v) :: r => if String.eqb k' k then v else table_get k default r
  end.

Definition generate_learning_objectives (title category : string) : list string :=
  let m := objectives_map title in
  table_get category (table_get "beginner" [] m) m.

(** [generate_prerequisites] *)
Definition prereq_map : list (string * list string) :=
  [("beginner", []);
   ("intermediate",
    ["Basic understanding of core concepts";
     "Completion of beginner-level training"]);
   ("advanced",
    ["Intermediate certification"; "Practical experience";
     "Strong foundational knowledge"])].

Definition generate_prerequisites (category : string) : list string :=
  table_get category [] prereq_map.

Definition mk_chapter (t : string) (a b : Z) (d : string) : Chapter :=
  {| ch_title := t; start_time := a; end_time := b; ch_description := d |}.

Definition beginner_chapters (title : string) : list Chapter :=
  [mk_chapter "Course Introduction" 0 180 ("Welcome and overview of " +:+ title);
   mk_chapter "Basic Concepts" 180 900 "Fundamental principles and concepts";
   mk_chapter "Practical Examples" 900 1200 "Step-by-step examples and demonstrations";
   mk_chapter "Practice & Summary" 1200 1500 "Practice exercises and key takeaways"].

Definition intermediate_chapters : list Chapter :=
  [mk_chapter "Review & Setup" 0 300 "Prerequisites review and setup";
   mk_chapter "Advanced Concepts" 300 1000 "Intermediate-level concepts and techniques";
   mk_chapter "Case Studies" 1000 1400 "Real-world applications and case studies";
   mk_chapter "Best Practices" 1400 1800 "Industry best practices and next steps"].

Definition advanced_chapters : list Chapter :=
  [mk_chapter "Expert Overview" 0 240 "Advanced concepts overview";
   mk_chapter "Deep Dive Analysis" 240 1080 "In-depth technical analysis";
   mk_chapter "Advanced Techniques" 1080 1560 "Expert-level techniques and strategies";
   mk_chapter "Innovation & Leadership" 1560 1800 "Innovation approaches and leadership aspects"].

(** [generate_chapters] *)
Definition generate_chapters (title category : string) : list Chapter :=
  if String.eqb category "beginner" then beginner_chapters title
  else if String.eqb category "intermediate" then intermediate_chapters
  else advanced_chapters.

(** The [video_id] expression of [create_metadata]. *)
Definition slug (clean_name : string) : string :=
  Str.replace "_" "-" (Str.replace " " "-" (Str.lower clean_name)).

Definition video_id_of (category clean_name : string) : string :=
  category +:+ "-" +:+ slug clean_name.

(** [create_metadata] *)
Definition create_metadata (video_info : VideoInfo) (custom_data : option Dict.t)
  : Dict.t :=
  let clean_name := clean_name video_info in
  let category := category video_info in
  let title := clean_filename_for_title clean_name in
  let video_id := video_id_of category clean_name in
  let metadata :=
    [("video_id", JStr video_id);
     ("title", JStr title);
     ("description",
      JStr ("Training video: " +:+ title +:+ " - " +:+ Str.capitalize category
            +:+ " level content for comprehensive learning"));
     ("category", JStr category);
     ("duration_seconds", JInt (estimate_duration (size video_info)));
     ("thumbnail_url", JStr "");
     ("video_url", JStr (url video_info));
     ("transcript",
      JStr ("Training content covering " +:+ Str.lower title +:+ ". This "
            +:+ category
            +:+ "-level course provides comprehensive instruction on the topic."));
     ("topics", JList (List.map JStr (generate_topics_from_title title)));
     ("learning_objectives",
      JList (List.map JStr (generate_learning_objectives title category)));
     ("prerequisites", JList (List.map JStr (generate_prerequisites category)));
     ("difficulty_level", JStr category);
     ("instructor", JStr "Training Expert");
     ("created_date", JStr "2024-10-21T00:00:00Z");
     ("updated_date", JStr "2024-10-21T00:00:00Z");
     ("tags", JList (List.map JStr (generate_tags title category)));
     ("chapters",
      JList (List.map json_of_chapter (generate_chapters title category)))] in
  match custom_data with
  | Some d => if Nat.eqb (List.length d) 0 then metadata else Dict.update metadata d
  | None => metadata
  end.

(** [for x in listing] with the accumulator the loop has built when the
    listing raises. *)
Definition iterate {S} (l : Listing) (body : S -> BlobProperties -> S) (acc : S)
  : S * option error :=
  (fold_left body (items l) acc, failure l).

Section Generator.

(** [json.dumps(metadata, indent=2)] *)
Variable dumps : Dict.t -> string.

(** [blob_service.account_name] and [container_name] *)
Variables account_name container_name : string.

Definition video_url (blob_name : string) : string :=
  "https://" +:+ account_name +:+ ".blob.core.windows.net/"
  +:+ container_name +:+ "/" +:+ Url.quote blob_name.

Definition video_of (blob : BlobProperties) : VideoInfo :=
  let (category, clean_name) := parse_video_info (name blob) in
  {| blob_name := name blob;
     file_name := PurePath.name (name blob);
     clean_name := clean_name;
     category := category;
     size := bsize blob;
     url := video_url (name blob) |}.

Definition is_video (blob_name : string) : bool :=
  Str.mem (Str.lower (PurePath.suffix blob_name)) video_extensions.

(** Body of the loop of [list_existing_videos]. *)
Definition scan (videos : list VideoInfo) (blob : BlobProperties)
  : list VideoInfo :=
  if Str.startswith "metadata/" (name blob) then videos
  else if is_video (name blob) then videos ++ [video_of blob]
  else videos.

(** [list_existing_videos] *)
Definition list_existing_videos : M (list VideoInfo) :=
  do _ <- print Scanning;
  do listing <- call (list_blobs None);
  match iterate listing scan [] with
  | (videos, None) => do _ <- print (Found (List.length videos)); ret videos
  | (_, Some e) => do _ <- print (ListError e); ret []
  end.

(** [upload_metadata] *)
Definition upload_metadata (metadata : Dict.t) (metadata_filename : string)
  : M bool :=
  let metadata_json := dumps metadata in
  let blob_path := "metadata/" +:+ metadata_filename in
  do r <- call (upload_blob blob_path metadata_json);
  match r with
  | None => do _ <- print (Created blob_path); ret true
  | Some e => do _ <- print (UploadError metadata_filename e); ret false
  end.

(** Body of the loop that fills [existing_metadata]. *)
Definition note_existing (existing : gset string) (blob : BlobProperties)
  : gset string :=
  if Str.endswith ".json" (name blob)
  then {[ PurePath.stem (name blob) ]} ∪ existing
  else existing.

(** The [try ... except: pass] block of [generate_all_metadata]. *)
Definition existing_metadata_of (listing : Listing) : gset string :=
  fst (iterate listing note_existing ∅).

(** Body of the main loop of [generate_all_metadata]; the accumulator is
    [(generated_count, skipped_count)]. *)
Definition process (existing_metadata : gset string) (force_overwrite : bool)
           (counts : nat * nat) (video : VideoInfo) : M (nat * nat) :=
  let (generated_count, skipped_count) := counts in
  let metadata_filename := clean_name video +:+ ".json" in
  if bool_decide (clean_name video ∈ existing_metadata) && negb force_overwrite
  then
    do _ <- print (Skipping (file_name video));
    ret (generated_count, S skipped_count)
  else
    do _ <- print (Generating (file_name video));
    let metadata := create_metadata video None in
    do ok <- upload_metadata metadata metadata_filename;
    ret (if ok then S generated_count else generated_count, skipped_count).

(** [generate_all_metadata] *)
Definition generate_all_metadata (force_overwrite : bool) : M unit :=
  do videos <- list_existing_videos;
  match videos with
  | [] => print NoVideos
  | _ :: _ =>
      do _ <- print (GeneratingFor (List.length videos));
      do metadata_blobs <- call (list_blobs (Some "metadata/"));
      let existing_metadata := existing_metadata_of metadata_blobs in
      do counts <- for_each videos (process existing_metadata force_overwrite)
                            (O, O);
      print (Complete (fst counts) (snd counts) (List.length videos))
  end.

(** [generate_metadata_for_video] *)
Definition generate_metadata_for_video (video_blob_name : string)
           (custom_metadata : option Dict.t) : M unit :=
  do videos <- list_existing_videos;
  match List.find (fun v => String.eqb (blob_name v) video_blob_name
                            || String.eqb (file_name v) video_blob_name)
                  videos with
  | None => print (NotFound video_blob_name)
  | Some target_video =>
      do _ <- print (Generating (file_name target_video));
      let metadata := create_metadata target_video custom_metadata in
      do _ <- upload_metadata metadata (clean_name target_video +:+ ".json");
      ret tt
  end.

(** Running an operation against a service, from an empty output. *)
Definition run {A} (m : M A) (s : Service) : A * World :=
  m {| service := s; stdout := [] |}.

(** The service a run leaves behind and the lines it printed. *)
Definition after {A} (m : M A) (s : Service) : Service :=
  service (snd (run m s)).
Definition printed {A} (m : M A) (s : Service) : list Event :=
  stdout (snd (run m s)).

End Generator.


(** A concrete serializer, used where an example needs one: compact JSON
    text (quotes and backslashes escaped). *)
Module Json.

Definition dquote : ascii := ascii_of_nat 34.

Fixpoint escape (s : string) : string :=
  match s with
  | EmptyString => EmptyString
  | String c r =>
      if Ascii.eqb c dquote || Ascii.eqb c "\"
      then String "\" (String c (escape r))
      else String c (escape r)
  end.

Definition quoted (s : string) : string :=
  String dquote (escape s +:+ String dquote EmptyString).

Definition number (n : Z) : string :=
  NilZero.string_of_int (Z.to_int n).

Fixpoint text (j : json) : string :=
  match j with
  | JStr s => quoted s
  | JInt n => number n
  | JList l => "[" +:+ Str.join ", " (List.map text l) +:+ "]"
  | JDict d =>
      "{" +:+ Str.join ", "
               (List.map (fun kv => quoted (fst kv) +:+ ": " +:+ text (snd kv)) d)
      +:+ "}"
  end.

Definition dumps (d : Dict.t) : string := text (JDict d).

End Json.

(* ===================================================================== *)
(** ** The specification's vocabulary *)
(* ===================================================================== *)

(** [clamp(x, lo, hi)] *)
Definition clamp (x lo hi : Z) : Z :=
  if x <? lo then lo else if hi <? x then hi else x.

(** [s] contains one of the words of [ws]. *)
Definition has_word (ws : list string) (s : string) : Prop :=
  exists w, In w ws /\ exists a b, s = a +:+ w +:+ b.

(** The category-folder rule: the path has a directory separator and its
    first segment is a category name up to case. *)
Definition folder_rule (path : string) : Prop :=
  exists seg rest,
    path = seg +:+ "/" +:+ rest
    /\ Str.has_char "/" seg = false
    /\ In (Str.lower seg) categories.

(** The category-prefix rule: the base name starts, up to case, with a
    category name and a hyphen. *)
Definition prefix_rule (path : string) : Prop :=
  exists cat rest,
    In cat categories
    /\ Str.lower (PurePath.stem path) = cat +:+ "-" +:+ rest.

(** Keyword detection in the order the specification gives: advanced,
    intermediate, beginner, default. *)
Definition spec_keyword_category (base : string) : string :=
  let n := Str.lower base in
  if Str.contains_any advanced_words n then "advanced"
  else if Str.contains_any intermediate_words n then "intermediate"
  else if Str.contains_any beginner_words n then "beginner"
  else "beginner".

(** The final segment of a path: what follows its last separator. *)
Definition last_segment (path : string) : string :=
  match Str.rfind "/" path with
  | Some i => Str.drop (S i) path
  | None => path
  end.

(** The test of the first branch of [parse_video_info]. *)
Definition folder_test (blob_name : string) : bool :=
  Str.has_char "/" blob_name
  && (2 <=? List.length (Str.split "/" blob_name))%nat
  && Str.mem (Str.lower (List.hd "" (Str.split "/" blob_name))) categories.

(** [s] without its characters of class [cls]. *)
Fixpoint remove_chars (cls : ascii -> bool) (s : string) : string :=
  match s with
  | EmptyString => EmptyString
  | String c r => if cls c then remove_chars cls r else String c (remove_chars cls r)
  end.

(** Every run of ['-'] and ['_'] replaced by one blank: a separator that
    another separator follows disappears, the last one of a run becomes
    the blank. *)
Fixpoint collapse_separators (s : string) : string :=
  match s with
  | EmptyString => EmptyString
  | String c r =>
      if Re.is_sep c then
        match r with
        | String d _ =>
            if Re.is_sep d then collapse_separators r
            else String " " (collapse_separators r)
        | EmptyString => " "
        end
      else String c (collapse_separators r)
  end.

(** A leading category word, in any case, and one separator after it are
    taken off. *)
Definition strip_category_prefix (s : string) : string :=
  match List.find (fun cat => Str.startswith cat (Str.lower s)) categories with
  | Some cat =>
      let rest := Str.drop (String.length cat) s in
      if Str.startswith "-" rest || Str.startswith "_" rest
      then Str.drop 1 rest else rest
  | None => s
  end.

(** [titleFromName] in the specification's steps. *)
Definition titleFromName (cleanName : string) : string :=
  let cleaned :=
    remove_chars Str.is_digit
      (collapse_separators (strip_category_prefix cleanName)) in
  match List.map Str.capitalize (Str.words cleaned) with
  | [] => "Training Video"
  | tokens => Str.join " " tokens
  end.

(** The inventory filter: outside [metadata/] and with a video extension. *)
Definition in_inventory (blob_name : string) : bool :=
  negb (Str.startswith "metadata/" blob_name) && is_video blob_name.

(** Where the metadata document of an entry is written. *)
Definition metadata_path (v : VideoInfo) : string :=
  "metadata/" +:+ clean_name v +:+ ".json".

(** Projections of the printed lines. *)
Definition skipped_files (out : list Event) : list string :=
  flat_map (fun e => match e with Skipping f => [f] | _ => [] end) out.

Definition generating_files (out : list Event) : list string :=
  flat_map (fun e => match e with Generating f => [f] | _ => [] end) out.

(** The blob paths of the uploads a run attempted, done or failed. *)
Definition upload_paths (out : list Event) : list string :=
  flat_map (fun e => match e with
                     | Created p => [p]
                     | UploadError f _ => ["metadata/" +:+ f]
                     | _ => []
                     end) out.

Definition list_errors (out : list Event) : list error :=
  flat_map (fun e => match e with ListError x => [x] | _ => [] end) out.

(** The body stored under a name, if any. *)
Fixpoint get_blob (path : string) (l : list (string * Body)) : option Body :=
  match l with
  | [] => None
  | (n, b) :: r => if String.eqb n path then Some b else get_blob path r
  end.

(** The test that makes the main loop skip a video. *)
Definition skips (existing : gset string) (force : bool) (v : VideoInfo) : bool :=
  bool_decide (clean_name v ∈ existing) && negb force.

(** Example containers. *)
Definition mixed_container : Service :=
  reliable [("beginner/a.mp4", Opaque 1048576);
            ("notes.txt", Opaque 120);
            ("metadata/old.mp4", Opaque 1048576);
            ("clip.MOV", Opaque 5242880)].

(** Two videos and the document of the first; the second listing of a run
    raises after delivering one item. *)
Definition flaky_container : Service :=
  {| blobs := [("a.mp4", Opaque 1048576);
               ("b.mp4", Opaque 2097152);
               ("metadata/a.json", Text "{}")];
     list_faults := [None; Some (1%nat, "timeout")];
     upload_faults := [] |}.

(** One video whose clean name is empty. *)
Definition bare_prefix_container : Service :=
  reliable [("beginner-.mp4", Opaque 1048576)].

(** The inventory of a container whose listing completes. *)
Definition inventory_of (account_name container_name : string) (s : Service)
  : list VideoInfo :=
  List.map (video_of account_name container_name)
    (List.filter (fun b => in_inventory (name b)) (List.map props (blobs s))).

(** Every character of [s] satisfies [p]. *)
Fixpoint all_chars (p : ascii -> bool) (s : string) : bool :=
  match s with
  | EmptyString => true
  | String c r => p c && all_chars p r
  end.

(** Neither a digit nor one of ['-'] and ['_']. *)
Definition title_char (c : ascii) : bool :=
  negb (Str.is_digit c) && negb (Re.is_sep c).

(** Neither a blank, an underscore nor an upper-case letter. *)
Definition slug_char (c : ascii) : bool :=
  negb (Ascii.eqb c " ") && negb (Ascii.eqb c "_") && negb (Str.is_upper c).

(** What [urllib.parse.quote] lets through or produces. *)
Definition url_char (c : ascii) : bool := Url.is_safe c || Ascii.eqb c "%".

(** The chapters follow one another from time [t], each with a positive
    length. *)
Fixpoint contiguous_from (t : Z) (l : list Chapter) : Prop :=
  match l with
  | [] => True
  | c :: r =>
      start_time c = t /\ start_time c < end_time c
      /\ contiguous_from (end_time c) r
  end.

(** The keys of a metadata document, in the order they are written. *)
Definition metadata_keys : list string :=
  ["video_id"; "title"; "description"; "category"; "duration_seconds";
   "thumbnail_url"; "video_url"; "transcript"; "topics";
   "learning_objectives"; "prerequisites"; "difficulty_level"; "instructor";
   "created_date"; "updated_date"; "tags"; "chapters"].

(** More projections of the printed lines. *)
Definition created_paths (out : list Event) : list string :=
  flat_map (fun e => match e with Created p => [p] | _ => [] end) out.

Definition failed_uploads (out : list Event) : list string :=
  flat_map (fun e => match e with UploadError f _ => [f] | _ => [] end) out.

(** The test of the search loop of [generate_metadata_for_video]. *)
Definition matches (video_blob_name : string) (v : VideoInfo) : bool :=
  String.eqb (blob_name v) video_blob_name
  || String.eqb (file_name v) video_blob_name.

(** Some blob under [metadata/] whose name ends in [.json] has the base
    name [c]. *)
Definition documented (s : Service) (c : string) : bool :=
  existsb (fun n => Str.startswith "metadata/" n
                    && Str.endswith ".json" n
                    && String.eqb (PurePath.stem n) c)
          (List.map fst (blobs s)).

(** A container with documents in a subfolder, with an upper-case
    extension and with a further extension. *)
Definition nested_container : Service :=
  reliable [("a.mp4", Opaque 1048576);
            ("b.mp4", Opaque 1048576);
            ("c.mp4", Opaque 1048576);
            ("metadata/archive/a.json", Text "{}");
            ("metadata/b.JSON", Text "{}");
            ("metadata/c.json.bak", Text "{}")].

(** Two videos with the same file name and clean name, in two folders. *)
Definition twin_container : Service :=
  reliable [("beginner/a.mp4", Opaque 1048576);
            ("advanced/a.mp4", Opaque 2097152)].

(** The videos and the set of existing documents a batch run works with. *)
Definition batch_videos (account_name container_name : string) (s : Service)
  : list VideoInfo :=
  fst (run (list_existing_videos account_name container_name) s).

Definition batch_existing (account_name container_name : string) (s : Service)
  : gset string :=
  existing_metadata_of
    (fst (list_blobs (Some "metadata/")
            (service (snd (run (list_existing_videos account_name
                                                     container_name) s))))).

(** A character of the modelled domain: below 128. *)
Definition ascii_char (c : ascii) : bool := (Str.code c <? 128)%N.

(** The attempts of a run that succeed: the [n]-th upload attempted fails
    exactly when the [n]-th entry of the script of upload faults is an
    error. *)
Fixpoint uploaded (faults : list (option error)) (attempts : list VideoInfo)
  : list VideoInfo :=
  match attempts with
  | [] => []
  | v :: r =>
      match faults with
      | Some _ :: rest => uploaded rest r
      | None :: rest => v :: uploaded rest r
      | [] => v :: uploaded [] r
      end
  end.

(** One video; the listing raises after delivering it. *)
Definition interrupted_container : Service :=
  {| blobs := [("beginner/a.mp4", Opaque 1048576)];
     list_faults := [Some (1%nat, "timeout")];
     upload_faults := [] |}.

(** Three videos and the document of the first; the enumeration of
    [metadata/] raises after one item, the first upload succeeds and the
    second raises. *)
Definition half_failing_container : Service :=
  {| blobs := [("a.mp4", Opaque 1048576);
               ("b.mp4", Opaque 2097152);
               ("c.mp4", Opaque 3145728);
               ("metadata/a.json", Text "{}")];
     list_faults := [None; Some (1%nat, "timeout")];
     upload_faults := [None; Some "boom"] |}.

(* ===================================================================== *)
(** ** Facts about the string functions *)
(* ===================================================================== *)

Section StrFacts.

Lemma app_nil_r (s : string) : s +:+ "" = s.
Proof. induction s as [|c s IH]; simpl; [reflexivity | now rewrite IH]. Qed.

Lemma app_assoc (a b c : string) : (a +:+ b) +:+ c = a +:+ (b +:+ c).
Proof. induction a as [|x a IH]; simpl; [reflexivity | now rewrite IH]. Qed.

Lemma length_app (a b : string) :
  String.length (a +:+ b) = (String.length a + String.length b)%nat.
Proof. induction a as [|x a IH]; simpl; [reflexivity | now rewrite IH]. Qed.

Lemma app_inj_r (a b c : string) : a +:+ c = b +:+ c -> a = b.
Proof.
  revert b. induction a as [|x a IH]; intros [|y b] H; simpl in H.
  - reflexivity.
  - apply (f_equal String.length) in H. simpl in H.
    rewrite length_app in H. lia.
  - apply (f_equal String.length) in H. simpl in H.
    rewrite length_app in H. lia.
  - injection H as -> H. f_equal. now apply IH.
Qed.

Lemma drop_app_length (a b : string) : Str.drop (String.length a) (a +:+ b) = b.
Proof. induction a as [|x a IH]; simpl; [now destruct b | exact IH]. Qed.

Lemma take_app_length (a b : string) : Str.take (String.length a) (a +:+ b) = a.
Proof.
  induction a as [|x a IH]; simpl; [now destruct b | now rewrite IH].
Qed.

Lemma take_drop (n : nat) (s : string) : Str.take n s +:+ Str.drop n s = s.
Proof.
  revert s; induction n as [|n IH]; intros [|c s]; simpl; try reflexivity.
  now rewrite IH.
Qed.

(** [startswith] is being a prefix. *)
Lemma startswith_iff (p s : string) :
  Str.startswith p s = true <-> exists r, s = p +:+ r.
Proof.
  unfold Str.startswith. revert s.
  induction p as [|c p IH]; intros s; simpl.
  - split; [intros _; exists s; reflexivity | now destruct s].
  - destruct s as [|d s]; simpl.
    + split; [discriminate | intros [r Hr]; discriminate].
    + destruct (ascii_dec c d) as [->|Hne].
      * rewrite IH. split; intros [r Hr]; exists r; congruence.
      * split; [discriminate | intros [r Hr]; congruence].
Qed.

Lemma startswith_app (p r : string) : Str.startswith p (p +:+ r) = true.
Proof. apply startswith_iff. now exists r. Qed.

(** [contains] is being a substring. *)
Lemma contains_iff (sub s : string) :
  Str.contains sub s = true <-> exists a b, s = a +:+ sub +:+ b.
Proof.
  induction s as [|c s IH]; simpl.
  - rewrite orb_false_r. split.
    + intros H. apply (startswith_iff sub "") in H as [r Hr].
      exists "", r. exact Hr.
    + intros [a [b H]]. destruct a; [|discriminate].
      apply (startswith_iff sub ""). now exists b.
  - rewrite orb_true_iff, IH. split.
    + intros [H | [a [b H]]].
      * apply (startswith_iff sub (String c s)) in H as [r Hr].
        exists "", r. exact Hr.
      * exists (String c a), b. simpl. now rewrite H.
    + intros [[|x a] [b H]]; simpl in H.
      * left. apply (startswith_iff sub (String c s)). now exists b.
      * right. exists a, b. congruence.
Qed.

Lemma contains_any_iff (ws : list string) (s : string) :
  Str.contains_any ws s = true
  <-> exists w, In w ws /\ exists a b, s = a +:+ w +:+ b.
Proof.
  unfold Str.contains_any. rewrite existsb_exists.
  split; intros [w [Hw H]]; exists w; split; auto; now apply contains_iff.
Qed.

Lemma mem_iff (s : string) (ws : list string) :
  Str.mem s ws = true <-> In s ws.
Proof.
  unfold Str.mem. rewrite existsb_exists. split.
  - intros [w [Hw H]]. apply String.eqb_eq in H. now subst.
  - intros H. exists s. split; [exact H | apply String.eqb_refl].
Qed.

End StrFacts.

(* ===================================================================== *)
(** ** Duration estimate *)
(* ===================================================================== *)

Lemma estimate_duration_bounds (n : Z) : 300 <= estimate_duration n <= 7200.
Proof. unfold estimate_duration. lia. Qed.

Lemma estimate_duration_mono (a b : Z) :
  a <= b -> estimate_duration a <= estimate_duration b.
Proof.
  intros H. unfold estimate_duration.
  assert (a / (1024 * 1024) <= b / (1024 * 1024))
    by (apply Z.div_le_mono; lia).
  lia.
Qed.

(** C5. For every size of at least zero bytes the estimate is
    [clamp(size div 1048576 * 8, 300, 7200)]; it lies in [[300, 7200]];
    the estimate of 0 is 300 and that of 900 MiB is 7200; and a larger
    size never gets a smaller estimate. *)
Theorem estimate_duration_clamp (sizeBytes larger : Z) :
  0 <= sizeBytes -> sizeBytes <= larger ->
  estimate_duration sizeBytes = clamp (sizeBytes / 1048576 * 8) 300 7200
  /\ 300 <= estimate_duration sizeBytes <= 7200
  /\ estimate_duration 0 = 300
  /\ estimate_duration (900 * 1024 * 1024) = 7200
  /\ estimate_duration sizeBytes <= estimate_duration larger.
Proof.
  intros Hpos Hle. repeat split.
  - unfold estimate_duration, clamp. change (1024 * 1024) with 1048576.
    destruct (Z.ltb_spec (sizeBytes / 1048576 * 8) 300);
      destruct (Z.ltb_spec 7200 (sizeBytes / 1048576 * 8)); lia.
  - apply estimate_duration_bounds.
  - apply estimate_duration_bounds.
  - now apply estimate_duration_mono.
Qed.

Lemma estimate_duration_clamp_witness :
  estimate_duration 419430400 = clamp (419430400 / 1048576 * 8) 300 7200
  /\ 300 <= estimate_duration 419430400 <= 7200
  /\ estimate_duration 0 = 300
  /\ estimate_duration (900 * 1024 * 1024) = 7200
  /\ estimate_duration 419430400 <= estimate_duration 524288000.
Proof. apply (estimate_duration_clamp 419430400 524288000); lia. Defined.

(* ===================================================================== *)
(** ** Category tables *)
(* ===================================================================== *)

Lemma table_get_absent k d (m : list (string * list string)) :
  ~ In k (List.map fst m) -> table_get k d m = d.
Proof.
  induction m as [|[k' v] m IH]; simpl; intros H; [reflexivity|].
  destruct (String.eqb_spec k' k) as [->|Hne]; [tauto|].
  apply IH. tauto.
Qed.

(** C3, as stated, fails: "expert" is none of the three categories and
    [generate_chapters] gives it the advanced chapters, not the beginner
    ones. *)
Lemma unknown_category_chapters_counterexample :
  Str.mem "expert" categories = false
  /\ generate_chapters "Deep Dive" "expert" = advanced_chapters
  /\ generate_chapters "Deep Dive" "expert" <> beginner_chapters "Deep Dive"
  /\ generate_chapters "Deep Dive" "beginner" = beginner_chapters "Deep Dive".
Proof.
  split; [reflexivity|]. split; [reflexivity|]. split; [|reflexivity].
  vm_compute. discriminate.
Qed.

(** C3, amended. The objectives and the prerequisites are table lookups
    with the three categories as keys, and an unknown category gets the
    beginner value.  [generate_chapters] is a three-way branch: the
    beginner chapters for "beginner", the intermediate chapters for
    "intermediate" and the advanced chapters for every other value, so an
    unknown category gets the advanced chapters, which are not the
    beginner ones. *)
Theorem unknown_category_lookups (title category : string) :
  ~ In category categories ->
  List.map fst (objectives_map title) = categories
  /\ List.map fst prereq_map = categories
  /\ generate_learning_objectives title category
     = generate_learning_objectives title "beginner"
  /\ generate_prerequisites category = generate_prerequisites "beginner"
  /\ generate_chapters title "beginner" = beginner_chapters title
  /\ generate_chapters title "intermediate" = intermediate_chapters
  /\ generate_chapters title "advanced" = advanced_chapters
  /\ generate_chapters title category = advanced_chapters
  /\ generate_chapters title category <> generate_chapters title "beginner".
Proof.
  intros Hc.
  assert (Hb : String.eqb category "beginner" = false).
  { apply String.eqb_neq. intros ->. apply Hc. simpl. tauto. }
  assert (Hi : String.eqb category "intermediate" = false).
  { apply String.eqb_neq. intros ->. apply Hc. simpl. tauto. }
  split; [reflexivity|]. split; [reflexivity|]. split; [|split].
  - unfold generate_learning_objectives.
    rewrite (table_get_absent category); [reflexivity | exact Hc].
  - unfold generate_prerequisites.
    rewrite (table_get_absent category); [reflexivity | exact Hc].
  - split; [reflexivity|]. split; [reflexivity|]. split; [reflexivity|].
    unfold generate_chapters. rewrite Hb, Hi. split; [reflexivity|].
    simpl. unfold advanced_chapters, beginner_chapters. discriminate.
Qed.

Lemma unknown_category_lookups_witness :
  generate_learning_objectives "Deep Dive" "expert"
  = generate_learning_objectives "Deep Dive" "beginner"
  /\ generate_prerequisites "expert" = generate_prerequisites "beginner"
  /\ generate_chapters "Deep Dive" "expert" = advanced_chapters
  /\ generate_chapters "Deep Dive" "expert"
     <> generate_chapters "Deep Dive" "beginner".
Proof.
  assert (H : ~ In "expert" categories)
    by (simpl; intros [H|[H|[H|[]]]]; discriminate H).
  destruct (unknown_category_lookups "Deep Dive" "expert" H)
    as (_ & _ & H1 & H2 & _ & _ & _ & H3 & H4).
  split; [exact H1|]. split; [exact H2|]. split; [exact H3 | exact H4].
Defined.

(* ===================================================================== *)
(** ** Splitting a path *)
(* ===================================================================== *)

Section SplitFacts.

Variable sep : ascii.

Lemma split_nonempty (s : string) : Str.split sep s <> [].
Proof.
  destruct s as [|c s]; simpl; [discriminate|].
  destruct (Ascii.eqb c sep); [discriminate|].
  destruct (Str.split sep s); discriminate.
Qed.

Lemma split_no_sep (s : string) :
  Str.has_char sep s = false -> Str.split sep s = [s].
Proof.
  induction s as [|c s IH]; simpl; [reflexivity|].
  intros H. apply orb_false_iff in H as [Hc Hs].
  rewrite Hc, (IH Hs). reflexivity.
Qed.

Lemma split_app_sep (a b : string) :
  Str.has_char sep a = false ->
  Str.split sep (a +:+ String sep b) = a :: Str.split sep b.
Proof.
  induction a as [|c a IH]; simpl; intros H.
  - now rewrite Ascii.eqb_refl.
  - apply orb_false_iff in H as [Hc Ha].
    rewrite Hc, (IH Ha). reflexivity.
Qed.

Lemma has_char_app (a b : string) :
  Str.has_char sep (a +:+ b) = Str.has_char sep a || Str.has_char sep b.
Proof.
  induction a as [|c a IH]; simpl; [reflexivity|].
  now rewrite IH, orb_assoc.
Qed.

(** A string with a separator is its first segment, the separator and
    the rest. *)
Lemma split_hd (s : string) :
  Str.has_char sep s = true ->
  exists rest,
    s = List.hd "" (Str.split sep s) +:+ String sep rest
    /\ Str.has_char sep (List.hd "" (Str.split sep s)) = false.
Proof.
  induction s as [|c s IH]; simpl; [discriminate|].
  destruct (Ascii.eqb_spec c sep) as [->|Hne]; simpl.
  - intros _. exists s. split; reflexivity.
  - intros H. destruct (IH H) as [rest [Hs Hh]].
    destruct (Str.split sep s) as [|h t] eqn:E;
      [now apply split_nonempty in E|].
    simpl in *. exists rest. split.
    + now rewrite Hs at 1.
    + apply orb_false_iff. split; [|exact Hh].
      now apply Ascii.eqb_neq.
Qed.

Lemma split_length_sep (s : string) :
  Str.has_char sep s = true -> (2 <= List.length (Str.split sep s))%nat.
Proof.
  intros H. destruct (split_hd s H) as [rest [Hs Hh]].
  rewrite Hs at 1. rewrite split_app_sep by exact Hh.
  pose proof (split_nonempty rest).
  destruct (Str.split sep rest); simpl; [congruence | lia].
Qed.

Lemma rfind_none (s : string) :
  Str.rfind sep s = None <-> Str.has_char sep s = false.
Proof.
  induction s as [|c s IH]; simpl; [tauto|].
  destruct (Str.rfind sep s) as [i|].
  - split; [discriminate|]. intros H. apply orb_false_iff in H as [_ H].
    apply IH in H. discriminate.
  - destruct (Ascii.eqb c sep); simpl; [split; discriminate|].
    split; intros _; [now apply IH | reflexivity].
Qed.

Lemma last_cons_nonempty {A} (a d : A) (l : list A) :
  l <> [] -> List.last (a :: l) d = List.last l d.
Proof. destruct l; [congruence | reflexivity]. Qed.

(** The last element of the split is what follows the last separator. *)
Lemma split_last (s : string) :
  List.last (Str.split sep s) "" =
  match Str.rfind sep s with
  | Some i => Str.drop (S i) s
  | None => s
  end.
Proof.
  induction s as [|c s IH]; [reflexivity|].
  pose proof (split_nonempty s) as Hne.
  cbn [Str.split Str.rfind].
  destruct (Ascii.eqb_spec c sep) as [->|Hc].
  - rewrite last_cons_nonempty by exact Hne. rewrite IH.
    destruct (Str.rfind sep s); reflexivity.
  - destruct (Str.split sep s) as [|h t] eqn:E; [congruence|].
    destruct (Str.rfind sep s) as [i|] eqn:R.
    + assert (Hs : Str.has_char sep s = true).
      { destruct (Str.has_char sep s) eqn:Hh; [reflexivity|].
        apply rfind_none in Hh. congruence. }
      apply split_length_sep in Hs. rewrite E in Hs.
      destruct t as [|h' t']; [simpl in Hs; lia|].
      rewrite last_cons_nonempty by discriminate.
      rewrite last_cons_nonempty in IH by discriminate.
      exact IH.
    + apply rfind_none in R. rewrite (split_no_sep s R) in E.
      injection E as <- <-. reflexivity.
Qed.

End SplitFacts.

Lemma split_last_segment (path : string) :
  List.last (Str.split "/" path) "" = last_segment path.
Proof. apply split_last. Qed.

(* ===================================================================== *)
(** ** Classification *)
(* ===================================================================== *)

Lemma folder_rule_iff (path : string) :
  folder_rule path <-> folder_test path = true.
Proof.
  unfold folder_rule, folder_test. split.
  - intros (seg & rest & -> & Hseg & Hcat).
    change (seg +:+ "/" +:+ rest) with (seg +:+ String "/" rest).
    rewrite (split_app_sep "/" seg rest Hseg).
    rewrite has_char_app.
    replace (Str.has_char "/" (String "/" rest)) with true by reflexivity.
    pose proof (split_nonempty "/" rest).
    destruct (Str.split "/" rest) eqn:E; [congruence|].
    rewrite orb_true_r. cbn [List.hd List.length].
    apply andb_true_iff. split; [reflexivity | now apply mem_iff].
  - intros H. apply andb_true_iff in H as [H Hcat].
    apply andb_true_iff in H as [Hsep _].
    destruct (split_hd "/" path Hsep) as (rest & Hp & Hh).
    exists (List.hd "" (Str.split "/" path)), rest.
    split; [exact Hp|]. split; [exact Hh|]. now apply mem_iff.
Qed.

Lemma find_prefix_some (cats : list string) (n cat r : string) :
  find_prefix cats n = Some (cat, r) ->
  In cat cats
  /\ Str.startswith (cat +:+ "-") (Str.lower n) = true
  /\ r = Str.drop (String.length cat + 1) n.
Proof.
  induction cats as [|c cats IH]; simpl; [discriminate|].
  destruct (Str.startswith (c +:+ "-") (Str.lower n)) eqn:E.
  - intros [= <- <-]. auto.
  - intros H. destruct (IH H) as (? & ? & ?). auto.
Qed.

Lemma find_prefix_none (cats : list string) (n : string) :
  find_prefix cats n = None <->
  forall cat, In cat cats -> Str.startswith (cat +:+ "-") (Str.lower n) = false.
Proof.
  induction cats as [|c cats IH]; simpl.
  - split; [intros _ ? [] | reflexivity].
  - destruct (Str.startswith (c +:+ "-") (Str.lower n)) eqn:E.
    + split; [discriminate|]. intros H. specialize (H c (or_introl eq_refl)).
      congruence.
    + rewrite IH. split.
      * intros H cat [<-|Hin]; auto.
      * intros H cat Hin. apply H. now right.
Qed.

Lemma prefix_rule_iff (path : string) :
  prefix_rule path <-> find_prefix categories (PurePath.stem path) <> None.
Proof.
  unfold prefix_rule. split.
  - intros (cat & rest & Hin & Hl) Hnone.
    rewrite find_prefix_none in Hnone. specialize (Hnone cat Hin).
    rewrite Hl in Hnone.
    rewrite <- app_assoc, startswith_app in Hnone. discriminate.
  - intros H.
    destruct (find_prefix categories (PurePath.stem path)) as [[cat r]|] eqn:E;
      [|congruence].
    apply find_prefix_some in E as (Hin & Hs & _).
    apply startswith_iff in Hs as [rest Hr].
    exists cat, rest. split; [exact Hin|]. now rewrite Hr, app_assoc.
Qed.

(** The three prefixes exclude one another, so the order of the loop does
    not matter. *)
Lemma find_prefix_category (n cat : string) :
  In cat categories ->
  Str.startswith (cat +:+ "-") (Str.lower n) = true ->
  find_prefix categories n = Some (cat, Str.drop (String.length cat + 1) n).
Proof.
  intros Hin Hs. pose proof Hs as Hs'.
  apply startswith_iff in Hs' as [rest Hr].
  unfold categories, find_prefix.
  simpl in Hin. destruct Hin as [<-|[<-|[<-|[]]]]; rewrite Hs.
  - reflexivity.
  - rewrite Hr. reflexivity.
  - rewrite Hr. reflexivity.
Qed.

Lemma parse_video_info_folder (path : string) :
  folder_test path = true ->
  parse_video_info path
  = (Str.lower (List.hd "" (Str.split "/" path)),
     PurePath.stem (last_segment path)).
Proof.
  intros H. unfold parse_video_info. fold (folder_test path).
  rewrite H, split_last_segment. reflexivity.
Qed.

Lemma parse_video_info_no_folder (path : string) :
  folder_test path = false ->
  parse_video_info path
  = match find_prefix categories (PurePath.stem path) with
    | Some r => r
    | None => (detect_category_from_filename (PurePath.stem path),
               PurePath.stem path)
    end.
Proof.
  intros H. unfold parse_video_info. fold (folder_test path).
  rewrite H. reflexivity.
Qed.

Lemma not_folder_rule (path : string) :
  ~ folder_rule path -> folder_test path = false.
Proof.
  intros H. destruct (folder_test path) eqn:E; [|reflexivity].
  exfalso. apply H. now apply folder_rule_iff.
Qed.

Lemma not_prefix_rule (path : string) :
  ~ prefix_rule path -> find_prefix categories (PurePath.stem path) = None.
Proof.
  intros H. destruct (find_prefix _ _) eqn:E; [|reflexivity].
  exfalso. apply H. apply prefix_rule_iff. congruence.
Qed.

(** C6. The rules apply in priority order, first match wins: a path with a
    separator whose first segment is a category name up to case gets that
    segment, lowercased, as category and the final segment's name without
    extension as clean name; otherwise a base name that starts, up to case,
    with a category and a hyphen gets that category and the remainder as
    clean name; only otherwise keyword detection is applied. *)
Theorem classification_priority (path : string) :
  (forall seg rest,
      path = seg +:+ "/" +:+ rest ->
      Str.has_char "/" seg = false ->
      In (Str.lower seg) categories ->
      parse_video_info path
      = (Str.lower seg, PurePath.stem (last_segment path)))
  /\ (~ folder_rule path ->
      forall cat,
        In cat categories ->
        Str.startswith (cat +:+ "-") (Str.lower (PurePath.stem path)) = true ->
        parse_video_info path
        = (cat, Str.drop (String.length (cat +:+ "-")) (PurePath.stem path)))
  /\ (~ folder_rule path -> ~ prefix_rule path ->
      parse_video_info path
      = (detect_category_from_filename (PurePath.stem path),
         PurePath.stem path)).
Proof.
  split; [|split].
  - intros seg rest Hp Hseg Hcat.
    assert (Hf : folder_rule path) by (exists seg, rest; auto).
    apply folder_rule_iff in Hf. rewrite (parse_video_info_folder path Hf).
    subst path. change (seg +:+ "/" +:+ rest) with (seg +:+ String "/" rest).
    rewrite (split_app_sep "/" seg rest Hseg). reflexivity.
  - intros Hf cat Hin Hs.
    rewrite (parse_video_info_no_folder path (not_folder_rule path Hf)).
    rewrite (find_prefix_category _ cat Hin Hs).
    rewrite length_app. reflexivity.
  - intros Hf Hp.
    rewrite (parse_video_info_no_folder path (not_folder_rule path Hf)).
    rewrite (not_prefix_rule path Hp). reflexivity.
Qed.

Lemma classification_priority_witness :
  parse_video_info "Beginner/Intro.mp4" = ("beginner", "Intro")
  /\ parse_video_info "advanced-deep-dive.mp4" = ("advanced", "deep-dive")
  /\ parse_video_info "random_video_101.mp4" = ("beginner", "random_video_101").
Proof.
  split; [|split].
  - apply (proj1 (classification_priority "Beginner/Intro.mp4")
                 "Beginner" "Intro.mp4");
      [reflexivity | reflexivity | simpl; tauto].
  - apply (proj1 (proj2 (classification_priority "advanced-deep-dive.mp4"))).
    + intros H. apply folder_rule_iff in H. discriminate H.
    + simpl; tauto.
    + reflexivity.
  - apply (proj2 (proj2 (classification_priority "random_video_101.mp4"))).
    + intros H. apply folder_rule_iff in H. discriminate H.
    + intros H. apply prefix_rule_iff in H. apply H. reflexivity.
Defined.

(** C1, as stated, fails: a name outside the folder and prefix rules that
    contains the beginner keyword "intro" and the advanced keyword "master"
    is classified beginner, where advanced-first detection gives advanced. *)
Lemma keyword_precedence_counterexample :
  ~ folder_rule "master-class-intro.mp4"
  /\ ~ prefix_rule "master-class-intro.mp4"
  /\ has_word beginner_words (Str.lower (PurePath.stem "master-class-intro.mp4"))
  /\ has_word advanced_words (Str.lower (PurePath.stem "master-class-intro.mp4"))
  /\ spec_keyword_category (PurePath.stem "master-class-intro.mp4") = "advanced"
  /\ fst (parse_video_info "master-class-intro.mp4") = "beginner"
  /\ fst (parse_video_info "master-class-intro.mp4") <> "advanced".
Proof.
  repeat split.
  - intros H. apply folder_rule_iff in H. discriminate H.
  - intros H. apply prefix_rule_iff in H. apply H. reflexivity.
  - apply contains_any_iff. reflexivity.
  - apply contains_any_iff. reflexivity.
  - vm_compute. discriminate.
Qed.

Lemma has_word_iff (ws : list string) (s : string) :
  has_word ws s <-> Str.contains_any ws s = true.
Proof. symmetry. apply contains_any_iff. Qed.

Lemma not_has_word (ws : list string) (s : string) :
  ~ has_word ws s -> Str.contains_any ws s = false.
Proof.
  intros H. destruct (Str.contains_any ws s) eqn:E; [|reflexivity].
  exfalso. apply H. now apply has_word_iff.
Qed.

(** C1, amended. Outside the folder and prefix rules the category is
    beginner if the lowercased base name contains a beginner keyword,
    else advanced if it contains an advanced keyword, else intermediate if
    it contains an intermediate keyword, else beginner; a name with both a
    beginner and an advanced keyword is beginner. The clean name is the
    base name. *)
Theorem keyword_detection_order (path : string) :
  ~ folder_rule path -> ~ prefix_rule path ->
  snd (parse_video_info path) = PurePath.stem path
  /\ (has_word beginner_words (Str.lower (PurePath.stem path)) ->
      fst (parse_video_info path) = "beginner")
  /\ (~ has_word beginner_words (Str.lower (PurePath.stem path)) ->
      has_word advanced_words (Str.lower (PurePath.stem path)) ->
      fst (parse_video_info path) = "advanced")
  /\ (~ has_word beginner_words (Str.lower (PurePath.stem path)) ->
      ~ has_word advanced_words (Str.lower (PurePath.stem path)) ->
      has_word intermediate_words (Str.lower (PurePath.stem path)) ->
      fst (parse_video_info path) = "intermediate")
  /\ (~ has_word beginner_words (Str.lower (PurePath.stem path)) ->
      ~ has_word advanced_words (Str.lower (PurePath.stem path)) ->
      ~ has_word intermediate_words (Str.lower (PurePath.stem path)) ->
      fst (parse_video_info path) = "beginner")
  /\ (has_word beginner_words (Str.lower (PurePath.stem path)) ->
      has_word advanced_words (Str.lower (PurePath.stem path)) ->
      fst (parse_video_info path) = "beginner").
Proof.
  intros Hf Hp.
  destruct (classification_priority path) as (_ & _ & H).
  rewrite (H Hf Hp). cbn [fst snd]. unfold detect_category_from_filename.
  split; [reflexivity|]. repeat split.
  - intros Hb. apply has_word_iff in Hb. now rewrite Hb.
  - intros Hb Ha. apply not_has_word in Hb. apply has_word_iff in Ha.
    now rewrite Hb, Ha.
  - intros Hb Ha Hi. apply not_has_word in Hb, Ha. apply has_word_iff in Hi.
    now rewrite Hb, Ha, Hi.
  - intros Hb Ha Hi. apply not_has_word in Hb, Ha, Hi.
    now rewrite Hb, Ha, Hi.
  - intros Hb _. apply has_word_iff in Hb. now rewrite Hb.
Qed.

Lemma keyword_detection_order_witness :
  snd (parse_video_info "master-class-intro.mp4") = "master-class-intro"
  /\ fst (parse_video_info "master-class-intro.mp4") = "beginner".
Proof.
  assert (Hf : ~ folder_rule "master-class-intro.mp4").
  { intros H. apply folder_rule_iff in H. discriminate H. }
  assert (Hp : ~ prefix_rule "master-class-intro.mp4").
  { intros H. apply prefix_rule_iff in H. apply H. reflexivity. }
  destruct (keyword_detection_order "master-class-intro.mp4" Hf Hp)
    as (Hs & Hb & _).
  split; [exact Hs|]. apply Hb. apply contains_any_iff. reflexivity.
Defined.

(* ===================================================================== *)
(** ** Record identifiers *)
(* ===================================================================== *)

Lemma detect_category_valid (n : string) :
  In (detect_category_from_filename n) categories.
Proof.
  unfold detect_category_from_filename, categories.
  repeat match goal with |- context [if ?b then _ else _] => destruct b end;
    simpl; tauto.
Qed.

(** The classification only produces the three categories. *)
Lemma parse_video_info_category (path : string) :
  In (fst (parse_video_info path)) categories.
Proof.
  destruct (folder_test path) eqn:Hf.
  - rewrite (parse_video_info_folder path Hf). cbn [fst].
    unfold folder_test in Hf. apply andb_true_iff in Hf as [_ Hm].
    now apply mem_iff.
  - rewrite (parse_video_info_no_folder path Hf).
    destruct (find_prefix categories (PurePath.stem path)) as [[cat r]|] eqn:E.
    + apply find_prefix_some in E as (Hin & _). exact Hin.
    + apply detect_category_valid.
Qed.

Section Identifiers.

Variables account_name container_name : string.

Local Abbreviation entry := (video_of account_name container_name).

Lemma video_of_category (b : BlobProperties) :
  category (entry b) = fst (parse_video_info (name b)).
Proof.
  unfold video_of. now destruct (parse_video_info (name b)).
Qed.

Lemma video_of_clean_name (b : BlobProperties) :
  clean_name (entry b) = snd (parse_video_info (name b)).
Proof.
  unfold video_of. now destruct (parse_video_info (name b)).
Qed.

Lemma video_of_blob_name (b : BlobProperties) : blob_name (entry b) = name b.
Proof.
  unfold video_of. now destruct (parse_video_info (name b)).
Qed.

Lemma video_of_category_valid (b : BlobProperties) :
  In (category (entry b)) categories.
Proof. rewrite video_of_category. apply parse_video_info_category. Qed.

Lemma create_metadata_video_id (v : VideoInfo) :
  Dict.get "video_id" (create_metadata v None)
  = Some (JStr (category v +:+ "-" +:+ slug (clean_name v))).
Proof. reflexivity. Qed.

Lemma video_id_of_inj (c1 c2 s1 s2 : string) :
  In c1 categories -> In c2 categories ->
  c1 +:+ "-" +:+ s1 = c2 +:+ "-" +:+ s2 -> c1 = c2 /\ s1 = s2.
Proof.
  unfold categories. simpl.
  intros [<-|[<-|[<-|[]]]] [<-|[<-|[<-|[]]]] H; simpl in H;
    try discriminate H; (split; [reflexivity|]); congruence.
Qed.

(** C4, amended. The id of a record is [category + "-" + slug(cleanName)],
    and two inventoried entries get the same id exactly when they have
    the same category and clean names of the same slug; ids are distinct
    only for entries that differ there. *)
Theorem video_id_equal_iff (b1 b2 : BlobProperties) :
  Dict.get "video_id" (create_metadata (entry b1) None)
  = Some (JStr (category (entry b1) +:+ "-" +:+ slug (clean_name (entry b1))))
  /\ (Dict.get "video_id" (create_metadata (entry b1) None)
      = Dict.get "video_id" (create_metadata (entry b2) None)
      <-> category (entry b1) = category (entry b2)
          /\ slug (clean_name (entry b1)) = slug (clean_name (entry b2))).
Proof.
  split; [apply create_metadata_video_id|].
  rewrite !create_metadata_video_id. split.
  - intros [= H].
    apply video_id_of_inj in H; auto using video_of_category_valid.
  - intros [-> ->]. reflexivity.
Qed.

End Identifiers.

(** C4, as stated, fails: one run inventories two blobs with distinct
    storage paths whose records carry the same id. *)
Lemma video_id_collision :
  fst (run (list_existing_videos "acct" "training-videos")
           (reliable [("beginner/a.mp4", Opaque 1048576);
                      ("beginner/a.avi", Opaque 2097152)]))
  = [video_of "acct" "training-videos"
              {| name := "beginner/a.mp4"; bsize := 1048576 |};
     video_of "acct" "training-videos"
              {| name := "beginner/a.avi"; bsize := 2097152 |}]
  /\ blob_name (video_of "acct" "training-videos"
                         {| name := "beginner/a.mp4"; bsize := 1048576 |})
     <> blob_name (video_of "acct" "training-videos"
                            {| name := "beginner/a.avi"; bsize := 2097152 |})
  /\ Dict.get "video_id"
       (create_metadata (video_of "acct" "training-videos"
                           {| name := "beginner/a.mp4"; bsize := 1048576 |}) None)
     = Some (JStr "beginner-a")
  /\ Dict.get "video_id"
       (create_metadata (video_of "acct" "training-videos"
                           {| name := "beginner/a.avi"; bsize := 2097152 |}) None)
     = Some (JStr "beginner-a").
Proof.
  repeat split. vm_compute. discriminate.
Qed.

(* ===================================================================== *)
(** ** Titles *)
(* ===================================================================== *)

Lemma sub_runs_remove (cls : ascii -> bool) (pending : bool) (s : string) :
  Re.sub_runs_from pending cls "" s = remove_chars cls s.
Proof.
  revert pending. induction s as [|c s IH]; intros pending; simpl;
    [reflexivity|].
  destruct (cls c); [destruct pending|]; now rewrite IH.
Qed.

Lemma collapse_cons (c : ascii) (r : string) :
  collapse_separators (String c r)
  = if Re.is_sep c then
      match r with
      | String d _ =>
          if Re.is_sep d then collapse_separators r
          else String " " (collapse_separators r)
      | EmptyString => " "
      end
    else String c (collapse_separators r).
Proof. reflexivity. Qed.

(** A string that starts with a separator collapses to one that starts
    with a blank. *)
Lemma collapse_sep_head (c : ascii) (s : string) :
  Re.is_sep c = true ->
  exists y, collapse_separators (String c s) = String " " y.
Proof.
  revert c. induction s as [|e s IH]; intros c Hc; rewrite collapse_cons, Hc.
  - now exists "".
  - destruct (Re.is_sep e) eqn:He; [now apply IH | eexists; reflexivity].
Qed.

Lemma sub_runs_collapse (s : string) :
  Re.sub_runs_from false Re.is_sep " " s = collapse_separators s
  /\ Re.sub_runs_from true Re.is_sep " " s
     = match s with
       | String c _ => if Re.is_sep c then Str.drop 1 (collapse_separators s)
                       else collapse_separators s
       | EmptyString => EmptyString
       end.
Proof.
  induction s as [|c s [IHf IHt]]; [split; reflexivity|].
  rewrite collapse_cons. cbn [Re.sub_runs_from].
  destruct (Re.is_sep c) eqn:Hc.
  - rewrite IHt. destruct s as [|d s']; [split; reflexivity|].
    destruct (Re.is_sep d) eqn:Hd.
    + destruct (collapse_sep_head d s' Hd) as [y Hy]. rewrite Hy.
      split; reflexivity.
    + split; reflexivity.
  - rewrite IHf. split; reflexivity.
Qed.

Lemma match_alt_find (alts : list string) (s : string) :
  Re.match_alt_ci alts s
  = option_map String.length
      (List.find (fun a => Str.startswith a (Str.lower s)) alts).
Proof.
  induction alts as [|a alts IH]; simpl; [reflexivity|].
  destruct (Str.startswith a (Str.lower s)); [reflexivity | exact IH].
Qed.

Lemma startswith_char (a c : ascii) (r : string) :
  Str.startswith (String a "") (String c r) = Ascii.eqb c a.
Proof.
  unfold Str.startswith. cbn [String.prefix].
  destruct (ascii_dec a c) as [->|H].
  - rewrite Ascii.eqb_refl. now destruct r.
  - symmetry. apply Ascii.eqb_neq. congruence.
Qed.

Lemma sub_category_prefix_strip (s : string) :
  Re.sub_category_prefix s = strip_category_prefix s.
Proof.
  unfold Re.sub_category_prefix, strip_category_prefix.
  rewrite match_alt_find. fold categories.
  destruct (List.find _ categories) as [cat|]; [|reflexivity].
  cbn [option_map].
  destruct (Str.drop (String.length cat) s) as [|c r]; [reflexivity|].
  change "-" with (String "-" "") at 1. change "_" with (String "_" "") at 1.
  rewrite !startswith_char. reflexivity.
Qed.

Lemma concat_cons (x : string) (l : list string) :
  String.concat "" (x :: l) = x +:+ String.concat "" l.
Proof.
  destruct l as [|y l]; cbn [String.concat]; [now rewrite app_nil_r|].
  reflexivity.
Qed.

(** [Str.words] cuts at blanks only: its tokens put together are the
    string without its blanks, and no token contains a blank. *)
Lemma words_concat (s : string) :
  String.concat "" (Str.words s) = remove_chars Str.is_space s.
Proof.
  induction s as [|c s IH]; [reflexivity|].
  cbn [Str.words remove_chars]. destruct (Str.is_space c) eqn:Hc; [exact IH|].
  destruct s as [|d s']; [reflexivity|].
  destruct (Str.is_space d) eqn:Hd.
  - rewrite concat_cons, IH. reflexivity.
  - destruct (Str.words (String d s')) as [|h t] eqn:E.
    + rewrite <- IH. reflexivity.
    + rewrite concat_cons in IH |- *. rewrite <- IH. reflexivity.
Qed.

Lemma words_no_space (s : string) :
  Forall (fun w => remove_chars Str.is_space w = w) (Str.words s).
Proof.
  induction s as [|c s IH]; [constructor|].
  cbn [Str.words]. destruct (Str.is_space c) eqn:Hc; [exact IH|].
  assert (H1 : remove_chars Str.is_space (String c "") = String c "")
    by (simpl; now rewrite Hc).
  destruct s as [|d s']; [now repeat constructor|].
  destruct (Str.is_space d).
  - now constructor.
  - destruct (Str.words (String d s')) as [|h t]; [now repeat constructor|].
    inversion IH as [|? ? Hh Ht]; subst. constructor; [|exact Ht].
    simpl. now rewrite Hc, Hh.
Qed.

Lemma words_nonempty (s : string) : Forall (fun w => w <> "") (Str.words s).
Proof.
  induction s as [|c s IH]; [constructor|].
  cbn [Str.words]. destruct (Str.is_space c); [exact IH|].
  destruct s as [|d s']; [repeat constructor; discriminate|].
  destruct (Str.is_space d).
  - constructor; [discriminate | exact IH].
  - destruct (Str.words (String d s')) as [|h t].
    + repeat constructor; discriminate.
    + constructor; [discriminate | now inversion IH].
Qed.

Lemma join_nonempty (sep t : string) (ts : list string) :
  t <> "" -> Str.join sep (t :: ts) <> "".
Proof.
  intros Ht. unfold Str.join. cbn [String.concat].
  destruct ts; [exact Ht|]. destruct t; [congruence | discriminate].
Qed.

Lemma capitalize_nonempty (w : string) : w <> "" -> Str.capitalize w <> "".
Proof. destruct w; [congruence | discriminate]. Qed.

(** C8. [clean_filename_for_title] strips a leading category word (in any
    case, with one optional separator after it), replaces every run of
    ['-'] and ['_'] by one blank, removes all digits and capitalizes each
    blank-delimited token; when nothing is left it is "Training Video".
    "deep-dive" gives "Deep Dive" and the empty name "Training Video". *)
Theorem clean_filename_for_title_steps (cleanName : string) :
  clean_filename_for_title cleanName = titleFromName cleanName
  /\ clean_filename_for_title cleanName <> ""
  /\ clean_filename_for_title "deep-dive" = "Deep Dive"
  /\ clean_filename_for_title "" = "Training Video".
Proof.
  assert (Heq : clean_filename_for_title cleanName = titleFromName cleanName).
  { unfold clean_filename_for_title, titleFromName, Re.sub_runs.
    rewrite sub_runs_remove, (proj1 (sub_runs_collapse _)),
      sub_category_prefix_strip.
    pose proof (words_nonempty
                  (remove_chars Str.is_digit
                     (collapse_separators (strip_category_prefix cleanName))))
      as Hw.
    destruct (Str.words _) as [|w ws]; [reflexivity|].
    cbn [List.map].
    destruct (String.eqb_spec
                (Str.join " " (Str.capitalize w :: List.map Str.capitalize ws))
                "") as [H|H]; [|reflexivity].
    exfalso. revert H. apply join_nonempty, capitalize_nonempty.
    now inversion Hw. }
  split; [exact Heq|]. split; [|split; reflexivity].
  unfold clean_filename_for_title.
  destruct (String.eqb_spec
              (Str.join " "
                 (List.map Str.capitalize
                    (Str.words
                       (Re.sub_runs Str.is_digit ""
                          (Re.sub_runs Re.is_sep " "
                             (Re.sub_category_prefix cleanName))))))
              "") as [H|H]; [discriminate | exact H].
Qed.

(* ===================================================================== *)
(** ** Inventory *)
(* ===================================================================== *)

Section Inventory.

Variables account_name container_name : string.

Local Abbreviation entry := (video_of account_name container_name).
Local Abbreviation scan' := (scan account_name container_name).
Local Abbreviation list_videos :=
  (list_existing_videos account_name container_name).

Lemma scan_fold (l : list BlobProperties) (acc : list VideoInfo) :
  fold_left scan' l acc
  = acc ++ List.map entry (List.filter (fun b => in_inventory (name b)) l).
Proof.
  revert acc. induction l as [|b l IH]; intros acc; simpl.
  - now rewrite List.app_nil_r.
  - rewrite IH. unfold scan, in_inventory.
    destruct (Str.startswith "metadata/" (name b)); simpl;
      [reflexivity|].
    destruct (is_video (name b)); simpl; [|reflexivity].
    now rewrite <- List.app_assoc.
Qed.

(** What [list_existing_videos] returns, prints and leaves. *)
Lemma list_existing_videos_run (w : World) :
  list_videos w
  = let listing := fst (list_blobs None (service w)) in
    let s' := snd (list_blobs None (service w)) in
    match failure listing with
    | None =>
        let videos :=
          List.map entry
            (List.filter (fun b => in_inventory (name b)) (items listing)) in
        (videos,
         {| service := s';
            stdout := stdout w ++ [Scanning; Found (List.length videos)] |})
    | Some e =>
        ([], {| service := s';
                stdout := stdout w ++ [Scanning; ListError e] |})
    end.
Proof.
  unfold list_existing_videos, bind, print, call, ret, iterate. simpl.
  destruct (list_blobs None (service w)) as [listing s'] eqn:E. simpl.
  rewrite scan_fold. simpl.
  destruct (failure listing); simpl; now rewrite <- List.app_assoc.
Qed.

Lemma list_blobs_keeps_blobs (prefix : option string) (s : Service) :
  blobs (snd (list_blobs prefix s)) = blobs s.
Proof.
  unfold list_blobs. destruct (list_faults s) as [|[[k e]|] rest]; reflexivity.
Qed.

Lemma is_video_iff (n : string) :
  is_video n = true <-> In (Str.lower (PurePath.suffix n)) video_extensions.
Proof. apply mem_iff. Qed.

(** Membership in the inventory of a listing that completes. *)
Lemma inventory_names (s : Service) (n : string) :
  failure (fst (list_blobs None s)) = None ->
  (In n (List.map blob_name (fst (run list_videos s)))
   <-> In n (List.map name (items (fst (list_blobs None s))))
       /\ in_inventory n = true).
Proof.
  intros Hok. unfold run. rewrite list_existing_videos_run. simpl.
  rewrite Hok. simpl. rewrite List.map_map.
  rewrite !in_map_iff. split.
  - intros (b & Hb & Hin). apply filter_In in Hin as [Hin Hk].
    rewrite video_of_blob_name in Hb. subst n.
    split; [|exact Hk]. now exists b.
  - intros [(b & Hb & Hin) Hk]. exists b.
    rewrite video_of_blob_name. split; [exact Hb|].
    apply filter_In. subst n. auto.
Qed.

(** C9. When the listing fails, whatever the error and however many
    items came before it, [list_existing_videos] reports the error and
    returns the empty list: the value a container without videos
    gives when its listing succeeds. *)
Theorem listing_failure_returns_empty (s : Service) (e : error) :
  failure (fst (list_blobs None s)) = Some e ->
  fst (run list_videos s) = []
  /\ printed list_videos s = [Scanning; ListError e]
  /\ fst (run list_videos (reliable [])) = fst (run list_videos s)
  /\ printed list_videos (reliable []) = [Scanning; Found 0].
Proof.
  intros Hf. unfold printed, run. rewrite !list_existing_videos_run.
  simpl. rewrite Hf. simpl. repeat split.
Qed.

End Inventory.

Lemma listing_failure_returns_empty_witness :
  fst (run (list_existing_videos "acct" "training-videos")
           {| blobs := [("beginner/a.mp4", Opaque 1048576);
                        ("beginner/b.mp4", Opaque 1048576)];
              list_faults := [Some (1%nat, "connection reset")];
              upload_faults := [] |}) = []
  /\ printed (list_existing_videos "acct" "training-videos")
           {| blobs := [("beginner/a.mp4", Opaque 1048576);
                        ("beginner/b.mp4", Opaque 1048576)];
              list_faults := [Some (1%nat, "connection reset")];
              upload_faults := [] |} = [Scanning; ListError "connection reset"]
  /\ fst (run (list_existing_videos "acct" "training-videos") (reliable []))
     = fst (run (list_existing_videos "acct" "training-videos")
           {| blobs := [("beginner/a.mp4", Opaque 1048576);
                        ("beginner/b.mp4", Opaque 1048576)];
              list_faults := [Some (1%nat, "connection reset")];
              upload_faults := [] |})
  /\ printed (list_existing_videos "acct" "training-videos") (reliable [])
     = [Scanning; Found 0].
Proof.
  apply (listing_failure_returns_empty "acct" "training-videos" _
           "connection reset").
  reflexivity.
Defined.

(* ===================================================================== *)
(** ** The batch driver *)
(* ===================================================================== *)

Lemma get_blob_put_eq (p : string) (b : Body) (l : list (string * Body)) :
  get_blob p (put p b l) = Some b.
Proof.
  induction l as [|[n b'] l IH]; simpl.
  - now rewrite String.eqb_refl.
  - destruct (String.eqb_spec n p) as [->|Hne]; simpl.
    + now rewrite String.eqb_refl.
    + apply String.eqb_neq in Hne. now rewrite Hne.
Qed.

Lemma get_blob_put_ne (p q : string) (b : Body) (l : list (string * Body)) :
  p <> q -> get_blob q (put p b l) = get_blob q l.
Proof.
  intros Hpq. induction l as [|[n b'] l IH]; simpl.
  - apply String.eqb_neq in Hpq. now rewrite Hpq.
  - destruct (String.eqb_spec n p) as [->|Hne]; simpl.
    + apply String.eqb_neq in Hpq. now rewrite Hpq.
    + now rewrite IH.
Qed.

Lemma in_put (p : string) (b : Body) (l : list (string * Body)) x :
  In x (put p b l) -> x = (p, b) \/ In x l.
Proof.
  induction l as [|[n b'] l IH]; simpl.
  - intuition congruence.
  - destruct (String.eqb_spec n p) as [->|Hne]; simpl;
      [intuition congruence|].
    intros [H|H]; [tauto|]. destruct (IH H); tauto.
Qed.

Lemma for_each_cons {A S} (x : A) (r : list A) (body : S -> A -> M S)
      (acc : S) (w : World) :
  for_each (x :: r) body acc w
  = for_each r body (fst (body acc x w)) (snd (body acc x w)).
Proof. cbn [for_each]. unfold bind. now destruct (body acc x w). Qed.

(** Uses the induction hypothesis of a statement about the lines a loop
    prints at the state its first turn leaves. *)
Ltac loop_step IH :=
  match goal with
  | |- context [for_each _ _ ?c ?w'] =>
      let H := fresh in
      pose proof (IH c w') as H; cbv zeta in H;
      destruct H as (-> & -> & -> & -> & ->)
  end;
  cbn [stdout snd];
  unfold skipped_files, generating_files, upload_paths, list_errors;
  rewrite !flat_map_app; cbn [flat_map List.map List.length];
  rewrite ?List.app_nil_r, <- ?List.app_assoc;
  repeat split; simpl; lia.

Lemma find_app {A} (f : A -> bool) (l1 l2 : list A) :
  List.find f (l1 ++ l2)
  = match List.find f l1 with
    | Some x => Some x
    | None => List.find f l2
    end.
Proof.
  induction l1 as [|x l1 IH]; [reflexivity|]. simpl.
  destruct (f x); [reflexivity | exact IH].
Qed.

Section Batch.

Variable dumps : Dict.t -> string.
Variables account_name container_name : string.

Local Abbreviation list_videos :=
  (list_existing_videos account_name container_name).
Local Abbreviation generate_all :=
  (generate_all_metadata dumps account_name container_name).

(** One turn of the main loop. *)
Lemma process_run (E : gset string) (force : bool) (g sk : nat)
      (v : VideoInfo) (w : World) :
  process dumps E force (g, sk) v w
  = if skips E force v
    then ((g, S sk),
          {| service := service w;
             stdout := stdout w ++ [Skipping (file_name v)] |})
    else
      let r := upload_blob (metadata_path v) (dumps (create_metadata v None))
                           (service w) in
      match fst r with
      | None =>
          ((S g, sk),
           {| service := snd r;
              stdout := stdout w ++ [Generating (file_name v);
                                     Created (metadata_path v)] |})
      | Some e =>
          ((g, sk),
           {| service := snd r;
              stdout := stdout w ++ [Generating (file_name v);
                                     UploadError (clean_name v +:+ ".json") e] |})
      end.
Proof.
  unfold process, skips, upload_metadata, bind, print, call, ret,
    metadata_path.
  destruct (bool_decide (clean_name v ∈ E) && negb force); [reflexivity|].
  simpl.
  destruct (upload_blob _ _ (service w)) as [[e|] s']; simpl;
    now rewrite <- List.app_assoc.
Qed.

Lemma upload_blob_list_faults (p d : string) (s : Service) :
  list_faults (snd (upload_blob p d s)) = list_faults s.
Proof.
  unfold upload_blob. destruct (upload_faults s) as [|[e|] rest]; reflexivity.
Qed.

(** What the main loop prints, by kind of line. *)
Lemma loop_trace (E : gset string) (force : bool) (videos : list VideoInfo)
      (counts : nat * nat) (w : World) :
  let r := for_each videos (process dumps E force) counts w in
  skipped_files (stdout (snd r))
  = skipped_files (stdout w)
    ++ List.map file_name (List.filter (skips E force) videos)
  /\ generating_files (stdout (snd r))
     = generating_files (stdout w)
       ++ List.map file_name
            (List.filter (fun v => negb (skips E force v)) videos)
  /\ upload_paths (stdout (snd r))
     = upload_paths (stdout w)
       ++ List.map metadata_path
            (List.filter (fun v => negb (skips E force v)) videos)
  /\ list_errors (stdout (snd r)) = list_errors (stdout w)
  /\ snd (fst r)
     = (snd counts + List.length (List.filter (skips E force) videos))%nat.
Proof.
  revert counts w. induction videos as [|v videos IH]; intros [g sk] w.
  - simpl. rewrite !List.app_nil_r. repeat split; lia.
  - cbv zeta. rewrite for_each_cons, process_run. cbn [List.filter].
    destruct (skips E force v) eqn:Hs; cbn [negb fst snd].
    + loop_step IH.
    + destruct (upload_blob (metadata_path v) _ (service w)) as [[e|] s'];
        cbn [fst snd]; loop_step IH.
Qed.

Lemma upload_blob_blobs (p d : string) (s : Service) :
  blobs (snd (upload_blob p d s))
  = match fst (upload_blob p d s) with
    | None => put p (Text d) (blobs s)
    | Some _ => blobs s
    end.
Proof.
  unfold upload_blob. destruct (upload_faults s) as [|[e|] rest]; reflexivity.
Qed.

Lemma upload_blob_reliable (p d : string) (s : Service) :
  upload_faults s = [] ->
  fst (upload_blob p d s) = None
  /\ upload_faults (snd (upload_blob p d s)) = [].
Proof. unfold upload_blob. intros ->. split; reflexivity. Qed.

(** The loop only adds or replaces documents of the videos it handles. *)
Lemma loop_blobs (E : gset string) (force : bool) (videos : list VideoInfo)
      (counts : nat * nat) (w : World) (x : string * Body) :
  In x (blobs (service (snd (for_each videos (process dumps E force) counts w)))) ->
  In x (blobs (service w))
  \/ exists v, In v videos
               /\ x = (metadata_path v, Text (dumps (create_metadata v None))).
Proof.
  revert counts w. induction videos as [|v videos IH]; intros [g sk] w.
  - simpl. tauto.
  - rewrite for_each_cons, process_run.
    destruct (skips E force v); cbn [fst snd]; intros H.
    + apply IH in H as [H|(v' & Hv' & Hx)]; [now left|].
      right. exists v'. split; [now right | exact Hx].
    + cbv zeta in H.
      pose proof (upload_blob_blobs (metadata_path v)
                    (dumps (create_metadata v None)) (service w)) as Hb.
      destruct (upload_blob (metadata_path v) _ (service w)) as [[e|] s'];
        cbn [fst snd] in *;
        apply IH in H as [H|(v' & Hv' & Hx)];
        try (right; exists v'; split; [now right | exact Hx]).
      * left. cbn [service] in H. now rewrite Hb in H.
      * cbn [service] in H. rewrite Hb in H.
        apply in_put in H as [H|H]; [|now left].
        right. exists v. split; [now left | exact H].
Qed.

Lemma metadata_path_inj (v1 v2 : VideoInfo) :
  metadata_path v1 = metadata_path v2 -> clean_name v1 = clean_name v2.
Proof.
  unfold metadata_path. intros H.
  apply (String.app_inj "metadata/") in H. now apply app_inj_r in H.
Qed.

(** Under any path the loop leaves what was there or the document of one
    of its videos. *)
Lemma loop_get_blob (E : gset string) (force : bool) (videos : list VideoInfo)
      (counts : nat * nat) (w : World) (p : string) :
  get_blob p (blobs (service (snd (for_each videos (process dumps E force)
                                            counts w))))
  = get_blob p (blobs (service w))
  \/ exists v', In v' videos /\ metadata_path v' = p
       /\ get_blob p (blobs (service (snd (for_each videos
                                             (process dumps E force) counts w))))
          = Some (Text (dumps (create_metadata v' None))).
Proof.
  revert counts w. induction videos as [|t videos IH]; intros [g sk] w.
  - left. reflexivity.
  - rewrite for_each_cons, process_run.
    destruct (skips E force t); cbn [fst snd].
    + match goal with
      | |- context [for_each videos _ ?c ?w0] =>
          destruct (IH c w0) as [H|(v' & Hv' & Hp & H)]
      end.
      * left. exact H.
      * right. exists v'. split; [now right|]. split; assumption.
    + cbv zeta.
      pose proof (upload_blob_blobs (metadata_path t)
                    (dumps (create_metadata t None)) (service w)) as Hb.
      destruct (upload_blob (metadata_path t) _ (service w)) as [[e|] s'];
        cbn [fst snd] in *;
        match goal with
        | |- context [for_each videos _ ?c ?w0] =>
            destruct (IH c w0) as [H|(v' & Hv' & Hp & H)]
        end;
        try (right; exists v'; split; [now right|]; split; assumption);
        cbn [service] in H; rewrite Hb in H.
      * left. exact H.
      * destruct (String.eqb_spec (metadata_path t) p) as [Heq|Hne].
        -- right. exists t. split; [now left|]. split; [exact Heq|].
           rewrite H, Heq. apply get_blob_put_eq.
        -- left. rewrite H. now apply get_blob_put_ne.
Qed.

Lemma loop_upload_faults (E : gset string) (force : bool)
      (v : VideoInfo) (counts : nat * nat) (w : World) :
  upload_faults (service w) = [] ->
  upload_faults (service (snd (process dumps E force counts v w))) = [].
Proof.
  intros Hup. destruct counts as [g sk]. rewrite process_run.
  destruct (skips E force v); [exact Hup|]. cbv zeta.
  destruct (upload_blob_reliable (metadata_path v)
              (dumps (create_metadata v None)) (service w) Hup) as [H1 H2].
  rewrite H1. exact H2.
Qed.

(** With uploads that succeed, every video that is not skipped has a
    document under its path when the loop ends: its own or that of a
    later video with the same clean name. *)
Lemma loop_publishes (E : gset string) (force : bool) (videos : list VideoInfo)
      (counts : nat * nat) (w : World) (v : VideoInfo) :
  upload_faults (service w) = [] ->
  In v videos -> skips E force v = false ->
  exists v', In v' videos /\ clean_name v' = clean_name v
             /\ get_blob (metadata_path v)
                  (blobs (service (snd (for_each videos (process dumps E force)
                                                 counts w))))
                = Some (Text (dumps (create_metadata v' None))).
Proof.
  revert counts w.
  induction videos as [|u videos IH]; intros counts w Hup Hin Hs;
    [destruct Hin|].
  rewrite for_each_cons.
  destruct (loop_get_blob E force videos
              (fst (process dumps E force counts u w))
              (snd (process dumps E force counts u w))
              (metadata_path v)) as [Hsame|(v' & Hv' & Hp & Hget)].
  - destruct Hin as [->|Hin].
    + exists v. split; [now left|]. split; [reflexivity|].
      rewrite Hsame. destruct counts as [g sk]. rewrite process_run, Hs.
      cbv zeta.
      destruct (upload_blob_reliable (metadata_path v)
                  (dumps (create_metadata v None)) (service w) Hup) as [H1 _].
      pose proof (upload_blob_blobs (metadata_path v)
                    (dumps (create_metadata v None)) (service w)) as Hb.
      rewrite H1 in Hb |- *. cbn [snd service]. rewrite Hb.
      apply get_blob_put_eq.
    + destruct (IH (fst (process dumps E force counts u w))
                   (snd (process dumps E force counts u w))
                   (loop_upload_faults E force u counts w Hup) Hin Hs)
        as (v' & Hv' & Hc & Hget).
      exists v'. split; [now right|]. split; assumption.
  - exists v'. split; [now right|]. split; [|exact Hget].
    now apply metadata_path_inj.
Qed.

(** With any script of upload faults: the documents created are those of
    the attempts that succeed, and the loop leaves under every path the
    document of the last video uploaded there, or what was there. *)
Lemma loop_uploaded (E : gset string) (force : bool) (videos : list VideoInfo)
      (counts : nat * nat) (w : World) :
  created_paths (stdout (snd (for_each videos (process dumps E force) counts w)))
  = created_paths (stdout w)
    ++ List.map metadata_path
         (uploaded (upload_faults (service w))
                   (List.filter (fun v => negb (skips E force v)) videos))
  /\ forall p,
       get_blob p (blobs (service (snd (for_each videos (process dumps E force)
                                                 counts w))))
       = match List.find (fun v => String.eqb (metadata_path v) p)
                         (List.rev
                            (uploaded (upload_faults (service w))
                               (List.filter (fun v => negb (skips E force v))
                                            videos))) with
         | Some v => Some (Text (dumps (create_metadata v None)))
         | None => get_blob p (blobs (service w))
         end.
Proof.
  revert counts w. induction videos as [|v videos IH]; intros [g sk] w.
  - cbn [for_each List.filter uploaded List.map List.rev List.find].
    unfold ret. cbn [snd]. now rewrite List.app_nil_r.
  - rewrite for_each_cons, process_run. cbn [List.filter].
    destruct (skips E force v) eqn:Hs; cbn [negb fst snd].
    + destruct (IH (g, S sk)
                   {| service := service w;
                      stdout := stdout w ++ [Skipping (file_name v)] |})
        as [I1 I2].
      cbn [service stdout] in I1, I2. rewrite I1. split; [|exact I2].
      unfold created_paths. rewrite flat_map_app. cbn [flat_map].
      now rewrite List.app_nil_r.
    + cbv zeta. unfold upload_blob.
      destruct (upload_faults (service w)) as [|[e|] fs] eqn:Hf;
        cbn [fst snd uploaded];
        match goal with
        | |- context [for_each videos _ ?c ?w'] =>
            destruct (IH c w') as [I1 I2]
        end;
        cbn [service stdout blobs upload_faults] in I1, I2; rewrite I1;
        (split;
         [unfold created_paths; rewrite flat_map_app; cbn [flat_map List.map];
          rewrite ?List.app_nil_r, <- ?List.app_assoc; reflexivity|]);
        intros p; rewrite I2; try reflexivity;
        cbn [List.rev]; rewrite find_app;
        destruct (List.find _ (List.rev _)) as [u|]; try reflexivity;
        cbn [List.find];
        (destruct (String.eqb_spec (metadata_path v) p) as [<-|Hne];
         [apply get_blob_put_eq | now apply get_blob_put_ne]).
Qed.

End Batch.

Lemma in_inventory_iff (n : string) :
  in_inventory n = true
  <-> Str.startswith "metadata/" n = false
      /\ In (Str.lower (PurePath.suffix n)) video_extensions.
Proof.
  unfold in_inventory. rewrite andb_true_iff, negb_true_iff, is_video_iff.
  tauto.
Qed.

(** The existing-metadata set after a listing, complete or cut short:
    the stems of the delivered names that end in [.json]. *)
Lemma note_existing_fold (l : list BlobProperties) (acc : gset string) (x : string) :
  x ∈ fold_left note_existing l acc
  <-> x ∈ acc
      \/ exists b, In b l /\ Str.endswith ".json" (name b) = true
                   /\ PurePath.stem (name b) = x.
Proof.
  revert acc. induction l as [|b l IH]; intros acc; simpl.
  - split; [now left | intros [H|(b & [] & _)]; exact H].
  - rewrite IH. unfold note_existing.
    destruct (Str.endswith ".json" (name b)) eqn:He.
    + rewrite elem_of_union, elem_of_singleton. split.
      * intros [[->|H]|(b' & Hb' & H)]; [right; exists b; auto | now left |].
        right. exists b'. tauto.
      * intros [H|(b' & [->|Hb'] & He' & Hs)]; [left; now right | |].
        -- left. left. now symmetry.
        -- right. exists b'. auto.
    + split.
      * intros [H|(b' & Hb' & H)]; [now left|]. right. exists b'. tauto.
      * intros [H|(b' & [->|Hb'] & He' & Hs)]; [now left | congruence |].
        right. exists b'. auto.
Qed.

Lemma existing_metadata_of_iff (l : Listing) (x : string) :
  x ∈ existing_metadata_of l
  <-> exists b, In b (items l) /\ Str.endswith ".json" (name b) = true
                /\ PurePath.stem (name b) = x.
Proof.
  unfold existing_metadata_of, iterate. cbn [fst].
  rewrite note_existing_fold. split; [|now right].
  intros [H|H]; [|exact H]. now apply not_elem_of_empty in H.
Qed.

Section Driver.

Variable dumps : Dict.t -> string.
Variables account_name container_name : string.

Local Abbreviation list_videos :=
  (list_existing_videos account_name container_name).
Local Abbreviation generate_all :=
  (generate_all_metadata dumps account_name container_name).

(** [generate_all_metadata], step by step. *)
Lemma generate_all_run (force : bool) (w : World) :
  generate_all force w
  = let videos := fst (list_videos w) in
    let w1 := snd (list_videos w) in
    match videos with
    | [] => (tt, {| service := service w1; stdout := stdout w1 ++ [NoVideos] |})
    | _ :: _ =>
        let listing := fst (list_blobs (Some "metadata/") (service w1)) in
        let w2 := {| service := snd (list_blobs (Some "metadata/") (service w1));
                     stdout := stdout w1 ++ [GeneratingFor (List.length videos)] |} in
        let r := for_each videos
                          (process dumps (existing_metadata_of listing) force)
                          (O, O) w2 in
        (tt, {| service := service (snd r);
                stdout := stdout (snd r)
                          ++ [Complete (fst (fst r)) (snd (fst r))
                                       (List.length videos)] |})
    end.
Proof.
  unfold generate_all_metadata, bind at 1.
  destruct (list_videos w) as [videos w1]. cbn [fst snd].
  destruct videos as [|v videos]; [reflexivity|].
  unfold bind, print, call. cbn [service stdout].
  destruct (list_blobs (Some "metadata/") (service w1)) as [listing s2].
  cbn [fst snd].
  destruct (for_each (v :: videos) _ (O, O) _) as [[g sk] w3]. reflexivity.
Qed.

Lemma inventory_in_inventory (s : Service) (v : VideoInfo) :
  In v (fst (run list_videos s)) -> in_inventory (blob_name v) = true.
Proof.
  unfold run. rewrite list_existing_videos_run. cbv zeta. cbn [service].
  destruct (failure (fst (list_blobs None s))); cbn [fst]; [intros []|].
  intros H. apply in_map_iff in H as (b & <- & Hb).
  apply filter_In in Hb as [_ Hb]. now rewrite video_of_blob_name.
Qed.

(** C7, amended. A listed blob is in the inventory only if its name does
    not start with [metadata/] and its extension, up to case, is one of
    the seven video extensions, and, when the listing completes, if and
    only if; when the listing raises the inventory is empty.  So an entry
    under [metadata/] or with another extension is never inventoried, and
    every blob a batch run leaves was there before or is the document of
    an inventoried video. *)
Theorem inventory_filter (s : Service) (b : BlobProperties) :
  In b (items (fst (list_blobs None s))) ->
  (failure (fst (list_blobs None s)) = None ->
   (In (name b) (List.map blob_name (fst (run list_videos s)))
    <-> Str.startswith "metadata/" (name b) = false
        /\ In (Str.lower (PurePath.suffix (name b))) video_extensions))
  /\ (In (name b) (List.map blob_name (fst (run list_videos s))) ->
      Str.startswith "metadata/" (name b) = false
      /\ In (Str.lower (PurePath.suffix (name b))) video_extensions)
  /\ (forall e, failure (fst (list_blobs None s)) = Some e ->
                fst (run list_videos s) = [])
  /\ (Str.startswith "metadata/" (name b) = true ->
      ~ In (name b) (List.map blob_name (fst (run list_videos s))))
  /\ (~ In (Str.lower (PurePath.suffix (name b))) video_extensions ->
      ~ In (name b) (List.map blob_name (fst (run list_videos s))))
  /\ (forall force x,
         In x (blobs (after (generate_all force) s)) ->
         In x (blobs s)
         \/ exists v,
             In v (fst (run list_videos s))
             /\ x = (metadata_path v, Text (dumps (create_metadata v None)))
             /\ Str.startswith "metadata/" (blob_name v) = false
             /\ In (Str.lower (PurePath.suffix (blob_name v))) video_extensions).
Proof.
  intros Hb.
  assert (Honly : In (name b) (List.map blob_name (fst (run list_videos s)))
                  -> Str.startswith "metadata/" (name b) = false
                     /\ In (Str.lower (PurePath.suffix (name b)))
                           video_extensions).
  { intros Hin. apply in_map_iff in Hin as (v & Hv & Hin).
    rewrite <- Hv. apply in_inventory_iff.
    exact (inventory_in_inventory s v Hin). }
  split; [|split; [exact Honly|split; [|split; [|split]]]].
  - intros Hok. split; [exact Honly|].
    rewrite (inventory_names account_name container_name s (name b) Hok).
    rewrite in_inventory_iff. intros H. split; [|exact H].
    now apply in_map.
  - intros e He. unfold run. rewrite list_existing_videos_run. cbv zeta.
    cbn [service]. now rewrite He.
  - intros Hm Hin. apply Honly in Hin as [Hin _]. congruence.
  - intros Hx Hin. apply Honly in Hin as [_ Hin]. contradiction.
  - intros force x. unfold after, run. rewrite generate_all_run.
    cbv zeta.
    change (list_videos {| service := s; stdout := [] |})
      with (run list_videos s).
    pose proof (inventory_in_inventory s) as Hinv.
    assert (Hblobs : blobs (service (snd (run list_videos s))) = blobs s).
    { unfold run. rewrite list_existing_videos_run. cbv zeta. cbn [service].
      destruct (failure (fst (list_blobs None s))); cbn [snd service];
        apply list_blobs_keeps_blobs. }
    destruct (fst (run list_videos s)) as [|v0 videos] eqn:Ev; cbn [snd service].
    + rewrite Hblobs. now left.
    + intros H. apply loop_blobs in H as [H|(v & Hv & Hx)].
      * left. cbn [service] in H.
        now rewrite list_blobs_keeps_blobs, Hblobs in H.
      * right. exists v. split; [exact Hv|]. split; [exact Hx|].
        apply in_inventory_iff. now apply Hinv.
Qed.

End Driver.

Lemma inventory_filter_witness :
  (In "clip.MOV"
      (List.map blob_name
         (fst (run (list_existing_videos "acct" "training-videos")
                   mixed_container)))
   <-> Str.startswith "metadata/" "clip.MOV" = false
       /\ In (Str.lower (PurePath.suffix "clip.MOV")) video_extensions)
  /\ List.map blob_name
       (fst (run (list_existing_videos "acct" "training-videos")
                 mixed_container))
     = ["beginner/a.mp4"; "clip.MOV"].
Proof.
  split; [|reflexivity].
  refine (proj1 (inventory_filter Json.dumps "acct" "training-videos"
                   mixed_container
                   {| name := "clip.MOV"; bsize := 5242880 |} _) eq_refl).
  simpl. tauto.
Defined.

(** C7, as stated, fails: the listing delivers the video [beginner/a.mp4],
    which is outside [metadata/] and has a video extension, and then
    raises; the inventory is empty. *)
Lemma inventory_filter_counterexample :
  items (fst (list_blobs None interrupted_container))
  = [{| name := "beginner/a.mp4"; bsize := 1048576 |}]
  /\ failure (fst (list_blobs None interrupted_container)) = Some "timeout"
  /\ Str.startswith "metadata/" "beginner/a.mp4" = false
  /\ In (Str.lower (PurePath.suffix "beginner/a.mp4")) video_extensions
  /\ fst (run (list_existing_videos "acct" "training-videos")
              interrupted_container) = [].
Proof.
  split; [reflexivity|]. split; [reflexivity|]. split; [reflexivity|].
  split; [simpl; tauto | reflexivity].
Qed.

Section EnumerationFailure.

Variable dumps : Dict.t -> string.
Variables account_name container_name : string.

Local Abbreviation list_videos :=
  (list_existing_videos account_name container_name).
Local Abbreviation generate_all :=
  (generate_all_metadata dumps account_name container_name).

(** C10, amended. When the enumeration of [metadata/] raises, the error
    is discarded without a line printed and the existing-metadata set
    holds the base names of the [.json] objects delivered before the
    failure (none when it fails at once).  With force-overwrite false
    exactly the inventoried videos whose clean name is not in that set
    are synthesized and an overwriting upload to their metadata path is
    attempted, the others are skipped.  A document is published when its
    upload succeeds: the documents created are those of the attempts that
    succeed, and after the run each path holds the document of the last
    video uploaded there, or what it held before. *)
Theorem enumeration_failure_partial_set
        (s : Service) (k : nat) (e : error)
        (rest : list (option (nat * error))) :
  list_faults s = None :: Some (k, e) :: rest ->
  fst (run list_videos s) <> [] ->
  let videos := fst (run list_videos s) in
  let delivered :=
    firstn k (List.filter (fun b => Str.startswith "metadata/" (name b))
                          (List.map props (blobs s))) in
  let E := existing_metadata_of {| items := delivered; failure := Some e |} in
  let out := printed (generate_all false) s in
  (forall x, x ∈ E <-> exists b, In b delivered
                                 /\ Str.endswith ".json" (name b) = true
                                 /\ PurePath.stem (name b) = x)
  /\ list_errors out = []
  /\ skipped_files out
     = List.map file_name
         (List.filter (fun v => bool_decide (clean_name v ∈ E)) videos)
  /\ generating_files out
     = List.map file_name
         (List.filter (fun v => negb (bool_decide (clean_name v ∈ E))) videos)
  /\ upload_paths out
     = List.map metadata_path
         (List.filter (fun v => negb (bool_decide (clean_name v ∈ E))) videos)
  /\ (k = O -> skipped_files out = []
               /\ upload_paths out = List.map metadata_path videos)
  /\ (upload_faults s = [] ->
      forall v, In v videos -> clean_name v ∉ E ->
        exists v', In v' videos /\ clean_name v' = clean_name v
          /\ get_blob (metadata_path v) (blobs (after (generate_all false) s))
             = Some (Text (dumps (create_metadata v' None))))
  /\ created_paths out
     = List.map metadata_path
         (uploaded (upload_faults s)
            (List.filter (fun v => negb (bool_decide (clean_name v ∈ E)))
                         videos))
  /\ (forall p,
        get_blob p (blobs (after (generate_all false) s))
        = match List.find (fun v => String.eqb (metadata_path v) p)
                  (List.rev
                     (uploaded (upload_faults s)
                        (List.filter
                           (fun v => negb (bool_decide (clean_name v ∈ E)))
                           videos))) with
          | Some v => Some (Text (dumps (create_metadata v None)))
          | None => get_blob p (blobs s)
          end).
Proof.
  intros Hf Hne. cbv zeta.
  assert (Hrun : list_videos {| service := s; stdout := [] |}
                 = (fst (run list_videos s),
                    {| service := {| blobs := blobs s;
                                     list_faults := Some (k, e) :: rest;
                                     upload_faults := upload_faults s |};
                       stdout := [Scanning;
                                  Found (List.length (fst (run list_videos s)))] |})).
  { unfold run. rewrite list_existing_videos_run. cbv zeta. cbn [service].
    unfold list_blobs. rewrite Hf. reflexivity. }
  set (delivered := firstn k _).
  set (E := existing_metadata_of _).
  assert (Hskip : forall v, skips E false v = bool_decide (clean_name v ∈ E)).
  { intros v. unfold skips. apply andb_true_r. }
  assert (Hgen : generate_all false {| service := s; stdout := [] |}
                 = let videos := fst (run list_videos s) in
                   let w2 := {| service := {| blobs := blobs s;
                                              list_faults := rest;
                                              upload_faults := upload_faults s |};
                                stdout := [Scanning; Found (List.length videos);
                                           GeneratingFor (List.length videos)] |} in
                   let r := for_each videos (process dumps E false) (O, O) w2 in
                   (tt, {| service := service (snd r);
                           stdout := stdout (snd r)
                                     ++ [Complete (fst (fst r)) (snd (fst r))
                                                  (List.length videos)] |})).
  { rewrite generate_all_run. cbv zeta. rewrite Hrun. cbn [fst snd].
    destruct (fst (run list_videos s)) as [|v0 videos]; [congruence|].
    reflexivity. }
  assert (Hout : forall f : Event -> list string,
             (forall g sk t, f (Complete g sk t) = []) ->
             flat_map f (printed (generate_all false) s)
             = flat_map f
                 (stdout (snd (for_each (fst (run list_videos s))
                                        (process dumps E false) (O, O)
                                        {| service := {| blobs := blobs s;
                                                         list_faults := rest;
                                                         upload_faults := upload_faults s |};
                                           stdout := [Scanning;
                                                      Found (List.length (fst (run list_videos s)));
                                                      GeneratingFor (List.length (fst (run list_videos s)))] |})))).
  { intros f Hfc. unfold printed, run. rewrite Hgen. cbv zeta. cbn [snd stdout].
    rewrite flat_map_app. cbn [flat_map]. rewrite Hfc.
    now rewrite !List.app_nil_r. }
  pose proof (loop_trace dumps E false (fst (run list_videos s)) (O, O)
                {| service := {| blobs := blobs s;
                                 list_faults := rest;
                                 upload_faults := upload_faults s |};
                   stdout := [Scanning;
                              Found (List.length (fst (run list_videos s)));
                              GeneratingFor (List.length (fst (run list_videos s)))] |})
    as Htrace.
  cbv zeta in Htrace. destruct Htrace as (T1 & T2 & T3 & T4 & _).
  assert (Hfil : forall (A : Type) (l : list VideoInfo),
             List.filter (skips E false) l
             = List.filter (fun v => bool_decide (clean_name v ∈ E)) l).
  { intros _ l. apply filter_ext. exact Hskip. }
  assert (Hfil' : forall l : list VideoInfo,
             List.filter (fun v => negb (skips E false v)) l
             = List.filter (fun v => negb (bool_decide (clean_name v ∈ E))) l).
  { intros l. apply filter_ext. intros v. now rewrite Hskip. }
  assert (S1 : skipped_files (printed (generate_all false) s)
               = List.map file_name
                   (List.filter (fun v => bool_decide (clean_name v ∈ E))
                                (fst (run list_videos s)))).
  { unfold skipped_files at 1. rewrite Hout by reflexivity.
    etransitivity; [exact T1|]. now rewrite (Hfil unit). }
  assert (S3 : upload_paths (printed (generate_all false) s)
               = List.map metadata_path
                   (List.filter (fun v => negb (bool_decide (clean_name v ∈ E)))
                                (fst (run list_videos s)))).
  { unfold upload_paths at 1. rewrite Hout by reflexivity.
    etransitivity; [exact T3|]. now rewrite Hfil'. }
  split; [intros x; apply existing_metadata_of_iff|].
  split; [|split; [exact S1|split; [|split; [exact S3|split]]]].
  - unfold list_errors at 1. rewrite Hout by reflexivity.
    etransitivity; [exact T4|]. reflexivity.
  - unfold generating_files at 1. rewrite Hout by reflexivity.
    etransitivity; [exact T2|]. now rewrite Hfil'.
  - intros ->. rewrite S1, S3.
    assert (HE : forall v : VideoInfo, clean_name v ∉ E).
    { intros v Hin.
      apply existing_metadata_of_iff in Hin as (b & Hb & _).
      subst delivered. cbn [items firstn] in Hb. exact Hb. }
    split.
    + rewrite (filter_ext _ (fun _ => false));
        [now rewrite filter_false|].
      intros v. cbv beta. apply bool_decide_eq_false, HE.
    + rewrite (filter_ext _ (fun _ => true));
        [now rewrite filter_true|].
      intros v. cbv beta. apply negb_true_iff, bool_decide_eq_false, HE.
  - destruct (loop_uploaded dumps E false (fst (run list_videos s)) (O, O)
                {| service := {| blobs := blobs s;
                                 list_faults := rest;
                                 upload_faults := upload_faults s |};
                   stdout := [Scanning;
                              Found (List.length (fst (run list_videos s)));
                              GeneratingFor (List.length (fst (run list_videos s)))] |})
      as [I1 I2].
    cbn [service stdout blobs upload_faults] in I1, I2.
    rewrite Hfil' in I1. split; [|split].
    + intros Hup v Hv HvE. unfold after, run. rewrite Hgen. cbv zeta.
      cbn [snd service].
      apply loop_publishes; [exact Hup | exact Hv |].
      rewrite Hskip. now apply bool_decide_eq_false.
    + unfold created_paths at 1. rewrite Hout by reflexivity.
      etransitivity; [exact I1|]. reflexivity.
    + intros p. unfold after, run. rewrite Hgen. cbv zeta.
      cbn [snd service]. rewrite I2, Hfil'. reflexivity.
Qed.

End EnumerationFailure.
Lemma enumeration_failure_partial_set_witness :
  list_errors
    (printed (generate_all_metadata Json.dumps "acct" "training-videos" false)
             flaky_container) = []
  /\ skipped_files
       (printed (generate_all_metadata Json.dumps "acct" "training-videos" false)
                flaky_container) = ["a.mp4"]
  /\ upload_paths
       (printed (generate_all_metadata Json.dumps "acct" "training-videos" false)
                flaky_container) = ["metadata/b.json"]
  /\ skipped_files
       (printed (generate_all_metadata Json.dumps "acct" "training-videos" false)
                half_failing_container) = ["a.mp4"]
  /\ upload_paths
       (printed (generate_all_metadata Json.dumps "acct" "training-videos" false)
                half_failing_container) = ["metadata/b.json"; "metadata/c.json"]
  /\ created_paths
       (printed (generate_all_metadata Json.dumps "acct" "training-videos" false)
                half_failing_container) = ["metadata/b.json"]
  /\ get_blob "metadata/c.json"
       (blobs (after (generate_all_metadata Json.dumps "acct" "training-videos"
                                            false)
                     half_failing_container)) = None
  /\ get_blob "metadata/a.json"
       (blobs (after (generate_all_metadata Json.dumps "acct" "training-videos"
                                            false)
                     half_failing_container)) = Some (Text "{}").
Proof.
  assert (Hne : fst (run (list_existing_videos "acct" "training-videos")
                         flaky_container) <> [])
    by (vm_compute; discriminate).
  assert (Hne' : fst (run (list_existing_videos "acct" "training-videos")
                          half_failing_container) <> [])
    by (vm_compute; discriminate).
  pose proof (enumeration_failure_partial_set Json.dumps "acct"
                "training-videos" flaky_container 1%nat "timeout" []
                eq_refl Hne) as H.
  pose proof (enumeration_failure_partial_set Json.dumps "acct"
                "training-videos" half_failing_container 1%nat "timeout" []
                eq_refl Hne') as H'.
  cbv zeta in H, H'.
  destruct H as (_ & He & Hs & _ & Hu & _).
  destruct H' as (_ & _ & Hs' & _ & Hu' & _ & _ & Hc' & Hb').
  split; [exact He|]. split; [rewrite Hs; vm_compute; reflexivity|].
  split; [rewrite Hu; vm_compute; reflexivity|].
  split; [rewrite Hs'; vm_compute; reflexivity|].
  split; [rewrite Hu'; vm_compute; reflexivity|].
  split; [rewrite Hc'; vm_compute; reflexivity|].
  split; rewrite Hb'; vm_compute; reflexivity.
Defined.

(** C10, as stated, fails: the enumeration raises after delivering
    [metadata/a.json]; the set then holds "a", and with force-overwrite
    false the video of clean name "a" is skipped, not published. *)
Lemma enumeration_failure_counterexample :
  failure (fst (list_blobs (Some "metadata/")
                           (snd (list_blobs None flaky_container))))
  = Some "timeout"
  /\ List.map file_name
       (fst (run (list_existing_videos "acct" "training-videos")
                 flaky_container)) = ["a.mp4"; "b.mp4"]
  /\ elements
       (existing_metadata_of
          (fst (list_blobs (Some "metadata/")
                           (snd (list_blobs None flaky_container))))) = ["a"]
  /\ printed (generate_all_metadata Json.dumps "acct" "training-videos" false)
             flaky_container
     = [Scanning; Found 2; GeneratingFor 2; Skipping "a.mp4";
        Generating "b.mp4"; Created "metadata/b.json"; Complete 1 1 2].
Proof. vm_compute. repeat split. Qed.

(* ===================================================================== *)
(** ** Running the batch twice *)
(* ===================================================================== *)

(** C2. The blob [beginner-.mp4] has the empty clean name; its document is
    written to [metadata/.json], whose stem is [.json]: the second run
    with force-overwrite false does not find the empty name in the set,
    does not skip the video and writes the document again. *)
Theorem second_run_republishes_empty_clean_name :
  List.map clean_name
    (fst (run (list_existing_videos "acct" "training-videos")
              bare_prefix_container)) = [""]
  /\ printed (generate_all_metadata Json.dumps "acct" "training-videos" false)
             bare_prefix_container
     = [Scanning; Found 1; GeneratingFor 1; Generating "beginner-.mp4";
        Created "metadata/.json"; Complete 1 0 1]
  /\ elements
       (existing_metadata_of
          (fst (list_blobs (Some "metadata/")
                  (after (generate_all_metadata Json.dumps "acct"
                                                "training-videos" false)
                         bare_prefix_container)))) = [".json"]
  /\ printed (generate_all_metadata Json.dumps "acct" "training-videos" false)
             (after (generate_all_metadata Json.dumps "acct" "training-videos"
                                           false)
                    bare_prefix_container)
     = [Scanning; Found 1; GeneratingFor 1; Generating "beginner-.mp4";
        Created "metadata/.json"; Complete 1 0 1].
Proof. vm_compute. repeat split. Qed.

(* ===================================================================== *)
(** ** Documents and the names read back from them *)
(* ===================================================================== *)

Section PathFacts.

Variable sep : ascii.

Lemma split_segments (s : string) :
  Forall (fun x => Str.has_char sep x = false) (Str.split sep s).
Proof.
  induction s as [|c s IH]; simpl; [repeat constructor|].
  destruct (Ascii.eqb c sep) eqn:Hc.
  - constructor; [reflexivity | exact IH].
  - destruct (Str.split sep s) as [|h t]; [repeat constructor; simpl|].
    + now rewrite Hc.
    + inversion IH as [|? ? Hh Ht]; subst. constructor; [|exact Ht].
      simpl. now rewrite Hc, Hh.
Qed.

Lemma has_char_take (n : nat) (s : string) :
  Str.has_char sep s = false -> Str.has_char sep (Str.take n s) = false.
Proof.
  revert s. induction n as [|n IH]; intros [|c s]; simpl; try reflexivity.
  intros H. apply orb_false_iff in H as [Hc Hs]. now rewrite Hc, IH.
Qed.

Lemma has_char_drop (n : nat) (s : string) :
  Str.has_char sep s = false -> Str.has_char sep (Str.drop n s) = false.
Proof.
  revert s. induction n as [|n IH]; intros [|c s]; simpl; try tauto.
  intros H. apply orb_false_iff in H as [Hc Hs]. now apply IH.
Qed.

Lemma rfind_app_last (a b : string) :
  Str.has_char sep b = false ->
  Str.rfind sep (a +:+ String sep b) = Some (String.length a).
Proof.
  intros Hb. induction a as [|x a IH]; simpl.
  - apply rfind_none in Hb. now rewrite Hb, Ascii.eqb_refl.
  - now rewrite IH.
Qed.

End PathFacts.

Lemma last_forall {A} (P : A -> Prop) (l : list A) (d : A) :
  Forall P l -> P d -> P (List.last l d).
Proof.
  induction l as [|x l IH]; simpl; [tauto|].
  intros H Hd. inversion H; subst. destruct l; [assumption | now apply IH].
Qed.

Lemma name_no_slash (p : string) : Str.has_char "/" (PurePath.name p) = false.
Proof.
  unfold PurePath.name, PurePath.parts.
  apply (last_forall (fun x => Str.has_char "/" x = false)); [|reflexivity].
  apply List.Forall_forall. intros x Hx. apply filter_In in Hx as [Hx _].
  revert x Hx. apply List.Forall_forall, split_segments.
Qed.

Lemma stem_no_slash (p : string) : Str.has_char "/" (PurePath.stem p) = false.
Proof.
  unfold PurePath.stem. destruct (PurePath.suffix_index (PurePath.name p)).
  - apply has_char_take, name_no_slash.
  - apply name_no_slash.
Qed.

(** A clean name never contains a separator. *)
Lemma clean_name_no_slash (p : string) :
  Str.has_char "/" (snd (parse_video_info p)) = false.
Proof.
  destruct (folder_test p) eqn:Hf.
  - rewrite (parse_video_info_folder p Hf). apply stem_no_slash.
  - rewrite (parse_video_info_no_folder p Hf).
    destruct (find_prefix categories (PurePath.stem p)) as [[cat r]|] eqn:E.
    + apply find_prefix_some in E as (_ & _ & ->).
      apply has_char_drop, stem_no_slash.
    + apply stem_no_slash.
Qed.

Lemma name_of_document (x : string) :
  Str.has_char "/" x = false -> x <> "" -> x <> "." ->
  PurePath.name ("metadata/" +:+ x) = x.
Proof.
  intros Hx H1 H2. unfold PurePath.name, PurePath.parts.
  change ("metadata/" +:+ x) with ("metadata" +:+ String "/" x).
  rewrite split_app_sep by reflexivity.
  rewrite (split_no_sep "/" x Hx). cbn [List.filter].
  apply String.eqb_neq in H1, H2.
  replace (String.eqb "metadata" "") with false by reflexivity.
  replace (String.eqb "metadata" ".") with false by reflexivity.
  rewrite H1, H2. reflexivity.
Qed.

(** The document of a non-empty clean name is read back under that name. *)
Lemma stem_of_document (c : string) :
  c <> "" -> Str.has_char "/" c = false ->
  Str.startswith "metadata/" ("metadata/" +:+ c +:+ ".json") = true
  /\ Str.endswith ".json" ("metadata/" +:+ c +:+ ".json") = true
  /\ PurePath.stem ("metadata/" +:+ c +:+ ".json") = c.
Proof.
  intros Hc Hs. split; [apply startswith_app|]. split.
  - unfold Str.endswith. rewrite <- app_assoc, length_app.
    replace (String.length ("metadata/" +:+ c) + String.length ".json"
             - String.length ".json")%nat
      with (String.length ("metadata/" +:+ c)) by lia.
    rewrite drop_app_length. apply andb_true_iff. split.
    + apply Nat.leb_le. lia.
    + reflexivity.
  - unfold PurePath.stem. rewrite name_of_document.
    + unfold PurePath.suffix_index.
      change (c +:+ ".json") with (c +:+ String "." "json").
      rewrite rfind_app_last by reflexivity.
      rewrite length_app. cbn [String.length].
      assert (0 < String.length c)%nat by (destruct c; [congruence | simpl; lia]).
      replace ((0 <? String.length c)%nat) with true
        by (symmetry; apply Nat.ltb_lt; lia).
      replace ((String.length c <? String.length c + 5 - 1)%nat) with true
        by (symmetry; apply Nat.ltb_lt; lia).
      cbn [andb]. apply take_app_length.
    + rewrite has_char_app, Hs. reflexivity.
    + destruct c; [congruence | discriminate].
    + destruct c as [|a [|b c]]; [congruence | discriminate | discriminate].
Qed.

Lemma endswith_iff (p s : string) :
  Str.endswith p s = true <-> exists a, s = a +:+ p.
Proof.
  unfold Str.endswith. rewrite andb_true_iff, Nat.leb_le, String.eqb_eq. split.
  - intros [_ H]. exists (Str.take (String.length s - String.length p) s).
    transitivity (Str.take (String.length s - String.length p) s
                  +:+ Str.drop (String.length s - String.length p) s).
    + symmetry. apply take_drop.
    + f_equal. exact H.
  - intros [a ->]. rewrite length_app. split; [lia|].
    replace (String.length a + String.length p - String.length p)%nat
      with (String.length a) by lia.
    apply drop_app_length.
Qed.

Lemma rfind_lt (c : ascii) (s : string) (i : nat) :
  Str.rfind c s = Some i -> (i < String.length s)%nat.
Proof.
  revert i. induction s as [|a s IH]; intros i; simpl; [discriminate|].
  destruct (Str.rfind c s) as [j|].
  - intros [= <-]. specialize (IH j eq_refl). lia.
  - destruct (Ascii.eqb a c); [intros [= <-]; lia | discriminate].
Qed.

Lemma rfind_app_no_sep (c : ascii) (a b : string) :
  Str.has_char c b = false -> Str.rfind c (a +:+ b) = Str.rfind c a.
Proof.
  intros Hb. induction a as [|x a IH]; simpl.
  - now apply rfind_none.
  - now rewrite IH.
Qed.

Lemma drop_app (n : nat) (a b : string) :
  (n <= String.length a)%nat -> Str.drop n (a +:+ b) = Str.drop n a +:+ b.
Proof.
  revert a. induction n as [|n IH]; intros [|x a] H; simpl in *;
    try reflexivity; try lia.
  apply IH. lia.
Qed.

(** Text without a separator appended to a path extends its last segment. *)
Lemma split_last_app (c : ascii) (a b : string) :
  Str.has_char c b = false ->
  List.last (Str.split c (a +:+ b)) "" = List.last (Str.split c a) "" +:+ b.
Proof.
  intros Hb. rewrite !split_last, (rfind_app_no_sep c a b Hb).
  destruct (Str.rfind c a) as [i|] eqn:E; [|reflexivity].
  apply rfind_lt in E. apply drop_app. lia.
Qed.

Lemma last_filter {A} (f : A -> bool) (l : list A) (d : A) :
  l <> [] -> f (List.last l d) = true ->
  List.last (List.filter f l) d = List.last l d.
Proof.
  induction l as [|x l IH]; [congruence|]. intros _ Hf.
  destruct l as [|y l].
  - simpl in *. now rewrite Hf.
  - rewrite last_cons_nonempty in Hf |- * by discriminate.
    cbn [List.filter]. destruct (f x).
    + assert (Hne : List.filter f (y :: l) <> []).
      { clear IH. revert y Hf. induction l as [|z l IHl]; intros y Hf.
        - simpl in *. rewrite Hf. discriminate.
        - rewrite last_cons_nonempty in Hf by discriminate.
          cbn [List.filter]. destruct (f y); [discriminate|].
          now apply IHl. }
      rewrite last_cons_nonempty by exact Hne. apply IH; [discriminate|exact Hf].
    + apply IH; [discriminate | exact Hf].
Qed.

(** The base name read from a name that ends in [.json] is never empty. *)
Lemma stem_json_nonempty (n : string) :
  Str.endswith ".json" n = true -> PurePath.stem n <> "".
Proof.
  intros H. apply endswith_iff in H as [a ->].
  assert (Hname : PurePath.name (a +:+ ".json")
                  = List.last (Str.split "/" a) "" +:+ ".json").
  { unfold PurePath.name, PurePath.parts.
    rewrite last_filter.
    - now apply split_last_app.
    - apply split_nonempty.
    - rewrite split_last_app by reflexivity.
      destruct (List.last (Str.split "/" a) "") as [|x r]; [reflexivity|].
      simpl. destruct (Ascii.eqb x "."); [|reflexivity].
      destruct r; reflexivity. }
  unfold PurePath.stem. rewrite Hname.
  set (y := List.last (Str.split "/" a) "").
  unfold PurePath.suffix_index.
  destruct (Str.rfind "." (y +:+ ".json")) as [i|].
  - destruct (0 <? i)%nat eqn:Hi; cbn [andb].
    + destruct (i <? _)%nat.
      * apply Nat.ltb_lt in Hi. destruct i as [|i]; [lia|].
        destruct y; discriminate.
      * destruct y; discriminate.
    + destruct y; discriminate.
  - destruct y; discriminate.
Qed.

Lemma put_inventory (p : string) (b : Body) (l : list (string * Body)) :
  Str.startswith "metadata/" p = true ->
  List.filter (fun x => in_inventory (name x)) (List.map props (put p b l))
  = List.filter (fun x => in_inventory (name x)) (List.map props l).
Proof.
  intros Hp.
  assert (Hout : in_inventory p = false)
    by (unfold in_inventory; now rewrite Hp).
  induction l as [|[n b'] l IH]; simpl.
  - now rewrite Hout.
  - destruct (String.eqb_spec n p) as [->|Hne]; simpl.
    + now rewrite Hout.
    + now rewrite IH.
Qed.

Lemma put_keeps_names (p : string) (b : Body) (l : list (string * Body))
      (n : string) :
  In n (List.map fst l) -> In n (List.map fst (put p b l)).
Proof.
  induction l as [|[m b'] l IH]; simpl; [tauto|].
  destruct (String.eqb_spec m p) as [->|Hne]; simpl; tauto.
Qed.

Lemma get_blob_some_in (p : string) (l : list (string * Body)) (b : Body) :
  get_blob p l = Some b -> In p (List.map fst l).
Proof.
  induction l as [|[n b'] l IH]; simpl; [discriminate|].
  destruct (String.eqb_spec n p) as [->|Hne]; [now left|].
  intros H. right. now apply IH.
Qed.

Section Rerun.

Variable dumps : Dict.t -> string.
Variables account_name container_name : string.

Local Abbreviation entry := (video_of account_name container_name).
Local Abbreviation list_videos :=
  (list_existing_videos account_name container_name).
Local Abbreviation generate_all :=
  (generate_all_metadata dumps account_name container_name).
Local Abbreviation inventory := (inventory_of account_name container_name).

(** What one turn of the main loop leaves of the service. *)
Lemma process_service (E : gset string) (force : bool) (counts : nat * nat)
      (v : VideoInfo) (w : World) :
  let s' := service (snd (process dumps E force counts v w)) in
  list_faults s' = list_faults (service w)
  /\ (upload_faults (service w) = [] -> upload_faults s' = [])
  /\ List.filter (fun x => in_inventory (name x)) (List.map props (blobs s'))
     = List.filter (fun x => in_inventory (name x))
                   (List.map props (blobs (service w)))
  /\ (forall n, In n (List.map fst (blobs (service w))) ->
                In n (List.map fst (blobs s')))
  /\ (skips E force v = true -> s' = service w).
Proof.
  cbv zeta. split; [|split; [apply loop_upload_faults|]].
  - destruct counts as [g sk]. rewrite process_run.
    destruct (skips E force v); [reflexivity|]. cbv zeta.
    pose proof (upload_blob_list_faults (metadata_path v)
                  (dumps (create_metadata v None)) (service w)) as Hl.
    destruct (upload_blob (metadata_path v) _ (service w)) as [[e|] s'];
      exact Hl.
  - destruct counts as [g sk]. rewrite process_run.
    destruct (skips E force v); [repeat split; auto|]. cbv zeta.
    pose proof (upload_blob_blobs (metadata_path v)
                  (dumps (create_metadata v None)) (service w)) as Hb.
    destruct (upload_blob (metadata_path v) _ (service w)) as [[e|] s'];
      cbn [fst snd service] in *; rewrite Hb.
    + repeat split; auto. discriminate.
    + split; [|split; [|discriminate]].
      * apply put_inventory. unfold metadata_path. apply startswith_app.
      * intros n Hn. now apply put_keeps_names.
Qed.

(** What the main loop leaves of the service. *)
Lemma loop_service (E : gset string) (force : bool) (videos : list VideoInfo)
      (counts : nat * nat) (w : World) :
  let s' := service (snd (for_each videos (process dumps E force) counts w)) in
  list_faults s' = list_faults (service w)
  /\ (upload_faults (service w) = [] -> upload_faults s' = [])
  /\ List.filter (fun x => in_inventory (name x)) (List.map props (blobs s'))
     = List.filter (fun x => in_inventory (name x))
                   (List.map props (blobs (service w)))
  /\ (forall n, In n (List.map fst (blobs (service w))) ->
                In n (List.map fst (blobs s')))
  /\ ((forall v, In v videos -> skips E force v = true) -> s' = service w).
Proof.
  revert counts w. induction videos as [|v videos IH]; intros counts w.
  - simpl. tauto.
  - cbv zeta. rewrite for_each_cons.
    specialize (IH (fst (process dumps E force counts v w))
                   (snd (process dumps E force counts v w))).
    cbv zeta in IH. destruct IH as (H1 & H2 & H3 & H4 & H5).
    destruct (process_service E force counts v w) as (P1 & P2 & P3 & P4 & P5).
    rewrite H1, H3, P1, P3. repeat split; auto.
    intros Hall. rewrite H5.
    + apply P5, Hall. now left.
    + intros u Hu. apply Hall. now right.
Qed.

Lemma list_blobs_reliable (prefix : option string) (s : Service) :
  list_faults s = [] ->
  list_blobs prefix s
  = ({| items := match prefix with
                 | Some p => List.filter (fun b => Str.startswith p (name b))
                                         (List.map props (blobs s))
                 | None => List.map props (blobs s)
                 end;
        failure := None |}, s).
Proof. unfold list_blobs. now intros ->. Qed.

Lemma inventory_reliable (s : Service) :
  list_faults s = [] ->
  run list_videos s
  = (inventory s,
     {| service := s;
        stdout := [Scanning; Found (List.length (inventory s))] |}).
Proof.
  intros Hl. unfold run. rewrite list_existing_videos_run. cbn [service].
  rewrite (list_blobs_reliable None s Hl). reflexivity.
Qed.

Lemma existing_of_store (s : Service) (x : string) :
  list_faults s = [] ->
  x ∈ existing_metadata_of (fst (list_blobs (Some "metadata/") s))
  <-> exists n, In n (List.map fst (blobs s))
                /\ Str.startswith "metadata/" n = true
                /\ Str.endswith ".json" n = true
                /\ PurePath.stem n = x.
Proof.
  intros Hl. rewrite existing_metadata_of_iff.
  rewrite (list_blobs_reliable _ s Hl). cbn [fst items]. split.
  - intros (b & Hb & He & Hs). apply filter_In in Hb as [Hb Hp].
    apply in_map_iff in Hb as ([n body] & <- & Hin).
    exists n. split; [|auto]. apply in_map_iff. now exists (n, body).
  - intros (n & Hn & Hp & He & Hs).
    apply in_map_iff in Hn as ([n' body] & Hn' & Hin). cbn [fst] in Hn'.
    subst n'. exists (props (n, body)). split; [|auto].
    apply filter_In. split; [|exact Hp]. now apply in_map.
Qed.

(** A batch run against a service without faults, as its main loop. *)
Lemma generate_all_reliable (force : bool) (s : Service) :
  list_faults s = [] ->
  let E := existing_metadata_of (fst (list_blobs (Some "metadata/") s)) in
  let r := for_each (inventory s) (process dumps E force) (O, O)
             {| service := s;
                stdout := [Scanning; Found (List.length (inventory s));
                           GeneratingFor (List.length (inventory s))] |} in
  after (generate_all force) s = service (snd r)
  /\ skipped_files (printed (generate_all force) s)
     = skipped_files (stdout (snd r))
  /\ upload_paths (printed (generate_all force) s)
     = upload_paths (stdout (snd r)).
Proof.
  intros Hl. cbv zeta. unfold after, printed.
  assert (Hgen : run (generate_all force) s
                 = generate_all force {| service := s; stdout := [] |})
    by reflexivity.
  rewrite Hgen, generate_all_run. cbv zeta.
  change (list_videos {| service := s; stdout := [] |})
    with (run list_videos s).
  rewrite (inventory_reliable s Hl). cbn [fst snd service stdout].
  destruct (inventory s) as [|v videos] eqn:Ev.
  - repeat split.
  - rewrite (list_blobs_reliable (Some "metadata/") s Hl).
    cbn [fst snd service stdout]. split; [reflexivity|].
    unfold skipped_files, upload_paths. rewrite !flat_map_app.
    cbn [flat_map]. rewrite !List.app_nil_r. split; reflexivity.
Qed.

Lemma inventory_of_clean_name (s : Service) (v : VideoInfo) :
  In v (inventory s) -> Str.has_char "/" (clean_name v) = false.
Proof.
  intros H. apply in_map_iff in H as (b & <- & _).
  rewrite video_of_clean_name. apply clean_name_no_slash.
Qed.

(** After a batch run without faults the set of existing documents holds
    the clean name of an inventoried video exactly when it is not empty. *)
Lemma existing_after_run (s : Service) (v : VideoInfo) :
  list_faults s = [] -> upload_faults s = [] ->
  In v (inventory s) ->
  clean_name v
  ∈ existing_metadata_of
      (fst (list_blobs (Some "metadata/") (after (generate_all false) s)))
  <-> clean_name v <> "".
Proof.
  intros Hl Hu Hv.
  destruct (generate_all_reliable false s Hl) as (Hafter & _).
  cbv zeta in Hafter.
  set (E := existing_metadata_of (fst (list_blobs (Some "metadata/") s))) in *.
  set (w2 := {| service := s; stdout := _ |}) in *.
  destruct (loop_service E false (inventory s) (O, O) w2)
    as (L1 & L2 & _ & L4 & _).
  cbv zeta in L1, L2, L4. rewrite <- Hafter in L1, L2, L4.
  cbn [service w2] in L1, L2, L4.
  assert (Hl1 : list_faults (after (generate_all false) s) = [])
    by now rewrite L1.
  rewrite (existing_of_store _ _ Hl1). split.
  - intros (n & _ & _ & He & Hs) Hc. rewrite Hc in Hs.
    now apply (stem_json_nonempty n He).
  - intros Hc.
    destruct (stem_of_document (clean_name v) Hc
                (inventory_of_clean_name s v Hv)) as (Hp & He & Hs).
    fold (metadata_path v) in Hp, He, Hs.
    destruct (skips E false v) eqn:Hsk.
    + unfold skips in Hsk. rewrite andb_true_r in Hsk.
      apply bool_decide_eq_true in Hsk.
      apply (existing_of_store s _ Hl) in Hsk as (n & Hn & Hq).
      exists n. split; [now apply L4 | exact Hq].
    + destruct (loop_publishes dumps E false (inventory s) (O, O) w2 v
                  Hu Hv Hsk) as (v' & _ & _ & Hget).
      rewrite <- Hafter in Hget. apply get_blob_some_in in Hget.
      exists (metadata_path v). auto.
Qed.

(** X18. Running the batch again after a run without faults: the inventory is
    the same, and with force-overwrite false the second run skips exactly
    the videos whose clean name is not empty and uploads again the
    documents of the others; when no clean name is empty it leaves the
    container as it is. *)
Theorem second_run_skips_named_videos (s : Service) :
  list_faults s = [] -> upload_faults s = [] ->
  let s1 := after (generate_all false) s in
  inventory s1 = inventory s
  /\ skipped_files (printed (generate_all false) s1)
     = List.map file_name
         (List.filter (fun v => negb (String.eqb (clean_name v) ""))
                      (inventory s))
  /\ upload_paths (printed (generate_all false) s1)
     = List.map metadata_path
         (List.filter (fun v => String.eqb (clean_name v) "") (inventory s))
  /\ ((forall v, In v (inventory s) -> clean_name v <> "") ->
      after (generate_all false) s1 = s1).
Proof.
  intros Hl Hu. cbv zeta.
  destruct (generate_all_reliable false s Hl) as (Hafter & _).
  cbv zeta in Hafter.
  destruct (loop_service
              (existing_metadata_of (fst (list_blobs (Some "metadata/") s)))
              false (inventory s) (O, O)
              {| service := s;
                 stdout := [Scanning; Found (List.length (inventory s));
                            GeneratingFor (List.length (inventory s))] |})
    as (L1 & L2 & L3 & _ & _).
  cbv zeta in L1, L2, L3. rewrite <- Hafter in L1, L2, L3.
  cbn [service] in L1, L2, L3.
  assert (Hl1 : list_faults (after (generate_all false) s) = [])
    by now rewrite L1.
  assert (Hinv : inventory (after (generate_all false) s) = inventory s)
    by (unfold inventory_of; now rewrite L3).
  destruct (generate_all_reliable false (after (generate_all false) s) Hl1)
    as (Hafter2 & Hskip2 & Hup2).
  cbv zeta in Hafter2, Hskip2, Hup2. rewrite Hinv in Hafter2, Hskip2, Hup2.
  set (E1 := existing_metadata_of
               (fst (list_blobs (Some "metadata/")
                                (after (generate_all false) s)))) in *.
  assert (Hsk : forall v, In v (inventory s) ->
                          skips E1 false v = negb (String.eqb (clean_name v) "")).
  { intros v Hv. unfold skips. rewrite andb_true_r.
    pose proof (existing_after_run s v Hl Hu Hv) as Hiff. fold E1 in Hiff.
    destruct (String.eqb_spec (clean_name v) "") as [Hc|Hc]; cbn [negb].
    - apply bool_decide_eq_false. intros Hin. now apply Hiff in Hin.
    - apply bool_decide_eq_true. now apply Hiff. }
  match type of Hafter2 with
  | _ = service (snd (for_each _ _ ?c ?w)) =>
      destruct (loop_trace dumps E1 false (inventory s) c w)
        as (T1 & _ & T3 & _);
      destruct (loop_service E1 false (inventory s) c w)
        as (_ & _ & _ & _ & L5)
  end.
  cbv zeta in T1, T3, L5. cbn [stdout service] in T1, T3, L5.
  split; [exact Hinv|]. split; [|split].
  - rewrite Hskip2, T1. cbn [skipped_files flat_map List.app].
    f_equal. apply filter_ext_in. exact Hsk.
  - rewrite Hup2, T3. cbn [upload_paths flat_map List.app].
    f_equal. apply filter_ext_in. intros v Hv.
    rewrite (Hsk v Hv). apply negb_involutive.
  - intros Hall. rewrite Hafter2. apply L5. intros v Hv.
    rewrite (Hsk v Hv). apply negb_true_iff, String.eqb_neq. now apply Hall.
Qed.

End Rerun.

(* ===================================================================== *)
(** ** Shape of titles *)
(* ===================================================================== *)

Lemma all_chars_app (p : ascii -> bool) (a b : string) :
  all_chars p (a +:+ b) = all_chars p a && all_chars p b.
Proof.
  induction a as [|c a IH]; simpl; [reflexivity|].
  now rewrite IH, andb_assoc.
Qed.

Lemma all_chars_map (p : ascii -> bool) (f : ascii -> ascii) (s : string) :
  (forall c, p (f c) = true) -> all_chars p (Str.map f s) = true.
Proof.
  intros H. induction s as [|c s IH]; simpl; [reflexivity|].
  now rewrite H, IH.
Qed.

Lemma all_chars_map_keep (p : ascii -> bool) (f : ascii -> ascii) (s : string) :
  (forall c, p c = true -> p (f c) = true) ->
  all_chars p s = true -> all_chars p (Str.map f s) = true.
Proof.
  intros H. induction s as [|c s IH]; simpl; [reflexivity|].
  intros Hs. apply andb_true_iff in Hs as [Hc Hs].
  now rewrite (H c Hc), IH.
Qed.

Lemma all_chars_remove (p cls : ascii -> bool) (s : string) :
  all_chars p s = true -> all_chars p (remove_chars cls s) = true.
Proof.
  induction s as [|c s IH]; simpl; [reflexivity|].
  intros H. apply andb_true_iff in H as [Hc Hs].
  destruct (cls c); simpl; [now apply IH | now rewrite Hc, IH].
Qed.

Lemma remove_chars_none (cls : ascii -> bool) (s : string) :
  all_chars (fun c => negb (cls c)) (remove_chars cls s) = true.
Proof.
  induction s as [|c s IH]; simpl; [reflexivity|].
  destruct (cls c) eqn:Hc; simpl; [exact IH | now rewrite Hc, IH].
Qed.

Lemma collapse_no_sep (s : string) :
  all_chars (fun c => negb (Re.is_sep c)) (collapse_separators s) = true.
Proof.
  induction s as [|c s IH]; [reflexivity|].
  rewrite collapse_cons. destruct (Re.is_sep c) eqn:Hc.
  - destruct s as [|d s']; [reflexivity|].
    destruct (Re.is_sep d); [exact IH | simpl; exact IH].
  - simpl. now rewrite Hc, IH.
Qed.

(** The tokens of [s.split()] keep every property of its characters and
    hold no blank. *)
Lemma words_all_chars (p : ascii -> bool) (s : string) :
  all_chars p s = true -> Forall (fun w => all_chars p w = true) (Str.words s).
Proof.
  induction s as [|c s IH]; [constructor|].
  cbn [Str.words all_chars]. intros H. apply andb_true_iff in H as [Hc Hs].
  specialize (IH Hs).
  assert (H1 : all_chars p (String c "") = true) by (simpl; now rewrite Hc).
  destruct (Str.is_space c); [exact IH|].
  destruct s as [|d s']; [now repeat constructor|].
  destruct (Str.is_space d); [now constructor|].
  destruct (Str.words (String d s')) as [|h t]; [now repeat constructor|].
  inversion IH as [|? ? Hh Ht]; subst. constructor; [|exact Ht].
  simpl. now rewrite Hc, Hh.
Qed.

Lemma words_tokens (s : string) :
  Forall (fun w => w <> ""
                   /\ all_chars (fun c => negb (Str.is_space c)) w = true)
         (Str.words s).
Proof.
  induction s as [|c s IH]; [constructor|].
  cbn [Str.words]. destruct (Str.is_space c) eqn:Hc; [exact IH|].
  assert (H1 : String c "" <> ""
               /\ all_chars (fun c => negb (Str.is_space c)) (String c "") = true)
    by (split; [discriminate | simpl; now rewrite Hc]).
  destruct s as [|d s']; [now repeat constructor|].
  destruct (Str.is_space d); [now constructor|].
  destruct (Str.words (String d s')) as [|h t]; [now repeat constructor|].
  inversion IH as [|? ? [_ Hh] Ht]; subst. constructor; [|exact Ht].
  split; [discriminate|]. simpl. now rewrite Hc, Hh.
Qed.

(** Case mapping moves letters only. *)
Lemma case_classes (c : ascii) :
  Str.is_digit (Str.lower_char c) = Str.is_digit c
  /\ Str.is_digit (Str.upper_char c) = Str.is_digit c
  /\ Re.is_sep (Str.lower_char c) = Re.is_sep c
  /\ Re.is_sep (Str.upper_char c) = Re.is_sep c
  /\ Str.is_space (Str.lower_char c) = Str.is_space c
  /\ Str.is_space (Str.upper_char c) = Str.is_space c
  /\ Str.lower_char (Str.lower_char c) = Str.lower_char c
  /\ Str.upper_char (Str.upper_char c) = Str.upper_char c
  /\ Str.lower_char (Str.upper_char c) = Str.lower_char c
  /\ Str.is_upper (Str.lower_char c) = false.
Proof.
  destruct c as [[] [] [] [] [] [] [] []]; vm_compute; repeat split.
Qed.

Lemma lower_idempotent (s : string) : Str.lower (Str.lower s) = Str.lower s.
Proof.
  unfold Str.lower. induction s as [|c s IH]; simpl; [reflexivity|].
  rewrite IH. f_equal. apply case_classes.
Qed.

Lemma capitalize_idempotent (w : string) :
  Str.capitalize (Str.capitalize w) = Str.capitalize w.
Proof.
  destruct w as [|c r]; [reflexivity|]. unfold Str.capitalize.
  rewrite lower_idempotent. f_equal. apply case_classes.
Qed.

Lemma capitalize_all_chars (p : ascii -> bool) (w : string) :
  (forall c, p c = true -> p (Str.lower_char c) = true
                           /\ p (Str.upper_char c) = true) ->
  all_chars p w = true -> all_chars p (Str.capitalize w) = true.
Proof.
  intros H. destruct w as [|c r]; [reflexivity|]. simpl.
  intros Hw. apply andb_true_iff in Hw as [Hc Hr].
  rewrite (proj2 (H c Hc)). simpl.
  apply all_chars_map_keep; [|exact Hr]. intros d Hd. now apply H.
Qed.

Lemma join_all_chars (p : ascii -> bool) (sep : string) (l : list string) :
  all_chars p sep = true ->
  Forall (fun w => all_chars p w = true) l ->
  all_chars p (Str.join sep l) = true.
Proof.
  intros Hsep Hl. unfold Str.join.
  induction Hl as [|w l Hw Hl IH]; [reflexivity|].
  cbn [String.concat]. destruct l as [|x l]; [exact Hw|].
  rewrite !all_chars_app, Hw, Hsep. exact IH.
Qed.

(** A token followed by a blank is the first word of the text. *)
Lemma words_token_blank (w r : string) :
  w <> "" -> all_chars (fun c => negb (Str.is_space c)) w = true ->
  Str.words (w +:+ String " " r) = w :: Str.words r.
Proof.
  induction w as [|c w IH]; [congruence|]. intros _ Hw.
  simpl in Hw. apply andb_true_iff in Hw as [Hc Hw].
  apply negb_true_iff in Hc.
  destruct w as [|d w'].
  - cbn [String.append Str.words]. rewrite Hc.
    replace (Str.is_space " ") with true by reflexivity. reflexivity.
  - specialize (IH ltac:(discriminate) Hw).
    change (String c (String d w') +:+ String " " r)
      with (String c (String d w' +:+ String " " r)).
    cbn [Str.words]. rewrite Hc.
    change (String d w' +:+ String " " r)
      with (String d (w' +:+ String " " r)) in *.
    simpl in Hw. apply andb_true_iff in Hw as [Hd _].
    apply negb_true_iff in Hd. rewrite Hd, IH. reflexivity.
Qed.

Lemma words_token (w : string) :
  w <> "" -> all_chars (fun c => negb (Str.is_space c)) w = true ->
  Str.words w = [w].
Proof.
  induction w as [|c w IH]; [congruence|]. intros _ Hw.
  simpl in Hw. apply andb_true_iff in Hw as [Hc Hw].
  apply negb_true_iff in Hc. cbn [Str.words]. rewrite Hc.
  destruct w as [|d w']; [reflexivity|].
  rewrite (IH ltac:(discriminate) Hw).
  simpl in Hw. apply andb_true_iff in Hw as [Hd _].
  apply negb_true_iff in Hd. now rewrite Hd.
Qed.

(** Splitting what was joined with single blanks gives the tokens back. *)
Lemma words_join (l : list string) :
  Forall (fun w => w <> ""
                   /\ all_chars (fun c => negb (Str.is_space c)) w = true) l ->
  Str.words (Str.join " " l) = l.
Proof.
  unfold Str.join. induction 1 as [|w l [Hne Hw] Hl IH]; [reflexivity|].
  cbn [String.concat]. destruct l as [|x l]; [now apply words_token|].
  change (w +:+ " " +:+ String.concat " " (x :: l))
    with (w +:+ String " " (String.concat " " (x :: l))).
  rewrite (words_token_blank w _ Hne Hw). now rewrite IH.
Qed.

Lemma all_chars_and (p q : ascii -> bool) (s : string) :
  all_chars (fun c => p c && q c) s = all_chars p s && all_chars q s.
Proof.
  induction s as [|c s IH]; simpl; [reflexivity|]. rewrite IH.
  destruct (p c), (q c), (all_chars p s), (all_chars q s); reflexivity.
Qed.

(** The title as the capitalized tokens of the cleaned name. *)
Lemma title_tokens (filename : string) :
  clean_filename_for_title filename
  = match List.map Str.capitalize
            (Str.words (remove_chars Str.is_digit
                          (collapse_separators
                             (strip_category_prefix filename)))) with
    | [] => "Training Video"
    | tokens => Str.join " " tokens
    end.
Proof.
  unfold clean_filename_for_title, Re.sub_runs.
  rewrite sub_runs_remove, (proj1 (sub_runs_collapse _)),
    sub_category_prefix_strip.
  pose proof (words_nonempty
                (remove_chars Str.is_digit
                   (collapse_separators (strip_category_prefix filename))))
    as Hw.
  destruct (Str.words _) as [|w ws]; [reflexivity|].
  cbn [List.map].
  destruct (String.eqb_spec
              (Str.join " " (Str.capitalize w :: List.map Str.capitalize ws))
              "") as [H|H]; [|reflexivity].
  exfalso. revert H. apply join_nonempty, capitalize_nonempty.
  now inversion Hw.
Qed.

(** X1. For every file name made of ASCII characters (codes below 128,
    the domain on which the case mapping and the character classes of
    this development are those of Python), the title holds no digit, no
    hyphen and no underscore; it is one or more words separated by single
    blanks, with no blank at either end; and every word is capitalized. *)
Theorem title_is_clean (filename : string) :
  all_chars ascii_char filename = true ->
  all_chars title_char (clean_filename_for_title filename) = true
  /\ Str.words (clean_filename_for_title filename) <> []
  /\ Str.join " " (Str.words (clean_filename_for_title filename))
     = clean_filename_for_title filename
  /\ Forall (fun w => Str.capitalize w = w)
            (Str.words (clean_filename_for_title filename)).
Proof.
  intros _. rewrite title_tokens.
  set (cleaned := remove_chars Str.is_digit
                    (collapse_separators (strip_category_prefix filename))).
  assert (Hclean : all_chars title_char cleaned = true).
  { unfold title_char. rewrite all_chars_and. apply andb_true_iff. split.
    - apply remove_chars_none.
    - apply all_chars_remove, collapse_no_sep. }
  pose proof (words_all_chars title_char cleaned Hclean) as Hchars.
  pose proof (words_tokens cleaned) as Htok.
  destruct (Str.words cleaned) as [|w ws] eqn:E.
  - cbn [List.map]. repeat split; try discriminate.
    repeat constructor.
  - cbn [List.map].
    set (tokens := Str.capitalize w :: List.map Str.capitalize ws).
    assert (Hmap : tokens = List.map Str.capitalize (w :: ws)) by reflexivity.
    assert (Htokens : Forall (fun t => t <> ""
                        /\ all_chars (fun c => negb (Str.is_space c)) t = true)
                             tokens).
    { rewrite Hmap. apply List.Forall_map. eapply List.Forall_impl; [|exact Htok].
      intros t [Hne Hsp]. split; [now apply capitalize_nonempty|].
      apply capitalize_all_chars; [|exact Hsp].
      intros c Hc. destruct (case_classes c) as (_ & _ & _ & _ & H5 & H6 & _).
      now rewrite H5, H6. }
    assert (Hwords : Str.words (Str.join " " tokens) = tokens)
      by now apply words_join.
    rewrite Hwords. split; [|split; [discriminate|split; [reflexivity|]]].
    + apply join_all_chars; [reflexivity|].
      rewrite Hmap. apply List.Forall_map. eapply List.Forall_impl; [|exact Hchars].
      intros t Ht. apply capitalize_all_chars; [|exact Ht].
      intros c Hc. unfold title_char in *.
      destruct (case_classes c) as (H1 & H2 & H3 & H4 & _).
      now rewrite H1, H2, H3, H4.
    + rewrite Hmap. apply List.Forall_map. apply List.Forall_forall. intros t _.
      apply capitalize_idempotent.
Qed.

Lemma title_is_clean_witness :
  clean_filename_for_title "beginner_deep-dive_2024" = "Deep Dive"
  /\ all_chars title_char (clean_filename_for_title "beginner_deep-dive_2024")
     = true
  /\ Str.words (clean_filename_for_title "beginner_deep-dive_2024")
     = ["Deep"; "Dive"].
Proof.
  destruct (title_is_clean "beginner_deep-dive_2024" eq_refl)
    as (Hc & _ & _ & _).
  split; [reflexivity|]. split; [exact Hc|]. reflexivity.
Defined.


(* ===================================================================== *)
(** ** Identifiers, topics, tags and chapters *)
(* ===================================================================== *)

Lemma map_map (f g : ascii -> ascii) (s : string) :
  Str.map g (Str.map f s) = Str.map (fun c => g (f c)) s.
Proof. induction s as [|c s IH]; simpl; [reflexivity | now rewrite IH]. Qed.

Lemma slug_chars (clean_name : string) :
  all_chars slug_char (slug clean_name) = true.
Proof.
  unfold slug, Str.replace, Str.lower. rewrite !map_map.
  apply all_chars_map. intros c.
  destruct c as [[] [] [] [] [] [] [] []]; reflexivity.
Qed.

(** X2. The id of the document of an inventoried blob is the category, a
    hyphen and the slug of the clean name; it holds no blank, no
    underscore and no upper-case letter. *)
Theorem video_id_is_slug (account_name container_name : string)
        (b : BlobProperties) :
  exists id,
    Dict.get "video_id"
      (create_metadata (video_of account_name container_name b) None)
    = Some (JStr id)
    /\ Str.startswith
         (category (video_of account_name container_name b) +:+ "-") id = true
    /\ all_chars slug_char id = true.
Proof.
  eexists. split; [apply create_metadata_video_id|]. split.
  - rewrite <- app_assoc. apply startswith_app.
  - rewrite !all_chars_app, slug_chars.
    pose proof (video_of_category_valid account_name container_name b) as H.
    simpl in H. destruct H as [<-|[<-|[<-|[]]]]; reflexivity.
Qed.

Lemma size_list_to_set_le (l : list string) :
  (base.size (list_to_set l : gset string) <= List.length l)%nat.
Proof.
  induction l as [|x l IH].
  - rewrite list_to_set_nil, size_empty. simpl. lia.
  - rewrite list_to_set_cons, size_union_alt, size_singleton. simpl.
    assert (Hle : (base.size ((list_to_set l : gset string) ∖ {[x]})
                   <= base.size (list_to_set l : gset string))%nat).
    { apply subseteq_size. apply subseteq_difference_l. reflexivity. }
    lia.
Qed.

Lemma in_list_set (l : list string) (x : string) : In x (list_set l) <-> In x l.
Proof.
  unfold list_set.
  rewrite <- !list_elem_of_In, elem_of_elements, elem_of_list_to_set.
  reflexivity.
Qed.

Lemma list_set_nodup (l : list string) : NoDup (list_set l).
Proof. apply (NoDup_elements (list_to_set l : gset string)). Qed.

Lemma list_set_length (l : list string) :
  (List.length (list_set l) <= List.length l)%nat.
Proof. apply (size_list_to_set_le l). Qed.

Lemma in_firstn {A} (n : nat) (l : list A) (x : A) : In x (firstn n l) -> In x l.
Proof.
  revert l. induction n as [|n IH]; intros [|y l]; simpl; try tauto.
  intros [H|H]; [now left | right; now apply IH].
Qed.

Lemma long_words_spec (title t : string) :
  In t (long_words title)
  <-> exists w, In w (Str.words title)
                /\ (3 < String.length w)%nat /\ t = Str.lower w.
Proof.
  unfold long_words. rewrite in_map_iff. split.
  - intros (w & <- & Hw). apply filter_In in Hw as [Hw Hlen].
    exists w. apply Nat.ltb_lt in Hlen. auto.
  - intros (w & Hw & Hlen & ->). exists w. split; [reflexivity|].
    apply filter_In. split; [exact Hw | now apply Nat.ltb_lt].
Qed.

(** X3. The topics of a title have no repetition and are at most five:
    "training", "tutorial" and words among the first three of the title
    that are longer than three characters, lowercased; every topic is in
    lower case. *)
Theorem topics_of_title (title : string) :
  NoDup (generate_topics_from_title title)
  /\ (List.length (generate_topics_from_title title) <= 5)%nat
  /\ In "training" (generate_topics_from_title title)
  /\ In "tutorial" (generate_topics_from_title title)
  /\ (forall t, In t (generate_topics_from_title title) <->
                t = "training" \/ t = "tutorial"
                \/ In t (firstn 3 (long_words title)))
  /\ (forall t, In t (generate_topics_from_title title) ->
                Str.lower t = t
                /\ (t = "training" \/ t = "tutorial"
                    \/ exists w, In w (Str.words title)
                                 /\ (3 < String.length w)%nat
                                 /\ t = Str.lower w)).
Proof.
  unfold generate_topics_from_title.
  assert (Hiff : forall t,
             In t (list_set (["training"; "tutorial"]
                             ++ firstn 3 (long_words title)))
             <-> t = "training" \/ t = "tutorial"
                 \/ In t (firstn 3 (long_words title))).
  { intros t. rewrite in_list_set. simpl. intuition congruence. }
  split; [apply list_set_nodup|]. split.
  - etransitivity; [apply list_set_length|].
    rewrite List.length_app, List.length_firstn. cbn [List.length]. lia.
  - split; [apply Hiff; now left|]. split; [apply Hiff; right; now left|].
    split; [exact Hiff|]. intros t Ht. apply Hiff in Ht.
    destruct Ht as [->|[->|Ht]]; [split; [reflexivity | now left]
                                 |split; [reflexivity | right; now left]|].
    apply in_firstn, long_words_spec in Ht as (w & Hw & Hlen & ->).
    split; [apply lower_idempotent|]. right. right. now exists w.
Qed.

(** X4. The tags of a title and a category have no repetition and are at
    most six: the category and the topics of the title. *)
Theorem tags_are_topics_and_category (title category : string) :
  NoDup (generate_tags title category)
  /\ (List.length (generate_tags title category) <= 6)%nat
  /\ (forall t, In t (generate_tags title category) <->
                t = category \/ In t (generate_topics_from_title title)).
Proof.
  unfold generate_tags, generate_topics_from_title.
  split; [apply list_set_nodup|]. split.
  - etransitivity; [apply list_set_length|].
    rewrite List.length_app, List.length_firstn. cbn [List.length]. lia.
  - intros t. rewrite !in_list_set. simpl.
    intuition congruence.
Qed.

(** X5. Whatever the title and the category, there are four chapters; the
    first starts at 0, each starts where the one before ends and ends
    after it starts. *)
Theorem chapters_timeline (title category : string) :
  List.length (generate_chapters title category) = 4%nat
  /\ contiguous_from 0 (generate_chapters title category).
Proof.
  unfold generate_chapters.
  destruct (String.eqb category "beginner");
    [|destruct (String.eqb category "intermediate")];
    (split; [reflexivity | simpl; lia]).
Qed.

(** X6. The chapters do not depend on the size of the video: for a size
    under 188 MiB the estimated duration is less than 1500 seconds, and
    the last chapter ends after it. *)
Theorem chapters_outlast_short_videos (title category : string) (file_size : Z) :
  file_size < 188 * 1048576 ->
  estimate_duration file_size < 1500
  /\ estimate_duration file_size
     < end_time (List.last (generate_chapters title category)
                           (mk_chapter "" 0 0 "")).
Proof.
  intros Hsize.
  assert (Hd : estimate_duration file_size < 1500).
  { unfold estimate_duration. change (1024 * 1024) with 1048576.
    assert (file_size / 1048576 < 188)
      by (apply Z.div_lt_upper_bound; lia).
    lia. }
  split; [exact Hd|]. unfold generate_chapters.
  destruct (String.eqb category "beginner");
    [|destruct (String.eqb category "intermediate")]; simpl; lia.
Qed.

Lemma chapters_outlast_short_videos_witness :
  estimate_duration 10485760 < 1500
  /\ estimate_duration 10485760
     < end_time (List.last (generate_chapters "Deep Dive" "advanced")
                           (mk_chapter "" 0 0 "")).
Proof.
  apply (chapters_outlast_short_videos "Deep Dive" "advanced" 10485760). lia.
Defined.

(* ===================================================================== *)
(** ** Addresses of the videos *)
(* ===================================================================== *)

Lemma small_cases (n : N) :
  (n < 16)%N ->
  In n [0; 1; 2; 3; 4; 5; 6; 7; 8; 9; 10; 11; 12; 13; 14; 15]%N.
Proof. intros H. simpl. lia. Qed.

Lemma hex_digit_safe (n : N) : (n < 16)%N -> Url.is_safe (Url.hex_digit n) = true.
Proof.
  intros H. apply small_cases in H. simpl in H.
  repeat (destruct H as [<-|H]; [reflexivity|]). destruct H.
Qed.

Lemma hex_digit_inj (n m : N) :
  (n < 16)%N -> (m < 16)%N -> Url.hex_digit n = Url.hex_digit m -> n = m.
Proof.
  intros Hn Hm. apply small_cases in Hn, Hm. simpl in Hn, Hm.
  repeat (destruct Hn as [<-|Hn];
          [repeat (destruct Hm as [<-|Hm];
                   [vm_compute; intros H; first [reflexivity | discriminate H]|]);
           destruct Hm|]).
  destruct Hn.
Qed.

Lemma code_bound (c : ascii) : (Str.code c < 256)%N.
Proof. apply N_ascii_bounded. Qed.

Lemma code_inj (c d : ascii) : Str.code c = Str.code d -> c = d.
Proof.
  unfold Str.code. intros H.
  rewrite <- (ascii_N_embedding c), <- (ascii_N_embedding d). now rewrite H.
Qed.

Lemma quote_chars (s : string) : all_chars url_char (Url.quote s) = true.
Proof.
  induction s as [|c s IH]; [reflexivity|]. cbn [Url.quote].
  destruct (Url.is_safe c) eqn:Hc; cbn [all_chars]; unfold url_char at 1.
  - now rewrite Hc, IH.
  - unfold url_char at 1 2. pose proof (code_bound c).
    rewrite !hex_digit_safe, IH; [reflexivity | |].
    + apply N.mod_lt. discriminate.
    + apply N.Div0.div_lt_upper_bound. lia.
Qed.

Lemma quote_inj (s t : string) : Url.quote s = Url.quote t -> s = t.
Proof.
  revert t. induction s as [|c s IH]; intros [|d t]; cbn [Url.quote].
  - reflexivity.
  - destruct (Url.is_safe d); discriminate.
  - destruct (Url.is_safe c); discriminate.
  - destruct (Url.is_safe c) eqn:Hc, (Url.is_safe d) eqn:Hd; intros H.
    + injection H as -> H. f_equal. now apply IH.
    + injection H as -> _. discriminate Hc.
    + injection H as <- _. discriminate Hd.
    + injection H as H1 H2 H. f_equal; [|now apply IH].
      pose proof (code_bound c). pose proof (code_bound d).
      apply hex_digit_inj in H1, H2;
        try (apply N.mod_lt; discriminate);
        try (apply N.Div0.div_lt_upper_bound; lia).
      apply code_inj.
      rewrite (N.div_mod (Str.code c) 16), (N.div_mod (Str.code d) 16)
        by discriminate.
      now rewrite H1, H2.
Qed.

Lemma video_of_url (account_name container_name : string) (b : BlobProperties) :
  url (video_of account_name container_name b)
  = video_url account_name container_name (name b).
Proof. unfold video_of. now destruct (parse_video_info (name b)). Qed.

Lemma video_of_file_name (account_name container_name : string)
      (b : BlobProperties) :
  file_name (video_of account_name container_name b) = PurePath.name (name b).
Proof. unfold video_of. now destruct (parse_video_info (name b)). Qed.

Lemma video_of_size (account_name container_name : string) (b : BlobProperties) :
  size (video_of account_name container_name b) = bsize b.
Proof. unfold video_of. now destruct (parse_video_info (name b)). Qed.

(** X7. Within one container the address of a video tells its blob: two
    entries have the same address exactly when they have the same storage
    path. *)
Theorem video_url_unique (account_name container_name : string)
        (b1 b2 : BlobProperties) :
  url (video_of account_name container_name b1)
  = url (video_of account_name container_name b2)
  <-> blob_name (video_of account_name container_name b1)
      = blob_name (video_of account_name container_name b2).
Proof.
  rewrite !video_of_url, !video_of_blob_name. unfold video_url. split.
  - intros H.
    repeat match type of H with
           | ?p +:+ _ = ?p +:+ _ => apply (String.app_inj p) in H
           end.
    now apply quote_inj.
  - now intros ->.
Qed.

(** X8. The address of a video is the account's endpoint, the container
    and the percent-encoded storage path, where only letters, digits,
    ['_'], ['.'], ['-'], ['~'], ['/'] and ['%'] occur. *)
Theorem video_url_encoded (account_name container_name : string)
        (b : BlobProperties) :
  exists path,
    url (video_of account_name container_name b)
    = "https://" +:+ account_name +:+ ".blob.core.windows.net/"
      +:+ container_name +:+ "/" +:+ path
    /\ all_chars url_char path = true
    /\ (all_chars Url.is_safe (name b) = true -> path = name b).
Proof.
  exists (Url.quote (name b)). split; [apply video_of_url|].
  split; [apply quote_chars|].
  induction (name b) as [|c s IH]; [reflexivity|].
  cbn [all_chars Url.quote]. intros H. apply andb_true_iff in H as [Hc Hs].
  now rewrite Hc, IH.
Qed.

(* ===================================================================== *)
(** ** Documents *)
(* ===================================================================== *)

Lemma dict_get_set_eq (k : string) (v : json) (d : Dict.t) :
  Dict.get k (Dict.set k v d) = Some v.
Proof.
  induction d as [|[k' v'] d IH]; simpl.
  - now rewrite String.eqb_refl.
  - destruct (String.eqb_spec k' k) as [->|Hne]; simpl.
    + now rewrite String.eqb_refl.
    + apply String.eqb_neq in Hne. now rewrite Hne.
Qed.

Lemma dict_get_set_ne (k k0 : string) (v : json) (d : Dict.t) :
  k0 <> k -> Dict.get k (Dict.set k0 v d) = Dict.get k d.
Proof.
  intros Hne. induction d as [|[k' v'] d IH]; simpl.
  - apply String.eqb_neq in Hne. now rewrite Hne.
  - destruct (String.eqb_spec k' k0) as [->|Hne']; simpl.
    + apply String.eqb_neq in Hne. now rewrite Hne.
    + now rewrite IH.
Qed.

Lemma dict_get_none (k : string) (d : Dict.t) :
  ~ In k (List.map fst d) -> Dict.get k d = None.
Proof.
  induction d as [|[k' v'] d IH]; simpl; [reflexivity|].
  intros H. destruct (String.eqb_spec k' k) as [->|Hne]; [tauto|].
  apply IH. tauto.
Qed.

(** Looking a key up after [d.update(other)], for an [other] with unique
    keys. *)
Lemma dict_get_update (k : string) (d other : Dict.t) :
  NoDup (List.map fst other) ->
  Dict.get k (Dict.update d other)
  = match Dict.get k other with
    | Some x => Some x
    | None => Dict.get k d
    end.
Proof.
  unfold Dict.update. revert d.
  induction other as [|[k0 v0] other IH]; intros d Hnd; [reflexivity|].
  cbn [fold_left fst snd List.map] in *. inversion Hnd as [|? ? Hk0 Hnd']; subst.
  rewrite (IH _ Hnd'). cbn [Dict.get].
  destruct (String.eqb_spec k0 k) as [->|Hne].
  - rewrite (dict_get_none k other); [apply dict_get_set_eq|].
    now rewrite <- list_elem_of_In.
  - destruct (Dict.get k other); [reflexivity|]. now apply dict_get_set_ne.
Qed.

Lemma dict_set_keys (k : string) (v : json) (d : Dict.t) :
  exists added, List.map fst (Dict.set k v d) = List.map fst d ++ added.
Proof.
  induction d as [|[k' v'] d [added IH]]; simpl.
  - now exists [k].
  - destruct (String.eqb k' k); simpl.
    + exists []. now rewrite List.app_nil_r.
    + exists added. now rewrite IH.
Qed.

Lemma dict_update_keys (d other : Dict.t) :
  exists added, List.map fst (Dict.update d other) = List.map fst d ++ added.
Proof.
  unfold Dict.update. revert d.
  induction other as [|[k0 v0] other IH]; intros d; simpl.
  - exists []. now rewrite List.app_nil_r.
  - destruct (IH (Dict.set k0 v0 d)) as [a1 H1].
    destruct (dict_set_keys k0 v0 d) as [a2 H2].
    exists (a2 ++ a1). now rewrite H1, H2, List.app_assoc.
Qed.

(** X9. Overrides are merged last and field by field: a key of the
    overrides gets the override's value, whole; every other key keeps the
    synthesized value; the seventeen synthesized keys keep their places
    and new keys come after them.  No overrides, or empty ones, change
    nothing. *)
Theorem overrides_replace_fields (video_info : VideoInfo) (custom_data : Dict.t)
        (k : string) :
  NoDup (List.map fst custom_data) ->
  Dict.get k (create_metadata video_info (Some custom_data))
  = match Dict.get k custom_data with
    | Some x => Some x
    | None => Dict.get k (create_metadata video_info None)
    end
  /\ firstn 17 (List.map fst (create_metadata video_info (Some custom_data)))
     = metadata_keys
  /\ create_metadata video_info (Some []) = create_metadata video_info None.
Proof.
  intros Hnd. split; [|split; [|reflexivity]].
  - unfold create_metadata.
    destruct custom_data as [|kv rest]; [reflexivity|].
    cbn [List.length Nat.eqb]. now apply dict_get_update.
  - unfold create_metadata.
    destruct custom_data as [|kv rest]; [reflexivity|].
    cbn [List.length Nat.eqb].
    match goal with
    | |- context [Dict.update ?m ?o] =>
        destruct (dict_update_keys m o) as [added ->]
    end.
    reflexivity.
Qed.

Lemma overrides_replace_fields_witness :
  Dict.get "instructor"
    (create_metadata
       {| blob_name := "beginner/a.mp4"; file_name := "a.mp4";
          clean_name := "a"; category := "beginner"; size := 1048576;
          url := "https://acct.blob.core.windows.net/videos/beginner/a.mp4" |}
       (Some [("instructor", JStr "Ada"); ("language", JStr "en")]))
  = Some (JStr "Ada")
  /\ Dict.get "language"
       (create_metadata
          {| blob_name := "beginner/a.mp4"; file_name := "a.mp4";
             clean_name := "a"; category := "beginner"; size := 1048576;
             url := "https://acct.blob.core.windows.net/videos/beginner/a.mp4" |}
          (Some [("instructor", JStr "Ada"); ("language", JStr "en")]))
     = Some (JStr "en")
  /\ Dict.get "category"
       (create_metadata
          {| blob_name := "beginner/a.mp4"; file_name := "a.mp4";
             clean_name := "a"; category := "beginner"; size := 1048576;
             url := "https://acct.blob.core.windows.net/videos/beginner/a.mp4" |}
          (Some [("instructor", JStr "Ada"); ("language", JStr "en")]))
     = Some (JStr "beginner").
Proof.
  assert (Hnd : NoDup (List.map fst [("instructor", JStr "Ada");
                                     ("language", JStr "en")])).
  { apply NoDup_ListNoDup. simpl.
    repeat constructor; simpl; intuition discriminate. }
  split; [|split];
    match goal with
    | |- Dict.get ?k (create_metadata ?v (Some ?d)) = _ =>
        exact (proj1 (overrides_replace_fields v d k Hnd))
    end.
Defined.

Lemma title_nonempty (filename : string) : clean_filename_for_title filename <> "".
Proof.
  unfold clean_filename_for_title.
  match goal with
  | |- (if String.eqb ?t "" then _ else _) <> _ =>
      destruct (String.eqb_spec t "") as [H|H]; [discriminate | exact H]
  end.
Qed.

(** X10. The document synthesized for an inventoried blob has the
    seventeen keys of the format, each once and in the same order; its
    category and difficulty level are the same one of the three
    categories; its duration lies between 300 and 7200 seconds; its title
    is not empty; its address is that of the blob. *)
Theorem document_shape (account_name container_name : string)
        (b : BlobProperties) :
  List.map fst (create_metadata (video_of account_name container_name b) None)
  = metadata_keys
  /\ NoDup metadata_keys
  /\ (exists cat,
         In cat categories
         /\ Dict.get "category"
              (create_metadata (video_of account_name container_name b) None)
            = Some (JStr cat)
         /\ Dict.get "difficulty_level"
              (create_metadata (video_of account_name container_name b) None)
            = Some (JStr cat))
  /\ (exists d,
         Dict.get "duration_seconds"
           (create_metadata (video_of account_name container_name b) None)
         = Some (JInt d) /\ 300 <= d <= 7200)
  /\ (exists t,
         Dict.get "title"
           (create_metadata (video_of account_name container_name b) None)
         = Some (JStr t) /\ t <> "")
  /\ Dict.get "video_url"
       (create_metadata (video_of account_name container_name b) None)
     = Some (JStr (video_url account_name container_name (name b))).
Proof.
  split; [reflexivity|]. split.
  { apply NoDup_ListNoDup. unfold metadata_keys.
    repeat (constructor; [simpl; intuition discriminate|]). constructor. }
  split.
  { exists (category (video_of account_name container_name b)).
    split; [apply video_of_category_valid|]. split; reflexivity. }
  split.
  { eexists. split; [reflexivity|]. apply estimate_duration_bounds. }
  split.
  { eexists. split; [reflexivity|]. apply title_nonempty. }
  cbn [create_metadata Dict.get]. simpl. now rewrite video_of_url.
Qed.

(* ===================================================================== *)
(** ** The inventory, entry by entry *)
(* ===================================================================== *)

Lemma is_video_name (n : string) : is_video n = true -> PurePath.name n <> "".
Proof.
  unfold is_video, PurePath.suffix. intros H Hn. rewrite Hn in H.
  discriminate H.
Qed.

Section Entries.

Variables account_name container_name : string.

Local Abbreviation entry := (video_of account_name container_name).
Local Abbreviation list_videos :=
  (list_existing_videos account_name container_name).

(** X11. The inventory keeps the order of the listing and has one entry
    per listed video.  Every entry carries the storage path and the size
    of its blob, the last component of the path as file name (not empty,
    without separator), one of the three categories, a clean name without
    separator, and the address of the blob. *)
Theorem inventory_entries (s : Service) :
  (failure (fst (list_blobs None s)) = None ->
   List.map blob_name (fst (run list_videos s))
   = List.filter in_inventory
                 (List.map name (items (fst (list_blobs None s)))))
  /\ Forall (fun v =>
               In (category v) categories
               /\ (category v, clean_name v) = parse_video_info (blob_name v)
               /\ Str.has_char "/" (clean_name v) = false
               /\ file_name v = PurePath.name (blob_name v)
               /\ file_name v <> ""
               /\ Str.has_char "/" (file_name v) = false
               /\ url v = video_url account_name container_name (blob_name v)
               /\ exists b, In b (items (fst (list_blobs None s)))
                            /\ name b = blob_name v /\ bsize b = size v)
            (fst (run list_videos s)).
Proof.
  unfold run. rewrite list_existing_videos_run. cbv zeta. cbn [service].
  destruct (failure (fst (list_blobs None s))) as [e|]; cbn [fst].
  - split; [discriminate | constructor].
  - split.
    + intros _. rewrite List.map_map.
      induction (items (fst (list_blobs None s))) as [|b l IH];
        [reflexivity|].
      cbn [List.map List.filter].
      destruct (in_inventory (name b)); cbn [List.map];
        [rewrite video_of_blob_name, IH; reflexivity | exact IH].
    + apply List.Forall_map, List.Forall_forall. intros b Hb.
      apply filter_In in Hb as [Hb Hin].
      rewrite video_of_blob_name, video_of_category, video_of_clean_name,
        video_of_file_name, video_of_url.
      split; [apply parse_video_info_category|].
      split; [now destruct (parse_video_info (name b))|].
      split; [apply clean_name_no_slash|].
      split; [reflexivity|].
      split; [|split; [apply name_no_slash|split; [reflexivity|]]].
      * apply is_video_name. unfold in_inventory in Hin.
        now apply andb_true_iff in Hin as [_ Hin].
      * exists b. rewrite video_of_size. auto.
Qed.

End Entries.

(* ===================================================================== *)
(** ** Uploads *)
(* ===================================================================== *)

Section Uploads.

Variable dumps : Dict.t -> string.

(** X12. [upload_metadata] writes the serialized document under
    [metadata/] and the given file name, over whatever was there, prints
    the path and answers true; the other blobs stay as they were.  When
    the service raises, it prints the error, answers false and the
    container is unchanged. *)
Theorem upload_metadata_outcome (metadata : Dict.t) (metadata_filename : string)
        (w : World) :
  match fst (upload_blob ("metadata/" +:+ metadata_filename) (dumps metadata)
                         (service w)) with
  | None =>
      fst (upload_metadata dumps metadata metadata_filename w) = true
      /\ stdout (snd (upload_metadata dumps metadata metadata_filename w))
         = stdout w ++ [Created ("metadata/" +:+ metadata_filename)]
      /\ get_blob ("metadata/" +:+ metadata_filename)
                  (blobs (service (snd (upload_metadata dumps metadata
                                                        metadata_filename w))))
         = Some (Text (dumps metadata))
      /\ forall p, p <> "metadata/" +:+ metadata_filename ->
           get_blob p (blobs (service (snd (upload_metadata dumps metadata
                                                            metadata_filename w))))
           = get_blob p (blobs (service w))
  | Some e =>
      fst (upload_metadata dumps metadata metadata_filename w) = false
      /\ stdout (snd (upload_metadata dumps metadata metadata_filename w))
         = stdout w ++ [UploadError metadata_filename e]
      /\ blobs (service (snd (upload_metadata dumps metadata metadata_filename w)))
         = blobs (service w)
  end.
Proof.
  unfold upload_metadata, bind, call, print, ret.
  pose proof (upload_blob_blobs ("metadata/" +:+ metadata_filename)
                (dumps metadata) (service w)) as Hb.
  destruct (upload_blob ("metadata/" +:+ metadata_filename) (dumps metadata)
                        (service w)) as [[e|] s'];
    cbn [fst snd service stdout] in *.
  - repeat split. exact Hb.
  - rewrite Hb. repeat split.
    + apply get_blob_put_eq.
    + intros p Hp. apply get_blob_put_ne. congruence.
Qed.

End Uploads.

(* ===================================================================== *)
(** ** The batch run, line by line *)
(* ===================================================================== *)

Lemma filter_split_length {A} (f : A -> bool) (l : list A) :
  (List.length (List.filter f l)
   + List.length (List.filter (fun x => negb (f x)) l))%nat
  = List.length l.
Proof.
  induction l as [|x l IH]; [reflexivity|]. simpl.
  destruct (f x); simpl; lia.
Qed.

Lemma upload_paths_length (out : list Event) :
  List.length (upload_paths out)
  = (List.length (created_paths out) + List.length (failed_uploads out))%nat.
Proof.
  induction out as [|e out IH]; [reflexivity|].
  unfold upload_paths, created_paths, failed_uploads in *.
  cbn [flat_map]. rewrite !List.length_app, IH. destruct e; simpl; lia.
Qed.

Section Lines.

Variable dumps : Dict.t -> string.
Variables account_name container_name : string.

Local Abbreviation list_videos :=
  (list_existing_videos account_name container_name).
Local Abbreviation generate_all :=
  (generate_all_metadata dumps account_name container_name).

(** The listing prints no line about a video or an upload. *)
Lemma list_videos_lines (s : Service) :
  skipped_files (printed list_videos s) = []
  /\ generating_files (printed list_videos s) = []
  /\ upload_paths (printed list_videos s) = []
  /\ created_paths (printed list_videos s) = []
  /\ failed_uploads (printed list_videos s) = [].
Proof.
  unfold printed, run. rewrite list_existing_videos_run. cbv zeta.
  destruct (failure (fst (list_blobs None (service _)))); repeat split.
Qed.

(** The generated count is the number of documents created. *)
Lemma loop_generated (E : gset string) (force : bool) (videos : list VideoInfo)
      (counts : nat * nat) (w : World) :
  (List.length (created_paths
                  (stdout (snd (for_each videos (process dumps E force)
                                         counts w))))
   + fst counts)%nat
  = (List.length (created_paths (stdout w))
     + fst (fst (for_each videos (process dumps E force) counts w)))%nat.
Proof.
  revert counts w. induction videos as [|v videos IH]; intros [g sk] w.
  - simpl. lia.
  - rewrite for_each_cons, process_run.
    destruct (skips E force v); cbn [fst snd].
    + match goal with
      | |- context [for_each videos _ ?c ?w'] => pose proof (IH c w') as H
      end.
      cbn [fst stdout] in H. unfold created_paths in *.
      rewrite flat_map_app, List.length_app in H. simpl in H. lia.
    + cbv zeta.
      destruct (upload_blob (metadata_path v) _ (service w)) as [[e|] s'];
        cbn [fst snd];
        match goal with
        | |- context [for_each videos _ ?c ?w'] => pose proof (IH c w') as H
        end;
        cbn [fst stdout] in H; unfold created_paths in *;
        rewrite flat_map_app, List.length_app in H; simpl in H; lia.
Qed.

End Lines.

Section Summary.

Variable dumps : Dict.t -> string.
Variables account_name container_name : string.

Local Abbreviation list_videos :=
  (list_existing_videos account_name container_name).
Local Abbreviation generate_all :=
  (generate_all_metadata dumps account_name container_name).
Local Abbreviation videos_of := (batch_videos account_name container_name).
Local Abbreviation existing_of := (batch_existing account_name container_name).

(** A batch run as its main loop, from the state the two listings leave. *)
Lemma batch_loop (force : bool) (s : Service) :
  exists w,
    blobs (service w) = blobs s
    /\ upload_faults (service w) = upload_faults s
    /\ skipped_files (stdout w) = [] /\ generating_files (stdout w) = []
    /\ upload_paths (stdout w) = [] /\ created_paths (stdout w) = []
    /\ let r := for_each (videos_of s) (process dumps (existing_of s) force)
                         (O, O) w in
       blobs (after (generate_all force) s) = blobs (service (snd r))
       /\ printed (generate_all force) s
          = match videos_of s with
            | [] => printed list_videos s ++ [NoVideos]
            | _ :: _ => stdout (snd r)
                        ++ [Complete (fst (fst r)) (snd (fst r))
                                     (List.length (videos_of s))]
            end.
Proof.
  destruct (list_videos_lines account_name container_name s)
    as (P1 & P2 & P3 & P4 & _).
  assert (Hb1 : blobs (service (snd (run list_videos s))) = blobs s).
  { unfold run. rewrite list_existing_videos_run. cbv zeta. cbn [service].
    destruct (failure (fst (list_blobs None s))); cbn [snd service];
      apply list_blobs_keeps_blobs. }
  assert (Hu1 : upload_faults (service (snd (run list_videos s)))
                = upload_faults s).
  { unfold run. rewrite list_existing_videos_run. cbv zeta. cbn [service].
    unfold list_blobs.
    destruct (list_faults s) as [|[[k e]|] rest]; reflexivity. }
  exists {| service := snd (list_blobs (Some "metadata/")
                                       (service (snd (run list_videos s))));
            stdout := printed list_videos s
                      ++ [GeneratingFor (List.length (videos_of s))] |}.
  cbn [service stdout].
  split; [now rewrite list_blobs_keeps_blobs|].
  split.
  { rewrite <- Hu1. unfold list_blobs.
    destruct (list_faults (service (snd (run list_videos s))))
      as [|[[k e]|] rest]; reflexivity. }
  unfold skipped_files, generating_files, upload_paths, created_paths in *.
  rewrite !flat_map_app, P1, P2, P3, P4. cbn [flat_map List.app].
  repeat (split; [reflexivity|]).
  cbv zeta. unfold after, printed, batch_videos, batch_existing.
  assert (Hgen : run (generate_all force) s
                 = generate_all force {| service := s; stdout := [] |})
    by reflexivity.
  rewrite Hgen, generate_all_run. cbv zeta.
  change (list_videos {| service := s; stdout := [] |})
    with (run list_videos s).
  destruct (fst (run list_videos s)) as [|v vs] eqn:Ev; cbn [snd service stdout].
  - split; [|reflexivity]. cbn [for_each]. unfold ret. cbn [snd service].
    now rewrite list_blobs_keeps_blobs.
  - split; reflexivity.
Qed.

(** The lines of a batch run about single videos. *)
Lemma batch_lines (force : bool) (s : Service) :
  skipped_files (printed (generate_all force) s)
  = List.map file_name
      (List.filter (skips (existing_of s) force) (videos_of s))
  /\ generating_files (printed (generate_all force) s)
     = List.map file_name
         (List.filter (fun v => negb (skips (existing_of s) force v))
                      (videos_of s))
  /\ upload_paths (printed (generate_all force) s)
     = List.map metadata_path
         (List.filter (fun v => negb (skips (existing_of s) force v))
                      (videos_of s)).
Proof.
  destruct (batch_loop force s) as (w & _ & _ & W1 & W2 & W3 & _ & _ & Hp).
  rewrite Hp.
  destruct (loop_trace dumps (existing_of s) force (videos_of s) (O, O) w)
    as (T1 & T2 & T3 & _).
  rewrite W1 in T1. rewrite W2 in T2. rewrite W3 in T3.
  destruct (list_videos_lines account_name container_name s)
    as (P1 & P2 & P3 & _).
  destruct (videos_of s) as [|v vs].
  - unfold skipped_files, generating_files, upload_paths in *.
    rewrite !flat_map_app, P1, P2, P3. repeat split.
  - unfold skipped_files, generating_files, upload_paths in *.
    rewrite !flat_map_app, T1, T2, T3. cbn [flat_map List.app].
    rewrite !List.app_nil_r. repeat split.
Qed.

(** X13. With force-overwrite every inventoried video is synthesized and
    its upload attempted, in inventory order, whatever documents exist and
    whatever the enumeration of [metadata/] or earlier uploads did; no
    video is skipped. *)
Theorem force_republishes_all (s : Service) :
  skipped_files (printed (generate_all true) s) = []
  /\ generating_files (printed (generate_all true) s)
     = List.map file_name (videos_of s)
  /\ upload_paths (printed (generate_all true) s)
     = List.map metadata_path (videos_of s).
Proof.
  destruct (batch_lines true s) as (H1 & H2 & H3).
  assert (Hs : forall v, skips (existing_of s) true v = false)
    by (intros v; unfold skips; apply andb_false_r).
  rewrite H1, H2, H3.
  rewrite (filter_ext _ (fun _ => false)) by exact Hs.
  rewrite (filter_ext (fun v => negb (skips (existing_of s) true v))
                      (fun _ => true))
    by (intros v; now rewrite Hs).
  now rewrite filter_false, filter_true.
Qed.

(** X14. A batch run goes through the whole inventory: it attempts an
    upload for each video it does not skip, in inventory order, and a
    failed upload does not stop the following ones.  Its last line counts
    the documents created, the videos skipped and the videos inventoried;
    created, skipped and failed uploads add up to the inventory.  With an
    empty inventory the last line tells that no video was found. *)
Theorem batch_summary (force : bool) (s : Service) :
  upload_paths (printed (generate_all force) s)
  = List.map metadata_path
      (List.filter (fun v => negb (skips (existing_of s) force v))
                   (videos_of s))
  /\ List.last (printed (generate_all force) s) Scanning
     = match videos_of s with
       | [] => NoVideos
       | _ :: _ =>
           Complete
             (List.length (created_paths (printed (generate_all force) s)))
             (List.length (skipped_files (printed (generate_all force) s)))
             (List.length (videos_of s))
       end
  /\ (List.length (created_paths (printed (generate_all force) s))
      + List.length (skipped_files (printed (generate_all force) s))
      + List.length (failed_uploads (printed (generate_all force) s)))%nat
     = List.length (videos_of s).
Proof.
  destruct (batch_lines force s) as (H1 & _ & H3).
  split; [exact H3|].
  assert (Hsum : (List.length (created_paths (printed (generate_all force) s))
                  + List.length (skipped_files (printed (generate_all force) s))
                  + List.length (failed_uploads (printed (generate_all force) s)))%nat
                 = List.length (videos_of s)).
  { pose proof (upload_paths_length (printed (generate_all force) s)) as Hl.
    rewrite H3 in Hl. rewrite H1. rewrite !List.length_map in *.
    pose proof (filter_split_length (skips (existing_of s) force) (videos_of s)).
    lia. }
  split; [|exact Hsum].
  destruct (batch_loop force s) as (w & _ & _ & W1 & _ & _ & W4 & _ & Hp).
  destruct (videos_of s) as [|v vs] eqn:Ev.
  - rewrite Hp. apply last_last.
  - pose proof (loop_generated dumps (existing_of s) force (v :: vs) (O, O) w)
      as Hg.
    destruct (loop_trace dumps (existing_of s) force (v :: vs) (O, O) w)
      as (T1 & _ & _ & _ & T5).
    rewrite W4 in Hg. rewrite W1 in T1. cbn [fst snd List.length] in Hg, T5.
    rewrite Hp, last_last. unfold created_paths, skipped_files in *.
    rewrite !flat_map_app. cbn [flat_map]. rewrite !List.app_nil_r.
    rewrite T1. cbn [List.app]. rewrite List.length_map.
    f_equal; lia.
Qed.

(** X15. When the inventory is empty, because no blob is a video or
    because the listing failed, a batch run prints that no video was
    found and stops: it does not enumerate [metadata/] and the container
    is unchanged. *)
Theorem empty_inventory_stops (force : bool) (s : Service) :
  videos_of s = [] ->
  printed (generate_all force) s = printed list_videos s ++ [NoVideos]
  /\ after (generate_all force) s = service (snd (run list_videos s))
  /\ blobs (after (generate_all force) s) = blobs s
  /\ list_faults (after (generate_all force) s) = List.tl (list_faults s)
  /\ upload_faults (after (generate_all force) s) = upload_faults s.
Proof.
  unfold batch_videos. intros Hv.
  assert (Hrun : run (generate_all force) s
                 = (tt, {| service := service (snd (run list_videos s));
                           stdout := printed list_videos s ++ [NoVideos] |})).
  { assert (Hgen : run (generate_all force) s
                   = generate_all force {| service := s; stdout := [] |})
      by reflexivity.
    rewrite Hgen, generate_all_run. cbv zeta.
    change (list_videos {| service := s; stdout := [] |})
      with (run list_videos s).
    now rewrite Hv. }
  unfold after, printed at 1. rewrite Hrun. cbn [snd service stdout].
  split; [reflexivity|]. split; [reflexivity|].
  unfold run. rewrite list_existing_videos_run. cbv zeta. cbn [service].
  unfold list_blobs.
  destruct (list_faults s) as [|[[k e]|] rest] eqn:El;
    cbn [fst snd failure service blobs list_faults upload_faults List.tl];
    repeat split; exact El.
Qed.

End Summary.

Lemma empty_inventory_stops_witness :
  printed (generate_all_metadata Json.dumps "acct" "training-videos" false)
          {| blobs := [("a.mp4", Opaque 1048576)];
             list_faults := [Some (O, "forbidden"); None];
             upload_faults := [] |}
  = [Scanning; ListError "forbidden"; NoVideos]
  /\ blobs (after (generate_all_metadata Json.dumps "acct" "training-videos"
                                         false)
                  {| blobs := [("a.mp4", Opaque 1048576)];
                     list_faults := [Some (O, "forbidden"); None];
                     upload_faults := [] |})
     = [("a.mp4", Opaque 1048576)]
  /\ list_faults (after (generate_all_metadata Json.dumps "acct"
                                               "training-videos" false)
                        {| blobs := [("a.mp4", Opaque 1048576)];
                           list_faults := [Some (O, "forbidden"); None];
                           upload_faults := [] |})
     = [None].
Proof.
  destruct (empty_inventory_stops Json.dumps "acct" "training-videos" false
              {| blobs := [("a.mp4", Opaque 1048576)];
                 list_faults := [Some (O, "forbidden"); None];
                 upload_faults := [] |} eq_refl)
    as (H1 & _ & H3 & H4 & _).
  split; [exact H1|]. split; [exact H3 | exact H4].
Defined.

(* ===================================================================== *)
(** ** What a batch run leaves in the container *)
(* ===================================================================== *)

Section Container.

Variable dumps : Dict.t -> string.
Variables account_name container_name : string.

Local Abbreviation list_videos :=
  (list_existing_videos account_name container_name).
Local Abbreviation generate_all :=
  (generate_all_metadata dumps account_name container_name).
Local Abbreviation videos_of := (batch_videos account_name container_name).
Local Abbreviation existing_of := (batch_existing account_name container_name).

(** X16. A batch run never deletes a blob and never writes outside
    [metadata/]: every name of the container is still there afterwards,
    and every path that does not start with [metadata/] holds what it
    held, whatever the faults and the force-overwrite flag. *)
Theorem batch_keeps_videos (force : bool) (s : Service) :
  (forall n, In n (List.map fst (blobs s)) ->
             In n (List.map fst (blobs (after (generate_all force) s))))
  /\ (forall p, Str.startswith "metadata/" p = false ->
                get_blob p (blobs (after (generate_all force) s))
                = get_blob p (blobs s)).
Proof.
  destruct (batch_loop dumps account_name container_name force s)
    as (w & Hb & _ & _ & _ & _ & _ & Ha & _).
  cbv zeta in Ha. rewrite Ha. split.
  - intros n Hn.
    destruct (loop_service dumps (existing_of s) force (videos_of s) (O, O) w)
      as (_ & _ & _ & L4 & _).
    apply L4. now rewrite Hb.
  - intros p Hp.
    destruct (loop_get_blob dumps (existing_of s) force (videos_of s)
                            (O, O) w p) as [H|(v & _ & Hpath & _)].
    + now rewrite H, Hb.
    + exfalso. rewrite <- Hpath in Hp. unfold metadata_path in Hp.
      rewrite startswith_app in Hp. discriminate.
Qed.

(** With uploads that succeed the loop leaves under every path the
    document of the last video written there, or what was there. *)
Lemma loop_last_writer (E : gset string) (force : bool)
      (videos : list VideoInfo) (counts : nat * nat) (w : World) (p : string) :
  upload_faults (service w) = [] ->
  get_blob p (blobs (service (snd (for_each videos (process dumps E force)
                                            counts w))))
  = match List.find (fun v => String.eqb (metadata_path v) p)
                    (List.rev (List.filter (fun v => negb (skips E force v))
                                           videos)) with
    | Some v => Some (Text (dumps (create_metadata v None)))
    | None => get_blob p (blobs (service w))
    end.
Proof.
  revert counts w. induction videos as [|v videos IH]; intros [g sk] w Hup;
    [reflexivity|].
  rewrite for_each_cons.
  rewrite (IH _ _ (loop_upload_faults dumps E force v (g, sk) w Hup)).
  rewrite process_run. cbn [List.filter].
  destruct (skips E force v); cbn [negb snd service]; [reflexivity|].
  cbn [List.rev]. rewrite find_app. cbv zeta.
  destruct (List.find _ (List.rev _)) as [u|]; [reflexivity|].
  destruct (upload_blob_reliable (metadata_path v)
              (dumps (create_metadata v None)) (service w) Hup) as [H1 _].
  pose proof (upload_blob_blobs (metadata_path v)
                (dumps (create_metadata v None)) (service w)) as Hb.
  rewrite H1 in Hb |- *. cbn [snd service List.find]. rewrite Hb.
  destruct (String.eqb_spec (metadata_path v) p) as [<-|Hne].
  - apply get_blob_put_eq.
  - now apply get_blob_put_ne.
Qed.

(** X17. When no upload fails, a batch run leaves under every path the
    document of the last inventoried video that is not skipped and whose
    metadata path it is, and what the container held when there is none:
    of several videos with one clean name only the last one's document
    remains. *)
Theorem last_video_wins (force : bool) (s : Service) (p : string) :
  upload_faults s = [] ->
  get_blob p (blobs (after (generate_all force) s))
  = match List.find (fun v => String.eqb (metadata_path v) p)
                    (List.rev
                       (List.filter
                          (fun v => negb (skips (existing_of s) force v))
                          (videos_of s))) with
    | Some v => Some (Text (dumps (create_metadata v None)))
    | None => get_blob p (blobs s)
    end.
Proof.
  intros Hup.
  destruct (batch_loop dumps account_name container_name force s)
    as (w & Hb & Hu & _ & _ & _ & _ & Ha & _).
  cbv zeta in Ha. rewrite Ha, loop_last_writer by now rewrite Hu.
  now rewrite Hb.
Qed.

(** X19. When both listings succeed and force-overwrite is off, a video
    is skipped exactly when some blob under [metadata/], at any depth, has
    a name that ends in [.json] in lower case and the video's clean name
    as base name; every other inventoried video is uploaded. *)
Theorem skip_criterion (s : Service) :
  list_faults s = [] ->
  skipped_files (printed (generate_all false) s)
  = List.map file_name
      (List.filter (fun v => documented s (clean_name v))
                   (inventory_of account_name container_name s))
  /\ upload_paths (printed (generate_all false) s)
     = List.map metadata_path
         (List.filter (fun v => negb (documented s (clean_name v)))
                      (inventory_of account_name container_name s)).
Proof.
  intros Hl.
  destruct (batch_lines dumps account_name container_name false s)
    as (H1 & _ & H3).
  assert (Hv : videos_of s = inventory_of account_name container_name s).
  { unfold batch_videos.
    now rewrite (inventory_reliable account_name container_name s Hl). }
  assert (He : existing_of s
               = existing_metadata_of (fst (list_blobs (Some "metadata/") s))).
  { unfold batch_existing.
    now rewrite (inventory_reliable account_name container_name s Hl). }
  assert (Hs : forall v, skips (existing_of s) false v
                         = documented s (clean_name v)).
  { intros v. unfold skips. rewrite andb_true_r, He.
    destruct (documented s (clean_name v)) eqn:Hd.
    - apply bool_decide_eq_true. apply (existing_of_store s _ Hl).
      unfold documented in Hd. apply existsb_exists in Hd as (n & Hn & Hd).
      apply andb_true_iff in Hd as [Hd Hst].
      apply andb_true_iff in Hd as [Hp Hj].
      apply String.eqb_eq in Hst. exists n. auto.
    - apply bool_decide_eq_false. intros Hin.
      apply (existing_of_store s _ Hl) in Hin as (n & Hn & Hp & Hj & Hst).
      assert (documented s (clean_name v) = true); [|congruence].
      unfold documented. apply existsb_exists. exists n.
      split; [exact Hn|]. rewrite Hp, Hj, Hst. now rewrite String.eqb_refl. }
  rewrite H1, H3, Hv. split; f_equal; apply filter_ext; intros v;
    now rewrite Hs.
Qed.

End Container.

Lemma last_video_wins_witness :
  get_blob "metadata/a.json"
    (blobs (after (generate_all_metadata Json.dumps "acct" "training-videos"
                                         false) twin_container))
  = Some (Text (Json.dumps
                  (create_metadata
                     (video_of "acct" "training-videos"
                               {| name := "advanced/a.mp4"; bsize := 2097152 |})
                     None)))
  /\ List.map fst
       (blobs (after (generate_all_metadata Json.dumps "acct" "training-videos"
                                            false) twin_container))
     = ["beginner/a.mp4"; "advanced/a.mp4"; "metadata/a.json"].
Proof.
  split; [|reflexivity].
  rewrite (last_video_wins Json.dumps "acct" "training-videos" false
             twin_container "metadata/a.json" eq_refl).
  reflexivity.
Defined.

Lemma skip_criterion_witness :
  skipped_files
    (printed (generate_all_metadata Json.dumps "acct" "training-videos" false)
             nested_container) = ["a.mp4"]
  /\ upload_paths
       (printed (generate_all_metadata Json.dumps "acct" "training-videos" false)
                nested_container) = ["metadata/b.json"; "metadata/c.json"].
Proof.
  destruct (skip_criterion Json.dumps "acct" "training-videos" nested_container
              eq_refl) as [H1 H2].
  split; [rewrite H1 | rewrite H2]; reflexivity.
Defined.

Lemma second_run_skips_named_videos_witness :
  inventory_of "acct" "training-videos"
    (after (generate_all_metadata Json.dumps "acct" "training-videos" false)
           mixed_container)
  = inventory_of "acct" "training-videos" mixed_container
  /\ skipped_files
       (printed (generate_all_metadata Json.dumps "acct" "training-videos" false)
          (after (generate_all_metadata Json.dumps "acct" "training-videos"
                                        false) mixed_container))
     = ["a.mp4"; "clip.MOV"]
  /\ after (generate_all_metadata Json.dumps "acct" "training-videos" false)
       (after (generate_all_metadata Json.dumps "acct" "training-videos" false)
              mixed_container)
     = after (generate_all_metadata Json.dumps "acct" "training-videos" false)
             mixed_container.
Proof.
  destruct (second_run_skips_named_videos Json.dumps "acct" "training-videos"
              mixed_container eq_refl eq_refl) as (H1 & H2 & _ & H4).
  split; [exact H1|]. split.
  - rewrite H2. reflexivity.
  - apply H4. intros v Hv. vm_compute in Hv.
    destruct Hv as [<-|[<-|[]]]; discriminate.
Defined.

(* ===================================================================== *)
(** ** One video *)
(* ===================================================================== *)

Lemma find_first {A} (f : A -> bool) (pre post : list A) (t : A) :
  (forall v, In v pre -> f v = false) -> f t = true ->
  List.find f (pre ++ t :: post) = Some t.
Proof.
  intros Hpre Ht. induction pre as [|x pre IH]; simpl.
  - now rewrite Ht.
  - rewrite (Hpre x (or_introl eq_refl)). apply IH.
    intros v Hv. apply Hpre. now right.
Qed.

Lemma find_nothing {A} (f : A -> bool) (l : list A) :
  (forall v, In v l -> f v = false) -> List.find f l = None.
Proof.
  intros H. induction l as [|x l IH]; [reflexivity|]. simpl.
  rewrite (H x (or_introl eq_refl)). apply IH.
  intros v Hv. apply H. now right.
Qed.

Section OneVideo.

Variable dumps : Dict.t -> string.
Variables account_name container_name : string.

Local Abbreviation list_videos :=
  (list_existing_videos account_name container_name).
Local Abbreviation generate_one :=
  (generate_metadata_for_video dumps account_name container_name).
Local Abbreviation videos_of := (batch_videos account_name container_name).

(** [generate_metadata_for_video], step by step. *)
Lemma generate_one_run (x : string) (custom : option Dict.t) (s : Service) :
  run (generate_one x custom) s
  = let w1 := snd (run list_videos s) in
    match List.find (matches x) (videos_of s) with
    | None =>
        (tt, {| service := service w1; stdout := stdout w1 ++ [NotFound x] |})
    | Some t =>
        let r := upload_blob (metadata_path t)
                             (dumps (create_metadata t custom)) (service w1) in
        (tt, {| service := snd r;
                stdout := stdout w1
                          ++ [Generating (file_name t);
                              match fst r with
                              | None => Created (metadata_path t)
                              | Some e => UploadError (clean_name t +:+ ".json") e
                              end] |})
    end.
Proof.
  unfold run at 1, generate_metadata_for_video, bind at 1, batch_videos.
  change (list_videos {| service := s; stdout := [] |})
    with (run list_videos s).
  destruct (run list_videos s) as [videos w1]. cbn [fst snd].
  change (fun v => String.eqb (blob_name v) x || String.eqb (file_name v) x)
    with (matches x).
  destruct (List.find (matches x) videos) as [t|]; [|reflexivity].
  unfold bind, print, upload_metadata, bind, call, print, ret, metadata_path.
  cbn [service stdout].
  destruct (upload_blob _ _ (service w1)) as [[e|] s'];
    cbn [fst snd service stdout]; now rewrite <- List.app_assoc.
Qed.

(** X20. When no inventoried video has the given identifier as storage
    path or as file name, also because the listing failed, the generator
    prints that the video was not found and writes nothing. *)
Theorem unknown_video_writes_nothing (x : string) (custom : option Dict.t)
        (s : Service) :
  (forall v, In v (videos_of s) -> blob_name v <> x /\ file_name v <> x) ->
  printed (generate_one x custom) s = printed list_videos s ++ [NotFound x]
  /\ blobs (after (generate_one x custom) s) = blobs s
  /\ upload_faults (after (generate_one x custom) s) = upload_faults s.
Proof.
  intros Hno. unfold printed at 1, after. rewrite generate_one_run. cbv zeta.
  rewrite find_nothing.
  - cbn [snd service stdout]. split; [reflexivity|].
    unfold run. rewrite list_existing_videos_run. cbv zeta. cbn [service].
    unfold list_blobs.
    destruct (list_faults s) as [|[[k e]|] rest];
      cbn [fst snd failure service blobs upload_faults]; split; reflexivity.
  - intros v Hv. destruct (Hno v Hv) as [H1 H2]. unfold matches.
    apply String.eqb_neq in H1, H2. now rewrite H1, H2.
Qed.

(** X21. The generator for one video takes the first inventoried video
    whose storage path or file name is the given identifier, merges the
    overrides into its document and attempts the upload without looking
    for an existing document; when the upload succeeds the document is
    under the video's metadata path and every other path holds what it
    held. *)
Theorem first_match_is_published (x : string) (custom : option Dict.t)
        (s : Service) (pre post : list VideoInfo) (t : VideoInfo) :
  videos_of s = pre ++ t :: post ->
  (forall v, In v pre -> blob_name v <> x /\ file_name v <> x) ->
  blob_name t = x \/ file_name t = x ->
  generating_files (printed (generate_one x custom) s) = [file_name t]
  /\ upload_paths (printed (generate_one x custom) s) = [metadata_path t]
  /\ (upload_faults s = [] ->
      get_blob (metadata_path t) (blobs (after (generate_one x custom) s))
      = Some (Text (dumps (create_metadata t custom)))
      /\ forall p, p <> metadata_path t ->
           get_blob p (blobs (after (generate_one x custom) s))
           = get_blob p (blobs s)).
Proof.
  intros Hv Hpre Ht.
  destruct (list_videos_lines account_name container_name s)
    as (_ & P2 & P3 & _).
  assert (Hfind : List.find (matches x) (videos_of s) = Some t).
  { rewrite Hv. apply find_first.
    - intros v Hin. destruct (Hpre v Hin) as [H1 H2]. unfold matches.
      apply String.eqb_neq in H1, H2. now rewrite H1, H2.
    - unfold matches. destruct Ht as [<-|<-]; rewrite String.eqb_refl;
        [reflexivity | apply orb_true_r]. }
  assert (Hb1 : blobs (service (snd (run list_videos s))) = blobs s
                /\ upload_faults (service (snd (run list_videos s)))
                   = upload_faults s).
  { unfold run. rewrite list_existing_videos_run. cbv zeta. cbn [service].
    unfold list_blobs.
    destruct (list_faults s) as [|[[k e]|] rest];
      cbn [fst snd failure service blobs upload_faults]; split; reflexivity. }
  destruct Hb1 as [Hb1 Hu1].
  unfold printed at 1 2, after. rewrite generate_one_run. cbv zeta.
  rewrite Hfind. cbn [snd service stdout].
  fold (printed list_videos s).
  unfold generating_files, upload_paths in *. rewrite !flat_map_app, P2, P3.
  split; [destruct (fst (upload_blob _ _ _)); reflexivity|]. split.
  - cbn [flat_map List.app].
    destruct (fst (upload_blob _ _ _)); reflexivity.
  - intros Hup. rewrite <- Hu1 in Hup.
    destruct (upload_blob_reliable (metadata_path t)
                (dumps (create_metadata t custom))
                (service (snd (run list_videos s))) Hup) as [H1 _].
    pose proof (upload_blob_blobs (metadata_path t)
                  (dumps (create_metadata t custom))
                  (service (snd (run list_videos s)))) as Hb.
    rewrite H1 in Hb. rewrite Hb, Hb1. split.
    + apply get_blob_put_eq.
    + intros p Hp. apply get_blob_put_ne. congruence.
Qed.

End OneVideo.

Lemma unknown_video_writes_nothing_witness :
  printed (generate_metadata_for_video Json.dumps "acct" "training-videos"
                                       "notes.txt" None) mixed_container
  = [Scanning; Found 2; NotFound "notes.txt"]
  /\ blobs (after (generate_metadata_for_video Json.dumps "acct"
                     "training-videos" "notes.txt" None) mixed_container)
     = blobs mixed_container.
Proof.
  destruct (unknown_video_writes_nothing Json.dumps "acct" "training-videos"
              "notes.txt" None mixed_container) as (H1 & H2 & _).
  - intros v Hv. vm_compute in Hv.
    destruct Hv as [<-|[<-|[]]]; split; discriminate.
  - split; [exact H1 | exact H2].
Defined.

Lemma first_match_is_published_witness :
  upload_paths
    (printed (generate_metadata_for_video Json.dumps "acct" "training-videos"
                                          "a.mp4" None) twin_container)
  = ["metadata/a.json"]
  /\ get_blob "metadata/a.json"
       (blobs (after (generate_metadata_for_video Json.dumps "acct"
                        "training-videos" "a.mp4" None) twin_container))
     = Some (Text (Json.dumps
                     (create_metadata
                        (video_of "acct" "training-videos"
                                  {| name := "beginner/a.mp4";
                                     bsize := 1048576 |})
                        None))).
Proof.
  destruct (first_match_is_published Json.dumps "acct" "training-videos"
              "a.mp4" None twin_container []
              [video_of "acct" "training-videos"
                        {| name := "advanced/a.mp4"; bsize := 2097152 |}]
              (video_of "acct" "training-videos"
                        {| name := "beginner/a.mp4"; bsize := 1048576 |}))
    as (_ & H2 & H3).
  - reflexivity.
  - intros v [].
  - right. reflexivity.
  - split; [exact H2|]. exact (proj1 (H3 eq_refl)).
Defined.
